(** * swiss-jobs-bot: a shallow embedding of [app.py]

    The Streamlit application is one script that is re-executed from the
    top on every operator interaction.  The embedding follows that shape:
    Python strings and values first, then the drafting helpers, the job
    catalog and its selector, the Firestore profile, the session store and
    the page handlers, and finally the main script.  The theorems come
    after all definitions. *)

From Stdlib Require Import String Ascii DecimalString DecimalZ.
From stdpp Require Import gmap list sets.

#[local] Set Warnings "-clear-no-such-hyp".

(** ** Python strings *)

Module PyStr.

(** A Python [str] is a sequence of Unicode code points. *)
Definition char := N.
Definition str := list N.

(** An ASCII literal of the source, as code points. *)
Definition py (s : string) : str := N_of_ascii <$> list_ascii_of_string s.

(** [str.isspace] on one code point, as used by [str.strip()] without
    arguments (CPython's [_PyUnicode_IsWhitespace]). *)
Definition isspace (c : char) : bool :=
  ((9 <=? c) && (c <=? 13) || (28 <=? c) && (c <=? 32)
   || (c =? 133) || (c =? 160) || (c =? 5760)
   || (8192 <=? c) && (c <=? 8202) || (c =? 8232) || (c =? 8233)
   || (c =? 8239) || (c =? 8287) || (c =? 12288))%N.

Fixpoint lstrip (s : str) : str :=
  match s with
  | c :: s' => if isspace c then lstrip s' else s
  | [] => []
  end.

Definition rstrip (s : str) : str := reverse (lstrip (reverse s)).

(** [s.strip()] *)
Definition strip (s : str) : str := rstrip (lstrip s).

(** [s.startswith(p)] *)
Fixpoint startswith (p s : str) : bool :=
  match p, s with
  | [], _ => true
  | a :: p', b :: s' => (a =? b)%N && startswith p' s'
  | _ :: _, [] => false
  end.

(** [sub in s] *)
Fixpoint contains (sub s : str) : bool :=
  startswith sub s
  || match s with
     | [] => false
     | _ :: s' => contains sub s'
     end.

(** The text before and after the leftmost occurrence of [sep], if any. *)
Fixpoint partition (sep s : str) : option (str * str) :=
  if startswith sep s then Some ([], drop (length sep) s)
  else match s with
       | [] => None
       | c :: s' =>
           match partition sep s' with
           | Some (a, b) => Some (c :: a, b)
           | None => None
           end
       end.

(** [s.split(sep, 1)] for a non-empty [sep]. *)
Definition split1 (sep s : str) : list str :=
  match partition sep s with
  | Some (a, b) => [a; b]
  | None => [s]
  end.

(** [s.split(sep)[0]] for a one-character [sep]. *)
Fixpoint split_head (sep : char) (s : str) : str :=
  match s with
  | [] => []
  | c :: s' => if (c =? sep)%N then [] else c :: split_head sep s'
  end.

(** [s.replace(old, '')] for a non-empty [old]: occurrences are found left
    to right and do not overlap.  [skip] counts the characters of the
    occurrence in progress that are still to be dropped. *)
Fixpoint remove_from (old : str) (skip : nat) (s : str) : str :=
  match s with
  | [] => []
  | c :: s' =>
      match skip with
      | S k => remove_from old k s'
      | O =>
          if startswith old s then remove_from old (length old - 1) s'
          else c :: remove_from old 0 s'
      end
  end.

Definition remove_all (old s : str) : str := remove_from old 0 s.

(** Decimal digits of [str(n)]. *)
Fixpoint digits (u : Decimal.uint) : str :=
  match u with
  | Decimal.Nil => []
  | Decimal.D0 u => 48%N :: digits u
  | Decimal.D1 u => 49%N :: digits u
  | Decimal.D2 u => 50%N :: digits u
  | Decimal.D3 u => 51%N :: digits u
  | Decimal.D4 u => 52%N :: digits u
  | Decimal.D5 u => 53%N :: digits u
  | Decimal.D6 u => 54%N :: digits u
  | Decimal.D7 u => 55%N :: digits u
  | Decimal.D8 u => 56%N :: digits u
  | Decimal.D9 u => 57%N :: digits u
  end.

Definition str_of_Z (z : Z) : str :=
  match Z.to_int z with
  | Decimal.Pos u => digits u
  | Decimal.Neg u => 45%N :: digits u
  end.

End PyStr.
Export PyStr.

(** ** Python values *)

(** The values that reach the modelled code: [None], strings, the integers
    and booleans of a numeric CSV column, and the float NaN that pandas
    puts in an empty cell. *)
Inductive pyval :=
| PNone
| PStr (s : str)
| PInt (z : Z)
| PBool (b : bool)
| PNaN.

(** [bool(v)] *)
Definition truthy (v : pyval) : bool :=
  match v with
  | PNone => false
  | PStr s => negb (bool_decide (s = []))
  | PInt z => negb (z =? 0)%Z
  | PBool b => b
  | PNaN => true
  end.

(** [a or b] *)
Definition py_or (a b : pyval) : pyval := if truthy a then a else b.

(** [isinstance(v, str)] *)
Definition is_str (v : pyval) : bool :=
  match v with PStr _ => true | _ => false end.

(** [str(v)], which is also what an f-string field [{v}] inserts. *)
Definition fmt (v : pyval) : str :=
  match v with
  | PNone => py "None"
  | PStr s => s
  | PInt z => str_of_Z z
  | PBool true => py "True"
  | PBool false => py "False"
  | PNaN => py "nan"
  end.

(** A [dict] with string keys. *)
Abbreviation dict := (gmap str pyval).

(** [d.get(k, dflt)] *)
Definition dict_get (d : dict) (k : str) (dflt : pyval) : pyval :=
  default dflt (d !! k).

(** Evaluating [sub in v]: a [TypeError] ([None] here) unless [v] is a
    string. *)
Definition py_in (sub : str) (v : pyval) : option bool :=
  match v with
  | PStr s => Some (contains sub s)
  | _ => None
  end.

Definition NL : str := [10%N].

(** ** The world the script runs in *)

(** An uploaded file (Streamlit's [UploadedFile]). *)
Record file := File { file_name : str; file_content : list N }.

(** A record of the [sent_emails] sub-collection; [sent_at] is assigned by
    the server and is represented by the position in the collection. *)
Record sent_email := SentEmail {
  recipient : str;
  se_subject : str;
  se_body : str;
  se_job_title : pyval;
  se_hospital_name : pyval
}.

(** The Firestore document [job_applications_v2/user_profile] together
    with its [sent_emails] sub-collection.  An absent [applied_jobs] field
    reads as the empty array and an absent counter as [0], which is how
    the script reads them ([.get(.., [])], [.get(.., 0)]) and how
    [ArrayUnion] and [Increment] treat them.  The [gmail_token] field is
    not kept here: only the mailbox authorisation reads it, a session
    that obtained a client never runs the authorisation again, and what a
    session finds stored is given by the environment. *)
Record profile := Profile {
  translated_cv : pyval;
  applied_jobs : list str;
  sent_count : Z;
  skipped_count : Z;
  sent_emails : list sent_email
}.

Inductive step_name := auth | upload_cv | main_app.

(** [st.session_state].  The keys of [default_states] are always present;
    [current_job_details] and [manual_job_details] are created on first
    assignment, so reading them before that is an [AttributeError]. *)
Record session_state := Session {
  step : step_name;
  gmail_service : bool;
  cv_content : pyval;
  attachments : list file;
  current_job_id : option nat;
  generated_email_content : option dict;
  manual_email_content : option dict;
  db : bool;
  current_job_details : option dict;
  manual_job_details : option dict
}.

(** Writes to the Firestore document. *)
Inductive db_write :=
| ArrayUnion_applied_jobs (ids : list str)
| Increment_stat (field : str)
| Set_translated_cv (v : pyval)
| Add_sent_email (e : sent_email)
| Set_gmail_token.

Inductive ui_kind :=
| st_title | st_header | st_subheader | st_write | st_markdown
| st_info | st_warning | st_error | st_success | st_expander.

(** What a run shows and which external calls it makes, in order.  Input
    widgets, layout containers, spinners and balloons leave no event. *)
Inductive event :=
| Ui (k : ui_kind) (text : str)
| Metric (label : str) (value : Z)
| ChatCompletion (system_message prompt : str)
| GmailSend (to subject body : str) (files : list file)
| Firestore (w : db_write).

Record world := World {
  w_profile : profile;
  w_session : session_state;
  w_trace : list event
}.

(** How a run, or a function of it, ends before its last statement. *)
Inductive flow :=
| Stop                    (* st.stop() *)
| Rerun                   (* st.rerun() *)
| Return                  (* a return statement *)
| Raise (e : str).        (* an exception nothing catches *)

Inductive outcome (A : Type) :=
| Ok (a : A)
| Exit (f : flow).
Arguments Ok {A} a.
Arguments Exit {A} f.

Definition M (A : Type) : Type := world → outcome A * world.

#[export] Instance M_ret : MRet M := λ A a w, (Ok a, w).
#[export] Instance M_bind : MBind M := λ A B f m w,
  match m w with
  | (Ok a, w') => f a w'
  | (Exit e, w') => (Exit e, w')
  end.

Definition exit {A} (f : flow) : M A := λ w, (Exit f, w).
Definition get_session : M session_state := λ w, (Ok (w_session w), w).
Definition get_profile : M profile := λ w, (Ok (w_profile w), w).
Definition put_session (s : session_state) : M unit :=
  λ w, (Ok tt, World (w_profile w) s (w_trace w)).
Definition put_profile (p : profile) : M unit :=
  λ w, (Ok tt, World p (w_session w) (w_trace w)).
Definition emit (e : event) : M unit :=
  λ w, (Ok tt, World (w_profile w) (w_session w) (w_trace w ++ [e])).
Definition get_trace : M (list event) := λ w, (Ok (w_trace w), w).

(** A function body: a [return] inside it ends the function, not the run. *)
Definition function (body : M unit) : M unit := λ w,
  match body w with
  | (Exit Return, w') => (Ok tt, w')
  | r => r
  end.

Definition when (b : bool) (m : M unit) : M unit := if b then m else mret tt.

(** Session-state assignments. *)
Definition set_step (v : step_name) (s : session_state) :=
  Session v (gmail_service s) (cv_content s) (attachments s)
    (current_job_id s) (generated_email_content s) (manual_email_content s)
    (db s) (current_job_details s) (manual_job_details s).
Definition set_gmail_service (v : bool) (s : session_state) :=
  Session (step s) v (cv_content s) (attachments s)
    (current_job_id s) (generated_email_content s) (manual_email_content s)
    (db s) (current_job_details s) (manual_job_details s).
Definition set_cv_content (v : pyval) (s : session_state) :=
  Session (step s) (gmail_service s) v (attachments s)
    (current_job_id s) (generated_email_content s) (manual_email_content s)
    (db s) (current_job_details s) (manual_job_details s).
Definition set_attachments (v : list file) (s : session_state) :=
  Session (step s) (gmail_service s) (cv_content s) v
    (current_job_id s) (generated_email_content s) (manual_email_content s)
    (db s) (current_job_details s) (manual_job_details s).
Definition set_current_job_id (v : option nat) (s : session_state) :=
  Session (step s) (gmail_service s) (cv_content s) (attachments s)
    v (generated_email_content s) (manual_email_content s)
    (db s) (current_job_details s) (manual_job_details s).
Definition set_generated_email_content (v : option dict) (s : session_state) :=
  Session (step s) (gmail_service s) (cv_content s) (attachments s)
    (current_job_id s) v (manual_email_content s)
    (db s) (current_job_details s) (manual_job_details s).
Definition set_manual_email_content (v : option dict) (s : session_state) :=
  Session (step s) (gmail_service s) (cv_content s) (attachments s)
    (current_job_id s) (generated_email_content s) v
    (db s) (current_job_details s) (manual_job_details s).
Definition set_db (v : bool) (s : session_state) :=
  Session (step s) (gmail_service s) (cv_content s) (attachments s)
    (current_job_id s) (generated_email_content s) (manual_email_content s)
    v (current_job_details s) (manual_job_details s).
Definition set_current_job_details (v : option dict) (s : session_state) :=
  Session (step s) (gmail_service s) (cv_content s) (attachments s)
    (current_job_id s) (generated_email_content s) (manual_email_content s)
    (db s) v (manual_job_details s).
Definition set_manual_job_details (v : option dict) (s : session_state) :=
  Session (step s) (gmail_service s) (cv_content s) (attachments s)
    (current_job_id s) (generated_email_content s) (manual_email_content s)
    (db s) (current_job_details s) v.

Definition assign (f : session_state → session_state) : M unit :=
  s ← get_session; put_session (f s).

(** [d[k]]: a [KeyError] when the key is missing. *)
Definition dict_item (d : dict) (k : str) : M pyval :=
  match d !! k with
  | Some v => mret v
  | None => exit (Raise (py "KeyError"))
  end.

(** Reading a session attribute that may not have been created. *)
Definition attribute {A} (o : option A) : M A :=
  match o with
  | Some a => mret a
  | None => exit (Raise (py "AttributeError"))
  end.

(** ** Configuration and external services *)

(** What [client.chat.completions.create(..)] followed by
    [.choices[0].message.content] does: raise, or yield a string. *)
Inductive api_outcome :=
| ApiRaises (e : str)
| ApiContent (content : str).

(** What the stored [gmail_token] decodes to, if there is one: decoding
    ([base64.b64decode], [pickle.loads]) may raise; a decoded credential
    is valid, expired with a refresh token, or neither. *)
Inductive stored_credential :=
| NoCredential
| Undecodable (x : str)
| ValidCredential
| ExpiredRefreshable
| Unusable.

(** The process environment and the behaviour of the services the script
    talks to.  A service answers by the number of requests made before,
    so two equal requests may be answered differently. *)
Record env := Env {
  OPENAI_API_KEY : option str;
  FIREBASE_SERVICE_ACCOUNT_JSON : option str;
  GOOGLE_CLIENT_SECRET_JSON : option str;
  (* json.loads, Credentials.from_service_account_info, firestore.Client:
     the text of the exception, or None when all three succeed *)
  firestore_client : str → option str;
  chat_completions_create : nat → str → str → api_outcome;
  (* EmailMessage(), set_content, the three headers, reading and attaching
     the files, encoding: the exception text, or None *)
  message_build : str → str → str → list file → option str;
  (* service.users().messages().send(..).execute(): the exception text,
     or None *)
  messages_send : nat → str → str → str → list file → option str;
  (* pd.read_csv(CSV_FILE): None is FileNotFoundError *)
  read_csv : option (list dict);
  (* PdfReader(file).pages with extract_text(): exception text, or pages *)
  pdf_pages : file → str + list str;
  gmail_token : stored_credential;
  (* creds.refresh(Request()): the exception text, or None *)
  credentials_refresh : option str;
  (* json.loads, InstalledAppFlow.from_client_config and
     flow.run_local_server on the client secret: the exception text, or
     None when a credential is obtained *)
  oauth_flow : str → option str;
  (* data['sent_at'].strftime("%d %b %Y, %H:%M") for the n-th document
     added to sent_emails, whose sent_at is the server's timestamp *)
  sent_time : nat → str
}.

Definition CSV_FILE : str := py "Assistenzarzt_Jobs_CH__Combined_Final.csv".

(** [os.getenv(name)] *)
Definition getenv (v : option str) : pyval := from_option PStr PNone v.

Definition is_chat (ev : event) : bool :=
  match ev with ChatCompletion _ _ => true | _ => false end.

Definition is_send (ev : event) : bool :=
  match ev with GmailSend _ _ _ _ => true | _ => false end.

Definition is_write (ev : event) : bool :=
  match ev with Firestore _ => true | _ => false end.

Definition count_chat (tr : list event) : nat := length (List.filter is_chat tr).

Definition count_send (tr : list event) : nat := length (List.filter is_send tr).

(** ** Firebase *)

Definition get_firestore_db (e : env) : M bool :=
  let firebase_creds_json := getenv (FIREBASE_SERVICE_ACCOUNT_JSON e) in
  if negb (truthy firebase_creds_json) then
    emit (Ui st_error (py "Firebase service account JSON not found."));;
    mret false
  else
    match firestore_client e (fmt firebase_creds_json) with
    | None => mret true
    | Some x =>
        emit (Ui st_error (py "Failed to connect to Firebase: " ++ x));;
        mret false
    end.

(** ** API and helper functions *)

Definition call_openai_api (e : env) (prompt system_message : str) : M pyval :=
  if negb (truthy (getenv (OPENAI_API_KEY e))) then
    emit (Ui st_error (py "OpenAI API key is not configured."));;
    mret PNone
  else
    tr ← get_trace;
    emit (ChatCompletion system_message prompt);;
    match chat_completions_create e (count_chat tr) system_message prompt with
    | ApiContent content => mret (PStr (strip content))
    | ApiRaises x =>
        emit (Ui st_error (py "Error calling OpenAI API: " ++ x));;
        mret PNone
    end.

(** The block for structured data from the CSV. *)
Definition structured_block (job_title hospital_name canton job_description : pyval) : str :=
  NL
  ++ py "- Position: " ++ fmt job_title ++ NL
  ++ py "- Hospital: " ++ fmt hospital_name ++ NL
  ++ py "- Canton: " ++ fmt canton ++ NL
  ++ py "- Job Description:" ++ NL
  ++ py "---" ++ NL
  ++ fmt job_description ++ NL
  ++ py "---" ++ NL.

(** The block for unstructured data from manual entry. *)
Definition unstructured_block (job_description : pyval) : str :=
  NL
  ++ py "- Job Details (extract relevant info from this block):" ++ NL
  ++ py "---" ++ NL
  ++ fmt job_description ++ NL
  ++ py "---" ++ NL.

Definition prompt_text (cv_content : pyval) (job_details_prompt : str) : str :=
  NL
  ++ py "Act as a professional medical career advisor in Switzerland." ++ NL
  ++ py "Your task is to create a compelling application email in German." ++ NL
  ++ NL
  ++ py "**Applicant's Profile (from CV):**" ++ NL
  ++ py "---" ++ NL
  ++ fmt cv_content ++ NL
  ++ py "---" ++ NL
  ++ py "**Job Details:**" ++ NL
  ++ job_details_prompt ++ NL
  ++ NL
  ++ py "**Instructions:**" ++ NL
  ++ py "1.  **Analyze Job Details:** If the job details are in a block of text, first identify the likely job title and company/hospital name." ++ NL
  ++ py "2.  **Generate a Subject Line:** Create a concise, professional German subject line for the application." ++ NL
  ++ py "3.  **Generate an Email Body:** Write a polite, personalized email connecting the applicant's CV to the job requirements." ++ NL
  ++ py "4.  **Output Format:** Your final output MUST contain the subject and body separated by '|||'." ++ NL
  ++ py "    Example: Betreff: Bewerbung als Assistenzarzt|||Sehr geehrte Damen und Herren,..." ++ NL.

Definition job_details_prompt (job_title hospital_name canton job_description : pyval) : str :=
  if truthy job_title && truthy hospital_name
  then structured_block job_title hospital_name canton job_description
  else unstructured_block job_description.

Definition SEP : str := py "|||".

(** The subject returned when the separator is missing; the two characters
    after the [f] are the ones the source file has there. *)
Definition fallback_subject : str :=
  py "Bewerbung f" ++ [8730; 186]%N ++ py "r die ausgeschriebene Position".

Definition fallback_body : str := py "Could not generate email body.".

Definition email_dict (subject body : pyval) : dict :=
  <[py "subject" := subject]> (<[py "body" := body]> ∅).

(** What [generate_personalized_email] makes of the value returned by
    [call_openai_api]. *)
Definition email_of_response (response : pyval) : dict :=
  if truthy response && default false (py_in SEP response) then
    let parts := split1 SEP (fmt response) in
    let subject :=
      strip (remove_all (py "Subject:") (remove_all (py "Betreff:") (parts !!! 0%nat))) in
    let body := strip (parts !!! 1%nat) in
    email_dict (PStr subject) (PStr body)
  else
    email_dict (PStr fallback_subject) (py_or response (PStr fallback_body)).

Definition generate_personalized_email (e : env)
    (cv_content job_title hospital_name canton job_description : pyval) : M dict :=
  let prompt :=
    prompt_text cv_content
      (job_details_prompt job_title hospital_name canton job_description) in
  response ← call_openai_api e prompt
    (py "You are a professional medical job applicant assistant, writing in German.");
  mret (email_of_response response).

Definition translate_cv_text (e : env) (text : str) : M pyval :=
  let prompt :=
    py "Please translate the following CV text from English to professional, high-quality German suitable for a medical job application in Switzerland."
    ++ NL ++ NL ++ py "**Text to Translate:**" ++ NL ++ py "---" ++ NL
    ++ text ++ NL ++ py "---" in
  call_openai_api e prompt
    (py "You are an expert translator specializing in medical and professional documents.").

(** The message is built first; the client is reached for last, so that
    only a message that could be built, handed to a client, is requested
    of the API. *)
Definition send_email_logic (e : env) (service : bool)
    (to_email subject body : str) (attachments : list file) : M bool :=
  match message_build e to_email subject body attachments with
  | Some x =>
      emit (Ui st_error (py "An error occurred while sending the email: " ++ x));;
      mret false
  | None =>
      if service then
        tr ← get_trace;
        emit (GmailSend to_email subject body attachments);;
        match messages_send e (count_send tr) to_email subject body attachments with
        | None =>
            emit (Ui st_success ([8218; 250; 214]%N
                    ++ py " Application successfully sent to " ++ to_email ++ py "!"));;
            mret true
        | Some x =>
            emit (Ui st_error (py "An error occurred while sending the email: " ++ x));;
            mret false
        end
      else
        emit (Ui st_error (py "An error occurred while sending the email: "
                           ++ py "'NoneType' object has no attribute 'users'"));;
        mret false
  end.

Definition extract_text_from_pdf (e : env) (f : file) : M pyval :=
  match pdf_pages e f with
  | inr pages =>
      mret (PStr (concat (List.filter (λ t, negb (bool_decide (t = []))) pages)))
  | inl x =>
      emit (Ui st_error (py "Error reading PDF file: " ++ x));;
      mret PNone
  end.

(** ** Database functions *)

(** The profile a missing document reads as: [get_user_data] returns [{}]. *)
Definition empty_profile : profile := Profile PNone [] 0 0 [].

(** [firestore.ArrayUnion]: the elements not yet in the array are appended. *)
Definition array_union (ids arr : list str) : list str :=
  foldl (λ acc x, if bool_decide (x ∈ acc) then acc else acc ++ [x]) arr ids.

Definition apply_write (w : db_write) (p : profile) : profile :=
  match w with
  | ArrayUnion_applied_jobs ids =>
      Profile (translated_cv p) (array_union ids (applied_jobs p))
        (sent_count p) (skipped_count p) (sent_emails p)
  | Increment_stat f =>
      if bool_decide (f = py "stats.sent_count") then
        Profile (translated_cv p) (applied_jobs p)
          (sent_count p + 1) (skipped_count p) (sent_emails p)
      else if bool_decide (f = py "stats.skipped_count") then
        Profile (translated_cv p) (applied_jobs p)
          (sent_count p) (skipped_count p + 1) (sent_emails p)
      else p
  | Set_translated_cv v =>
      Profile v (applied_jobs p) (sent_count p) (skipped_count p) (sent_emails p)
  | Add_sent_email m =>
      Profile (translated_cv p) (applied_jobs p)
        (sent_count p) (skipped_count p) (sent_emails p ++ [m])
  | Set_gmail_token => p
  end.

Definition firestore_write (w : db_write) : M unit :=
  emit (Firestore w);;
  p ← get_profile;
  put_profile (apply_write w p).

Definition get_user_data (db : bool) : M profile :=
  if negb db then mret empty_profile else get_profile.

(** [data_to_update] is either an [ArrayUnion] for [applied_jobs] or a new
    [translated_cv]. *)
Definition update_user_data (db : bool) (data_to_update : db_write) : M unit :=
  if negb db then mret tt else firestore_write data_to_update.

Definition save_sent_email (db : bool) (email_data : sent_email) : M unit :=
  if negb db then mret tt else firestore_write (Add_sent_email email_data).

(** [db.collection(..).document(..).update({field: Increment(1)})], called
    on the handle directly. *)
Definition increment (db : bool) (field : str) : M unit :=
  if negb db then exit (Raise (py "AttributeError"))
  else firestore_write (Increment_stat field).

(** ** Gmail authentication *)

(** [gmail_authenticate] comes after the database functions here, for the
    write it makes.  [True] stands for the client that
    [build("gmail", "v1", ..)] returns; it is built from the discovery
    document shipped with the library, with no request made.  Nothing
    catches what decoding the stored token, the refresh or the OAuth flow
    raise. *)
Definition gmail_authenticate (e : env) : M bool :=
  db ← get_firestore_db e;
  creds ← (if db then
             match gmail_token e with
             | Undecodable x => exit (Raise x)
             | c => mret c
             end
           else mret NoCredential);
  match creds with
  | ValidCredential => mret true
  | ExpiredRefreshable =>
      match credentials_refresh e with
      | Some x => exit (Raise x)
      | None =>
          when db (firestore_write Set_gmail_token);;
          mret true
      end
  | _ =>
      let client_secret_json := getenv (GOOGLE_CLIENT_SECRET_JSON e) in
      if negb (truthy client_secret_json) then
        emit (Ui st_error (py "Google client secret JSON not found."));;
        mret false
      else
        match oauth_flow e (fmt client_secret_json) with
        | Some x => exit (Raise x)
        | None =>
            when db (firestore_write Set_gmail_token);;
            mret true
        end
  end.

(** ** Operator input *)

Inductive page := Job_Finder | Add_Manual_Job | Dashboard.

Inductive language := English | German.

(** The widget that triggered the run, with the values of its form. *)
Inductive action :=
| No_action
| Click_authorize
| Click_use_saved_cv
| Click_confirm
| Click_go_to_upload
| Click_prepare
| Click_skip
| Click_regenerate
| Click_remove (i : nat)
| Submit_send (contact_email subject body : str) (new_attachments : list file)
| Submit_manual (contact_email job_description : str).

(** The widget values of one run: the sidebar radio, the CV uploader and
    its language radio keep their value from run to run. *)
Record input := Input {
  app_page : page;
  uploaded_files : list file;
  lang : language;
  act : action
}.

Definition clicked (a b : action) : bool :=
  match a, b with
  | Click_authorize, Click_authorize
  | Click_use_saved_cv, Click_use_saved_cv
  | Click_confirm, Click_confirm
  | Click_go_to_upload, Click_go_to_upload
  | Click_prepare, Click_prepare
  | Click_skip, Click_skip
  | Click_regenerate, Click_regenerate => true
  | Click_remove i, Click_remove j => bool_decide (i = j)
  | _, _ => false
  end.

(** ** UI page functions *)

Definition truthy_dict (d : option dict) : bool :=
  match d with
  | Some m => negb (bool_decide (m = ∅))
  | None => false
  end.

(** The records come newest first, the server's timestamps growing with
    the order in which the documents were added.  The disabled text area
    with the body is an input widget and leaves no event. *)
Definition render_dashboard (e : env) : M unit := function (
  emit (Ui st_header ([63743; 252; 236; 228]%N ++ py " Dashboard: Sent Applications"));;
  p ← get_profile;
  match reverse (imap (λ n data, (n, data)) (sent_emails p)) with
  | [] =>
      emit (Ui st_info (py "You haven't sent any emails yet. Head over to the 'Job Finder' to get started!"));;
      exit Return
  | emails =>
      foldr (λ email rest,
               let data := email.2 in
               let sent_time := sent_time e email.1 in
               emit (Ui st_expander (py "To: " ++ recipient data
                                     ++ py " | Subject: " ++ se_subject data
                                     ++ py " | Sent: " ++ sent_time));;
               emit (Ui st_write (py "**To:** " ++ recipient data));;
               emit (Ui st_write (py "**Subject:** " ++ se_subject data));;
               emit (Ui st_write (py "**Sent At:** " ++ sent_time));;
               emit (Ui st_markdown (py "---"));;
               rest)
            (mret tt) emails
  end).

Fixpoint attachment_rows (a : action) (idxs : list nat) : M unit :=
  match idxs with
  | [] => mret tt
  | i :: rest =>
      s ← get_session;
      match attachments s !! i with
      | None => exit (Raise (py "IndexError"))
      | Some f =>
          emit (Ui st_info ([63743; 252; 236; 209]%N ++ py " " ++ file_name f));;
          when (clicked a (Click_remove i))
            (assign (set_attachments (delete i (attachments s)));;
             exit Rerun);;
          attachment_rows a rest
      end
  end.

Definition render_application_form (e : env) (a : action) (is_manual : bool) : M unit :=
  function (
  emit (Ui st_markdown (py "---"));;
  emit (Ui st_subheader ([8218; 250; 226; 212; 8719; 232]%N
          ++ py " Review, Edit, and Send Application"));;
  s ← get_session;
  details ← attribute (if is_manual then manual_job_details s else current_job_details s);
  let email_content :=
    if is_manual then manual_email_content s else generated_email_content s in
  when (negb is_manual) (dict_item details (py "job_id");; mret tt);;
  (* Handle regeneration *)
  when (clicked a Click_regenerate)
    (new_content ← generate_personalized_email e (cv_content s)
        (dict_get details (py "job_title") PNone)
        (dict_get details (py "hospital_name") PNone)
        (dict_get details (py "canton") PNone)
        (dict_get details (py "job_description") PNone);
     (if is_manual
      then assign (set_manual_email_content (Some new_content))
      else assign (set_generated_email_content (Some new_content)));;
     exit Rerun);;
  (* the form reads email_content.get('subject', '') *)
  attribute email_content;;
  emit (Ui st_markdown (py "**Attachments**"));;
  emit (Ui st_info (py "Manage attachments below (outside this form). New uploads will be added upon sending."));;
  (* Attachment management outside the form *)
  s ← get_session;
  match attachments s with
  | [] => mret tt
  | _ =>
      emit (Ui st_write (py "Current Attachments:"));;
      attachment_rows a (reverse (seq 0 (length (attachments s))))
  end;;
  match a with
  | Submit_send contact_email subject body new_attachments =>
      s ← get_session;
      match attachments s ++ new_attachments with
      | [] =>
          emit (Ui st_warning (py "You must have at least one attachment."));;
          exit Return
      | all_attachments =>
          sent ← send_email_logic e (gmail_service s) contact_email subject body
                   all_attachments;
          when sent
            (save_sent_email (db s)
               (SentEmail contact_email subject body
                  (dict_get details (py "job_title") (PStr (py "Manual Entry")))
                  (dict_get details (py "hospital_name") (PStr (py "Manual Entry"))));;
             (if negb is_manual then
                job_id ← dict_item details (py "job_id");
                update_user_data (db s) (ArrayUnion_applied_jobs [fmt job_id]);;
                increment (db s) (py "stats.sent_count");;
                assign (set_current_job_id None)
              else
                assign (set_manual_email_content None));;
             exit Rerun)
      end
  | _ => mret tt
  end;;
  emit (Ui st_expander (py "Show Original Job Description"));;
  emit (Ui st_markdown
          (py "<div style='background-color:#f0f2f6; padding:10px; border-radius:5px;'>"
           ++ fmt (dict_get details (py "job_description")
                     (PStr (py "No description available.")))
           ++ py "</div>"))).

Definition render_manual_job_page (e : env) (a : action) : M unit := function (
  emit (Ui st_header ([8218; 250; 231; 212; 8719; 232]%N ++ py " Add a Job Manually"));;
  s ← get_session;
  when (negb (truthy_dict (manual_email_content s)))
    (emit (Ui st_info (py "Paste the full job description or details here. The AI will extract the necessary information."));;
     match a with
     | Submit_manual contact_email job_description =>
         if truthy (PStr contact_email) && truthy (PStr job_description) then
           assign (set_manual_job_details (Some
             (<[py "job_title" := PStr (py "Manual Entry")]>
                (<[py "contact_email" := PStr contact_email]>
                   (<[py "job_description" := PStr job_description]> ∅)))));;
           content ← generate_personalized_email e (cv_content s)
                       PNone PNone PNone (PStr job_description);
           assign (set_manual_email_content (Some content));;
           exit Rerun
         else
           emit (Ui st_warning (py "Please fill in both the contact email and the job description."))
     | _ => mret tt
     end);;
  s ← get_session;
  when (truthy_dict (manual_email_content s)) (render_application_form e a true)).

(** *** The job catalog and its selector *)

Definition CONTACT : str := py "Application Contact Email".

(** [str(idx)] for a row index of the catalog. *)
Definition job_key (idx : nat) : str := fmt (PInt (Z.of_nat idx)).

(** The condition of the selection loop. *)
Definition qualifies (applied_jobs : gset str) (idx : nat) (row : dict) : bool :=
  negb (bool_decide (job_key idx ∈ applied_jobs))
  && is_str (dict_get row CONTACT PNone)
  && default false (py_in (py "@") (dict_get row CONTACT (PStr []))).

(** The loop over [jobs_df.iterrows()] from row [idx] on. *)
Fixpoint scan_jobs (applied_jobs : gset str) (idx : nat) (rows : list dict)
    : option (nat * dict) :=
  match rows with
  | [] => None
  | row :: rest =>
      if qualifies applied_jobs idx row then Some (idx, row)
      else scan_jobs applied_jobs (S idx) rest
  end.

Definition next_job (applied_jobs : gset str) (jobs_df : list dict)
    : option (nat * dict) :=
  scan_jobs applied_jobs 0 jobs_df.

(** The value stored under [contact_email]. *)
Definition contact_email_of (field : pyval) : str :=
  split_head 44%N (strip (fmt field)).

Definition job_details_of (job_id : nat) (row_data : dict) : dict :=
  <[py "job_id" := PInt (Z.of_nat job_id)]>
  (<[py "job_title" := dict_get row_data (py "job_title") (PStr (py "N/A"))]>
  (<[py "hospital_name" := dict_get row_data (py "hospital_name") (PStr [])]>
  (<[py "canton" := dict_get row_data (py "canton") (PStr [])]>
  (<[py "contact_email" := PStr (contact_email_of (dict_get row_data CONTACT (PStr [])))]>
  (<[py "application_url" := dict_get row_data (py "Application URL") (PStr [])]>
  (<[py "job_description" := dict_get row_data (py "Job Description (short)") (PStr [])]>
   ∅)))))).

Definition render_job_finder (e : env) (a : action) (db : bool) : M unit := function (
  emit (Ui st_header ([63743; 252; 238; 231]%N ++ py " Job Finder"));;
  match read_csv e with
  | None =>
      emit (Ui st_error (py "Error: '" ++ CSV_FILE ++ py "' not found."));;
      exit Stop
  | Some jobs_df =>
      user_data ← get_user_data db;
      let applied : gset str := list_to_set (applied_jobs user_data) in
      match next_job applied jobs_df with
      | None =>
          emit (Ui st_info ([63743; 252; 233; 226]%N
                  ++ py " All jobs from the CSV have been processed!"));;
          exit Return
      | Some (job_id, row_data) =>
          s ← get_session;
          when (negb (bool_decide (current_job_id s = Some job_id)))
            (assign (set_current_job_id (Some job_id));;
             assign (set_generated_email_content None);;
             assign (set_current_job_details (Some (job_details_of job_id row_data))));;
          s ← get_session;
          details ← attribute (current_job_details s);
          job_title ← dict_item details (py "job_title");
          emit (Ui st_subheader (py "Next Up: " ++ fmt job_title));;
          hospital_name ← dict_item details (py "hospital_name");
          canton ← dict_item details (py "canton");
          emit (Ui st_write (py "**Hospital:** " ++ fmt hospital_name
                             ++ py " (" ++ fmt canton ++ py ")"));;
          (* Display Clickable Link *)
          (let url := dict_get details (py "application_url") PNone in
           if truthy url then
             match py_in (py "http") url with
             | None => exit (Raise (py "TypeError"))
             | Some true =>
                 emit (Ui st_markdown (py "**Application Link:** [Click Here]("
                                       ++ fmt url ++ py ")"))
             | Some false => mret tt
             end
           else mret tt);;
          job_id' ← dict_item details (py "job_id");
          when (clicked a Click_prepare)
            (job_description ← dict_item details (py "job_description");
             content ← generate_personalized_email e (cv_content s)
                         job_title hospital_name canton job_description;
             assign (set_generated_email_content (Some content)));;
          when (clicked a Click_skip)
            (update_user_data db (ArrayUnion_applied_jobs [fmt job_id']);;
             increment db (py "stats.skipped_count");;
             emit (Ui st_warning (py "Skipped job #" ++ fmt job_id' ++ py "."));;
             assign (set_current_job_id None);;
             exit Rerun);;
          s ← get_session;
          when (truthy_dict (generated_email_content s))
            (render_application_form e a false)
      end
  end).

(** ** Main app layout and logic *)

Definition default_states : session_state :=
  Session auth false PNone [] None None None false None None.

Definition main (e : env) (i : input) : M unit :=
  (* client = OpenAI(api_key=OPENAI_API_KEY), above the functions: without
     a key in the argument or the environment the constructor raises *)
  match OPENAI_API_KEY e with
  | None => exit (Raise (py "OpenAIError"))
  | Some _ => mret tt
  end;;
  emit (Ui st_title ([63743; 252; 225; 174; 63743; 252; 225; 8800]%N
          ++ py " Swiss Assistenzarzt Job Application Bot"));;
  s ← get_session;
  when (negb (db s)) (d ← get_firestore_db e; assign (set_db d));;
  s ← get_session;
  when (negb (db s)) (exit Stop);;
  match step s with
  | auth =>
      emit (Ui st_header (py "Step 1: Authorize Your Gmail Account"));;
      when (clicked (act i) Click_authorize)
        (service ← gmail_authenticate e;
         assign (set_gmail_service service);;
         when service (assign (set_step upload_cv);; exit Rerun))
  | upload_cv =>
      emit (Ui st_header (py "Step 2: Upload Your Documents"));;
      user_data ← get_user_data (db s);
      when (truthy (translated_cv user_data) && clicked (act i) Click_use_saved_cv)
        (assign (set_cv_content (translated_cv user_data));;
         emit (Ui st_success (py "Loaded CV from database."));;
         assign (set_step main_app);;
         exit Rerun);;
      match uploaded_files i with
      | [] => mret tt
      | cv_file :: _ =>
          assign (set_attachments (uploaded_files i));;
          cv_text ← extract_text_from_pdf e cv_file;
          when (truthy cv_text && clicked (act i) Click_confirm)
            (match lang i with
             | English =>
                 translated ← translate_cv_text e (fmt cv_text);
                 assign (set_cv_content translated);;
                 update_user_data (db s) (Set_translated_cv translated)
             | German => assign (set_cv_content cv_text)
             end;;
             emit (Ui st_success (py "CV processed and saved!"));;
             assign (set_step main_app);;
             exit Rerun)
      end
  | main_app =>
      when (negb (truthy (cv_content s)))
        (user_data ← get_user_data (db s);
         assign (set_cv_content (translated_cv user_data));;
         when (negb (truthy (translated_cv user_data)))
           (emit (Ui st_warning (py "CV has not been processed. Please return to the upload step."));;
            when (clicked (act i) Click_go_to_upload)
              (assign (set_step upload_cv);; exit Rerun);;
            exit Stop));;
      user_data ← get_user_data (db s);
      emit (Ui st_header (py "Navigation"));;
      emit (Ui st_markdown (py "---"));;
      emit (Ui st_header ([63743; 252; 236; 228]%N ++ py " Statistics"));;
      emit (Metric (py "Emails Sent") (sent_count user_data));;
      emit (Metric (py "Jobs Skipped") (skipped_count user_data));;
      match app_page i with
      | Job_Finder => render_job_finder e (act i) (db s)
      | Dashboard => render_dashboard e
      | Add_Manual_Job => render_manual_job_page e (act i)
      end
  end.

(** A [st.rerun()] re-executes the script at once, with the widget values
    kept and no widget triggered. *)
Definition rerun_input (i : input) : input :=
  Input (app_page i) (uploaded_files i) (lang i) No_action.

(** One operator interaction: the run it triggers and the rerun that run
    may ask for. *)
Definition interact (e : env) (i : input) (w : world) : outcome unit * world :=
  match main e i w with
  | (Exit Rerun, w') => main e (rerun_input i) w'
  | r => r
  end.

(** A sequence of interactions; a run that stops or raises ends a run of
    the script, not the session. *)
Definition session_run (e : env) (inputs : list input) (w : world) : world :=
  foldl (λ w i, snd (interact e i w)) w inputs.

(** A row that the selector may offer: its index is not among the
    applied ids and its contact field is a string with an [@]. *)
Definition offered (applied_jobs : gset str) (idx : nat) (row : dict) : Prop :=
  (job_key idx ∉ applied_jobs)
  ∧ (∃ s, row !! CONTACT = Some (PStr s) ∧ contains (py "@") s = true).

(** The ids that the writes of a trace add to [applied_jobs]: the
    arguments of the [ArrayUnion] updates made by Skip and by a catalog
    send. *)
Fixpoint marked (tr : list event) : list str :=
  match tr with
  | [] => []
  | Firestore (ArrayUnion_applied_jobs ids) :: tr' => ids ++ marked tr'
  | _ :: tr' => marked tr'
  end.

(** The world with the applied ids, both counters and the tracked job id
    replaced. *)
Definition overwrite (aj : list str) (sc sk : Z) (cj : option nat) (w : world) : world :=
  World
    (Profile (translated_cv (w_profile w)) aj sc sk (sent_emails (w_profile w)))
    (set_current_job_id cj (w_session w))
    (w_trace w).

(** ** Predicates on runs *)

(** [wp m Q w]: running [m] in [w] ends in an outcome and a world that
    satisfy [Q]. *)
Definition wp {A} (m : M A) (Q : outcome A → world → Prop) (w : world) : Prop :=
  Q (m w).1 (m w).2.

(** [steady R m]: whatever the world, a run of [m] leaves it [R]-related
    to what it was. *)
Definition steady (R : world → world → Prop) {A} (m : M A) : Prop :=
  ∀ w, R w (m w).2.

(** A relation that the primitive effects respect, for the events,
    session assignments and Firestore writes it admits. *)
Class Frame (R : world → world → Prop) := {
  frame_event : event → Prop;
  frame_assignment : (session_state → session_state) → Prop;
  frame_write_ok : db_write → Prop;
  frame_refl : ∀ w, R w w;
  frame_trans : ∀ w1 w2 w3, R w1 w2 → R w2 w3 → R w1 w3;
  frame_emit : ∀ w ev, frame_event ev →
    R w (World (w_profile w) (w_session w) (w_trace w ++ [ev]));
  frame_assign : ∀ w f, frame_assignment f →
    R w (World (w_profile w) (f (w_session w)) (w_trace w));
  frame_write : ∀ w d, frame_write_ok d →
    R w (World (apply_write d (w_profile w)) (w_session w)
           (w_trace w ++ [Firestore d]))
}.

(** [indep m]: [m] neither reads nor writes the applied ids, the counters
    and the tracked job id. *)
Definition indep {A} (m : M A) : Prop :=
  ∀ aj sc sk cj w,
    m (overwrite aj sc sk cj w) = ((m w).1, overwrite aj sc sk cj (m w).2).

(** [grows w w']: the trace of [w'] extends that of [w], and the applied
    ids of [w'] are those of [w] with the ids marked in between united in. *)
Definition grows (w w' : world) : Prop :=
  ∃ tr', w_trace w' = w_trace w ++ tr'
    ∧ applied_jobs (w_profile w')
      = array_union (marked tr') (applied_jobs (w_profile w)).

(** A write other than the [ArrayUnion] on [applied_jobs]. *)
Definition other_write (d : db_write) : Prop :=
  match d with
  | ArrayUnion_applied_jobs _ => False
  | _ => True
  end.

(** [unmarked w w']: the [applied_jobs] array is the same, and the trace
    of [w'] extends that of [w] by events that mark no id. *)
Definition unmarked (w w' : world) : Prop :=
  applied_jobs (w_profile w') = applied_jobs (w_profile w)
  ∧ ∃ tr', w_trace w' = w_trace w ++ tr' ∧ marked tr' = [].


Definition is_ui (ev : event) : bool :=
  match ev with Ui _ _ => true | _ => false end.

(** [quiet w w']: the profile and the session are the same and the trace
    of [w'] extends that of [w] by UI output only. *)
Definition quiet (w w' : world) : Prop :=
  w_profile w' = w_profile w
  ∧ w_session w' = w_session w
  ∧ ∃ tr', w_trace w' = w_trace w ++ tr' ∧ forallb is_ui tr' = true.

(** The actions that trigger nothing in the Review/Send form. *)
Definition idle (a : action) : bool :=
  match a with
  | Click_regenerate | Click_remove _ | Submit_send _ _ _ _ => false
  | _ => true
  end.

(** The connection to Firestore cannot be made: the service account is
    missing or empty, or parsing it or authenticating with it raises. *)
Definition connection_fails (e : env) : Prop :=
  truthy (getenv (FIREBASE_SERVICE_ACCOUNT_JSON e)) = false
  ∨ is_Some (firestore_client e (fmt (getenv (FIREBASE_SERVICE_ACCOUNT_JSON e)))).

Definition app_title : event :=
  Ui st_title ([63743; 252; 225; 174; 63743; 252; 225; 8800]%N
               ++ py " Swiss Assistenzarzt Job Application Bot").

(** What the Review/Send form shows when it rejects a submission. *)
Definition form_rejected : list event :=
  [Ui st_markdown (py "---");
   Ui st_subheader ([8218; 250; 226; 212; 8719; 232]%N
                    ++ py " Review, Edit, and Send Application");
   Ui st_markdown (py "**Attachments**");
   Ui st_info (py "Manage attachments below (outside this form). New uploads will be added upon sending.");
   Ui st_warning (py "You must have at least one attachment.")].

(** ** The parsing contract in the words of the specification

    Split on the first [|||]; strip a leading [Betreff:] or [Subject:]
    label (at most one, leading position only) and surrounding whitespace
    from part one; strip surrounding whitespace from part two.  Without a
    separator: the fallback subject and the raw text, or the placeholder
    when the call failed. *)

Definition spec_strip_label (p : str) : str :=
  if startswith (py "Betreff:") p then drop 8 p
  else if startswith (py "Subject:") p then drop 8 p
  else p.

Definition spec_email_of_response (response : pyval) : dict :=
  match response with
  | PStr r =>
      match partition SEP r with
      | Some (p1, p2) =>
          email_dict (PStr (strip (spec_strip_label (strip p1)))) (PStr (strip p2))
      | None => email_dict (PStr fallback_subject) (PStr r)
      end
  | _ => email_dict (PStr fallback_subject) (PStr fallback_body)
  end.

(** ** Sample data *)

Module Sample.

Definition cv_pdf : file := File (py "cv.pdf") [37; 80; 68; 70]%N.
Definition diploma_pdf : file := File (py "diploma.pdf") [37; 80; 68; 70]%N.

(** An environment in which every service is configured and succeeds; the
    model answers every request with [reply]. *)
Definition env_of (reply : str) (jobs_df : list dict) : env :=
  Env (Some (py "sk-test")) (Some (py "{}")) (Some (py "{}"))
    (λ _, None) (λ _ _ _, ApiContent reply) (λ _ _ _ _, None) (λ _ _ _ _ _, None)
    (Some jobs_df) (λ _, inr [py "Lebenslauf"]) ValidCredential
    None (λ _, None) (λ _, py "04 Nov 2026, 09:30").

(** The model answers the first request with one draft and every later
    request with another. *)
Definition env_numbered (jobs_df : list dict) : env :=
  Env (Some (py "sk-test")) (Some (py "{}")) (Some (py "{}"))
    (λ _, None)
    (λ n _ _, ApiContent (if bool_decide (n = 0)
                          then py "Betreff: Erste|||Guten Tag"
                          else py "Betreff: Zweite|||Guten Abend"))
    (λ _ _ _ _, None) (λ _ _ _ _ _, None)
    (Some jobs_df) (λ _, inr [py "Lebenslauf"]) ValidCredential
    None (λ _, None) (λ _, py "04 Nov 2026, 09:30").

(** The same without the Firebase service account. *)
Definition env_without_firebase : env :=
  Env (Some (py "sk-test")) None (Some (py "{}"))
    (λ _, None) (λ _ _ _, ApiContent (py "Betreff: Bewerbung|||Guten Tag"))
    (λ _ _ _ _, None) (λ _ _ _ _ _, None)
    (Some []) (λ _, inr [py "Lebenslauf"]) ValidCredential
    None (λ _, None) (λ _, py "04 Nov 2026, 09:30").

Definition job (title hospital canton contact : str) : dict :=
  <[py "job_title" := PStr title]>
  (<[py "hospital_name" := PStr hospital]>
  (<[py "canton" := PStr canton]>
  (<[CONTACT := PStr contact]>
  (<[py "Application URL" := PStr (py "https://jobs.example.ch/1")]>
  (<[py "Job Description (short)" := PStr (py "Innere Medizin")]> ∅))))).

(** A row of a catalog that has no [hospital_name] column. *)
Definition job_without_hospital : dict :=
  <[py "job_title" := PStr (py "Assistenzarzt")]>
  (<[CONTACT := PStr (py "hr@spital.ch")]>
  (<[py "Job Description (short)" := PStr (py "Chirurgie")]> ∅)).

Definition first_job : dict :=
  job (py "Assistenzarzt") (py "USZ") (py "ZH") (py "a@usz.ch").

Definition three_jobs : list dict :=
  [first_job;
   job (py "Assistenzarzt") (py "KSB") (py "AG") (py "b@ksb.ch , hr@ksb.ch");
   job (py "Assistenzarzt") (py "CHUV") (py "VD") (py "c@chuv.ch")].

(** A session that has reached the main application. *)
Definition ready : session_state :=
  Session main_app true (PStr (py "Lebenslauf")) [cv_pdf] None None None true None None.

Definition fresh : world := World empty_profile ready [].

Definition start : world := World empty_profile default_states [].

(** At the upload step, connected to Firestore. *)
Definition uploading : world :=
  World empty_profile
    (Session upload_cv true PNone [] None None None true None None) [].

(** On the manual page with a draft, all attachments removed. *)
Definition manual_draft_no_files : world :=
  World empty_profile
    (Session main_app true (PStr (py "Lebenslauf")) [] None None
       (Some (email_dict (PStr (py "Bewerbung")) (PStr (py "Guten Tag"))))
       true None
       (Some (<[py "job_title" := PStr (py "Manual Entry")]>
                (<[py "contact_email" := PStr (py "hr@spital.ch")]>
                   (<[py "job_description" := PStr (py "Stelle")]> ∅)))))
    [].

Definition on_page (pg : page) (a : action) : input := Input pg [] English a.

(** Skip the first job, prepare the second and send it. *)
Definition skip_then_send : list input :=
  [on_page Job_Finder Click_skip;
   on_page Job_Finder Click_prepare;
   on_page Job_Finder
     (Submit_send (py "b@ksb.ch") (py "Bewerbung") (py "Guten Tag") [])].

(** Submit a manual job, send it, and submit the same text again. *)
Definition manual_twice : list input :=
  [on_page Add_Manual_Job (Submit_manual (py "hr@spital.ch") (py "Stelle"));
   on_page Add_Manual_Job
     (Submit_send (py "hr@spital.ch") (py "Bewerbung") (py "Guten Tag") []);
   on_page Add_Manual_Job (Submit_manual (py "hr@spital.ch") (py "Stelle"))].

End Sample.

(** ** Further predicates and situations *)

(** A string that neither starts nor ends with a whitespace character. *)
Definition trimmed (s : str) : Prop :=
  (∀ c, head s = Some c → isspace c = false)
  ∧ (∀ c, last s = Some c → isspace c = false).

(** An error shown to the operator. *)
Definition is_error (ev : event) : bool :=
  match ev with Ui st_error _ => true | _ => false end.

(** [keeps_distinct w w']: if the applied ids of [w] are pairwise distinct,
    so are those of [w']. *)
Definition keeps_distinct (w w' : world) : Prop :=
  NoDup (applied_jobs (w_profile w)) → NoDup (applied_jobs (w_profile w')).

(** [accumulates w w']: neither counter is smaller in [w'] than in [w] and
    the sent emails of [w] are the first ones of [w']. *)
Definition accumulates (w w' : world) : Prop :=
  (sent_count (w_profile w) ≤ sent_count (w_profile w'))%Z
  ∧ (skipped_count (w_profile w) ≤ skipped_count (w_profile w'))%Z
  ∧ sent_emails (w_profile w) `prefix_of` sent_emails (w_profile w').

(** The line that the Review/Send form shows for an attachment. *)
Definition attachment_row (f : file) : event :=
  Ui st_info ([63743; 252; 236; 209]%N ++ py " " ++ file_name f).

(** The details that the manual page stores for a submission. *)
Definition manual_details (contact_email job_description : str) : dict :=
  <[py "job_title" := PStr (py "Manual Entry")]>
    (<[py "contact_email" := PStr contact_email]>
       (<[py "job_description" := PStr job_description]> ∅)).

(** [settles m]: a run of [m] never ends by asking for a rerun. *)
Definition settles {A} (m : M A) : Prop := ∀ w, (m w).1 ≠ Exit Rerun.

(** [same_setup w w']: the step, the mailbox client, the Firestore handle
    and the CV text of the session are the same. *)
Definition same_setup (w w' : world) : Prop :=
  (step (w_session w'), gmail_service (w_session w'), db (w_session w'),
   cv_content (w_session w'))
  = (step (w_session w), gmail_service (w_session w), db (w_session w),
     cv_content (w_session w)).

(** Past the authorisation step the session holds a mailbox client and a
    Firestore handle. *)
Definition access_kept (s : session_state) : Prop :=
  step s ≠ auth → gmail_service s = true ∧ db s = true.

(** The prompt and the system message of the CV translation. *)
Definition translation_prompt (text : str) : str :=
  py "Please translate the following CV text from English to professional, high-quality German suitable for a medical job application in Switzerland."
  ++ NL ++ NL ++ py "**Text to Translate:**" ++ NL ++ py "---" ++ NL
  ++ text ++ NL ++ py "---".

Definition translator : str :=
  py "You are an expert translator specializing in medical and professional documents.".

(** ** Worked situations *)

Module Worked.

(** Every service is configured; a message whose subject has a line feed
    cannot be built. *)
Definition env_header_rejected : env :=
  Env (Some (py "sk-test")) (Some (py "{}")) (Some (py "{}"))
    (λ _, None) (λ _ _ _, ApiContent (py "Betreff: Bewerbung|||Guten Tag"))
    (λ _ subject _ _,
       if contains NL subject
       then Some (py "Header values may not contain linefeed or carriage return characters")
       else None)
    (λ _ _ _ _ _, None)
    (Some Sample.three_jobs) (λ _, inr [py "Lebenslauf"]) ValidCredential
    None (λ _, None) (λ _, py "04 Nov 2026, 09:30").

(** On the Job Finder with a draft for the first job of the catalog. *)
Definition catalog_draft : world :=
  World empty_profile
    (Session main_app true (PStr (py "Lebenslauf"))
       [Sample.cv_pdf; Sample.diploma_pdf] (Some 0)
       (Some (email_dict (PStr (py "Bewerbung")) (PStr (py "Guten Tag"))))
       None true (Some (job_details_of 0 Sample.first_job)) None)
    [].

(** On the manual page with a draft and two attachments. *)
Definition manual_draft : world :=
  World empty_profile
    (Session main_app true (PStr (py "Lebenslauf"))
       [Sample.cv_pdf; Sample.diploma_pdf] None None
       (Some (email_dict (PStr (py "Bewerbung")) (PStr (py "Guten Tag"))))
       true None
       (Some (manual_details (py "hr@spital.ch") (py "Stelle"))))
    [].

(** A catalog row whose link cell is empty, which reads as NaN. *)
Definition job_without_link : dict :=
  <[py "Application URL" := PNaN]> Sample.first_job.

(** Every service is configured, but the catalog file is missing. *)
Definition env_without_catalog : env :=
  Env (Some (py "sk-test")) (Some (py "{}")) (Some (py "{}"))
    (λ _, None) (λ _ _ _, ApiContent (py "Betreff: Bewerbung|||Guten Tag"))
    (λ _ _ _ _, None) (λ _ _ _ _ _, None)
    None (λ _, inr [py "Lebenslauf"]) ValidCredential
    None (λ _, None) (λ _, py "04 Nov 2026, 09:30").

(** At the upload step with a translation stored in the profile. *)
Definition returning : world :=
  World (Profile (PStr (py "Lebenslauf")) [] 0 0 [])
    (Session upload_cv true PNone [] None None None true None None) [].

(** In the main application before any CV was processed. *)
Definition without_cv : world :=
  World empty_profile
    (Session main_app true PNone [] None None None true None None) [].

(** In the main application of a new session, a translation being stored. *)
Definition resumed : world :=
  World (Profile (PStr (py "Lebenslauf")) [] 0 0 [])
    (Session main_app true PNone [] None None None true None None) [].

End Worked.

(** * Properties *)

(** ** Strings *)

Section strings.
Implicit Types s p sep old : str.

Lemma startswith_app p s : startswith p s = true ↔ ∃ t, s = p ++ t.
Proof.
  revert s; induction p as [|a p IH]; intros s; simpl.
  - split; [eauto | done].
  - destruct s as [|b s].
    + split; [done | intros [t Ht]; discriminate].
    + rewrite andb_true_iff, N.eqb_eq, IH. split.
      * intros [-> [t ->]]. by exists t.
      * intros [t Ht]. simplify_eq. eauto.
Qed.

Lemma startswith_drop p s :
  startswith p s = true → s = p ++ drop (length p) s.
Proof.
  intros [t ->]%startswith_app. by rewrite drop_app_length.
Qed.

Lemma partition_Some sep s a b :
  partition sep s = Some (a, b) →
  s = a ++ sep ++ b
  ∧ ∀ k, k < length a → startswith sep (drop k s) = false.
Proof.
  revert a b; induction s as [|c s IH]; intros a b; simpl.
  - destruct (startswith sep []) eqn:Hp; [|done].
    intros [= <- <-]. split; [|simpl; lia].
    by apply startswith_drop in Hp.
  - destruct (startswith sep (c :: s)) eqn:Hp.
    + intros [= <- <-]. split; [|simpl; lia].
      by apply startswith_drop in Hp.
    + destruct (partition sep s) as [[a' b']|] eqn:Hs; [|done].
      intros [= <- <-]. destruct (IH a' b' eq_refl) as [-> Hk].
      split; [done|]. intros [|k] Hlt; simpl in *; [done|].
      apply Hk. lia.
Qed.

Lemma contains_partition sep s :
  contains sep s = true ↔ is_Some (partition sep s).
Proof.
  induction s as [|c s IH]; simpl.
  - rewrite orb_false_r. destruct (startswith sep []).
    + split; eauto.
    + split; [done | by intros [? ?]].
  - destruct (startswith sep (c :: s)); simpl; [split; eauto|].
    rewrite IH. destruct (partition sep s) as [[a b]|].
    + split; eauto.
    + split; by intros [? ?].
Qed.

Lemma contains_split1 sep s :
  contains sep s = true →
  ∃ a b, partition sep s = Some (a, b) ∧ split1 sep s = [a; b].
Proof.
  intros [[a b] H]%contains_partition. exists a, b.
  unfold split1. by rewrite H.
Qed.

(** Where [old] does not occur, [replace] changes nothing. *)
Lemma remove_all_absent old s :
  contains old s = false → remove_all old s = s.
Proof.
  unfold remove_all. induction s as [|c s IH]; [done|].
  intros H. simpl in H. apply orb_false_iff in H as [H1 H2].
  simpl remove_from. rewrite H1. f_equal. by apply IH.
Qed.

Lemma remove_from_skip old k s :
  k ≤ length s → remove_from old k s = remove_from old 0 (drop k s).
Proof.
  revert s; induction k as [|k IH]; intros s Hk; [done|].
  destruct s as [|c s]; simpl in *; [lia|]. apply IH. lia.
Qed.

(** A leading occurrence is dropped and the scan goes on behind it. *)
Lemma remove_all_prefix old s :
  old ≠ [] → remove_all old (old ++ s) = remove_all old s.
Proof.
  intros Hne. unfold remove_all. destruct old as [|c old]; [done|].
  change ((c :: old) ++ s) with (c :: (old ++ s)).
  cbn [remove_from].
  assert (startswith (c :: old) (c :: old ++ s) = true) as ->.
  { apply startswith_app. by exists s. }
  rewrite remove_from_skip.
  - simpl. by rewrite Nat.sub_0_r, drop_app_length.
  - simpl. rewrite length_app. lia.
Qed.

Lemma lstrip_no_space s :
  match lstrip s with c :: _ => isspace c = false | [] => True end.
Proof.
  induction s as [|c s IH]; simpl; [done|].
  destruct (isspace c) eqn:Hc; [done | by simpl].
Qed.

Lemma lstrip_suffix s : ∃ ws, s = ws ++ lstrip s ∧ Forall (λ c, isspace c = true) ws.
Proof.
  induction s as [|c s [ws [H1 H2]]]; simpl.
  - by exists [].
  - destruct (isspace c) eqn:Hc.
    + exists (c :: ws). split; [by rewrite H1 at 1 | by constructor].
    + by exists [].
Qed.

Lemma lstrip_id s :
  match s with c :: _ => isspace c = false | [] => True end → lstrip s = s.
Proof. destruct s as [|c s]; simpl; [done | by intros ->]. Qed.

Lemma split_head_no_sep c s : c ∉ s → split_head c s = s.
Proof.
  induction s as [|d s IH]; [done|]. intros H. simpl.
  apply not_elem_of_cons in H as [H1 H2].
  destruct (N.eqb_spec d c); [congruence|]. by rewrite IH.
Qed.

Lemma split_head_app c a b : c ∉ a → split_head c (a ++ c :: b) = a.
Proof.
  induction a as [|d a IH]; simpl.
  - by rewrite N.eqb_refl.
  - intros H. apply not_elem_of_cons in H as [H1 H2].
    destruct (N.eqb_spec d c); [congruence|]. by rewrite IH.
Qed.

End strings.

(** ** Drafting *)

Lemma email_dict_subject subject body :
  email_dict subject body !! py "subject" = Some subject.
Proof. unfold email_dict. by rewrite lookup_insert_eq. Qed.

Lemma email_dict_body subject body :
  email_dict subject body !! py "body" = Some body.
Proof.
  unfold email_dict. rewrite lookup_insert_ne by (by vm_compute).
  by rewrite lookup_insert_eq.
Qed.

(** [call_openai_api] always returns, with [None] or a stripped string. *)
Lemma call_openai_api_returns e prompt system_message w :
  ∃ response w',
    call_openai_api e prompt system_message w = (Ok response, w')
    ∧ w_profile w' = w_profile w ∧ w_session w' = w_session w
    ∧ (response = PNone ∨ ∃ content, response = PStr (strip content)).
Proof.
  unfold call_openai_api. destruct (negb (truthy _)).
  - eexists _, _. split; [reflexivity|]. simpl. eauto.
  - cbv [mbind M_bind get_trace emit mret M_ret].
    destruct (chat_completions_create _ _ _ _).
    + eexists _, _. split; [reflexivity|]. simpl. eauto.
    + eexists _, _. split; [reflexivity|]. simpl. eauto.
Qed.

Lemma generate_personalized_email_eq e cv jt hn ca jd w :
  ∃ response w',
    call_openai_api e (prompt_text cv (job_details_prompt jt hn ca jd))
      (py "You are a professional medical job applicant assistant, writing in German.") w
    = (Ok response, w')
    ∧ generate_personalized_email e cv jt hn ca jd w
      = (Ok (email_of_response response), w')
    ∧ w_profile w' = w_profile w ∧ w_session w' = w_session w
    ∧ (response = PNone ∨ ∃ content, response = PStr (strip content)).
Proof.
  destruct (call_openai_api_returns e
    (prompt_text cv (job_details_prompt jt hn ca jd))
    (py "You are a professional medical job applicant assistant, writing in German.") w)
    as (response & w' & Hc & Hp & Hs & Hr).
  exists response, w'. split; [done|]. split; [|done].
  unfold generate_personalized_email. cbv [mbind M_bind]. by rewrite Hc.
Qed.

Lemma email_of_response_sep r :
  contains SEP r = true →
  ∃ p1 p2, partition SEP r = Some (p1, p2)
    ∧ email_of_response (PStr r)
      = email_dict
          (PStr (strip (remove_all (py "Subject:") (remove_all (py "Betreff:") p1))))
          (PStr (strip p2)).
Proof.
  intros H. destruct (contains_split1 _ _ H) as (p1 & p2 & Hp & Hs).
  exists p1, p2. split; [done|]. unfold email_of_response.
  assert (truthy (PStr r) = true) as ->.
  { destruct r; [discriminate H | done]. }
  simpl. rewrite H. simpl. by rewrite Hs.
Qed.

Lemma email_of_response_no_sep r :
  contains SEP r = false →
  email_of_response (PStr r)
  = email_dict (PStr fallback_subject)
      (PStr (if bool_decide (r = []) then fallback_body else r)).
Proof.
  intros H. unfold email_of_response. simpl. rewrite H, andb_false_r.
  unfold py_or. simpl. by destruct (bool_decide (r = [])).
Qed.

(** Where part one is a label followed by text in which neither label
    occurs, what is left is that text: the reading of the specification
    and the code agree there. *)
Lemma subject_of_labelled_part (label rest : str) :
  label = py "Betreff:" ∨ label = py "Subject:" →
  contains (py "Betreff:") rest = false →
  contains (py "Subject:") rest = false →
  contains (py "Betreff:") (py "Subject:" ++ rest) = false →
  remove_all (py "Subject:") (remove_all (py "Betreff:") (label ++ rest)) = rest.
Proof.
  intros [-> | ->] Hb Hs Hbs.
  - rewrite remove_all_prefix by discriminate.
    rewrite (remove_all_absent _ _ Hb). by apply remove_all_absent.
  - rewrite (remove_all_absent _ _ Hbs).
    rewrite remove_all_prefix by discriminate. by apply remove_all_absent.
Qed.

(** C2, as the code has it: with a separator the response is split at its
    first occurrence, every occurrence of [Betreff:] and then of [Subject:]
    is removed from part one wherever it stands, and both parts are
    stripped; without a separator the subject is the fixed fallback and the
    body is the response text, or the placeholder when the call failed or
    the text is empty. *)
Theorem generate_personalized_email_parsing e cv jt hn ca jd w :
  ∃ response w',
    call_openai_api e (prompt_text cv (job_details_prompt jt hn ca jd))
      (py "You are a professional medical job applicant assistant, writing in German.") w
    = (Ok response, w')
    ∧ generate_personalized_email e cv jt hn ca jd w
      = (Ok (email_of_response response), w')
    ∧ match response with
      | PStr r =>
          if contains SEP r then
            ∃ p1 p2,
              r = p1 ++ SEP ++ p2
              ∧ (∀ k, k < length p1 → startswith SEP (drop k r) = false)
              ∧ email_of_response response
                = email_dict
                    (PStr (strip (remove_all (py "Subject:")
                                    (remove_all (py "Betreff:") p1))))
                    (PStr (strip p2))
          else
            email_of_response response
            = email_dict (PStr fallback_subject)
                (PStr (if bool_decide (r = []) then fallback_body else r))
      | PNone =>
          email_of_response response
          = email_dict (PStr fallback_subject) (PStr fallback_body)
      | _ => False
      end.
Proof.
  destruct (generate_personalized_email_eq e cv jt hn ca jd w)
    as (response & w' & Hc & Hg & _ & _ & Hr).
  exists response, w'. split; [done|]. split; [done|].
  destruct Hr as [-> | [content ->]]; [done|].
  destruct (contains SEP (strip content)) eqn:Hsep.
  - destruct (email_of_response_sep _ Hsep) as (p1 & p2 & Hp & He).
    exists p1, p2. by destruct (partition_Some _ _ _ _ Hp).
  - by apply email_of_response_no_sep.
Qed.

(** C2 as stated fails: a label that is not in leading position is removed
    as well, and an empty response text is replaced by the placeholder. *)
Lemma generate_personalized_email_parsing_counterexample :
  let e := Sample.env_of (py "Re: Betreff: x|||b") [] in
  (∃ d w', generate_personalized_email e PNone PNone PNone PNone PNone Sample.fresh
             = (Ok d, w')
           ∧ d !! py "subject" = Some (PStr (py "Re:  x"))
           ∧ spec_email_of_response (PStr (py "Re: Betreff: x|||b")) !! py "subject"
             = Some (PStr (py "Re: Betreff: x")))
  ∧ email_of_response (PStr []) !! py "body" = Some (PStr fallback_body)
  ∧ spec_email_of_response (PStr []) !! py "body" = Some (PStr []).
Proof.
  split; [|split; by vm_compute].
  eexists _, _. split; [by vm_compute|]. split; by vm_compute.
Qed.

(** C10: [generate_personalized_email] returns on every input, and what it
    returns has a string under [subject] and a string under [body]. *)
Theorem generate_personalized_email_total e cv jt hn ca jd w :
  ∃ d w' subject body,
    generate_personalized_email e cv jt hn ca jd w = (Ok d, w')
    ∧ d !! py "subject" = Some (PStr subject)
    ∧ d !! py "body" = Some (PStr body).
Proof.
  destruct (generate_personalized_email_eq e cv jt hn ca jd w)
    as (response & w' & _ & Hg & _ & _ & Hr).
  exists (email_of_response response), w'.
  destruct Hr as [-> | [content ->]].
  - exists fallback_subject, fallback_body. split; [done|].
    split; [apply email_dict_subject | apply email_dict_body].
  - destruct (contains SEP (strip content)) eqn:Hsep.
    + destruct (email_of_response_sep _ Hsep) as (p1 & p2 & _ & He).
      eexists _, _. split; [done|]. rewrite He.
      split; [apply email_dict_subject | apply email_dict_body].
    + eexists _, _. split; [done|]. rewrite (email_of_response_no_sep _ Hsep).
      split; [apply email_dict_subject | apply email_dict_body].
Qed.

(** ** The selector *)

Lemma qualifies_offered A idx row : qualifies A idx row = true ↔ offered A idx row.
Proof.
  unfold qualifies, offered, dict_get.
  rewrite !andb_true_iff, negb_true_iff, bool_decide_eq_false.
  destruct (row !! CONTACT) as [v|]; simpl.
  - destruct v; simpl; (split; [intros [[? ?] ?] | intros [? [s' [[= ?] ?]]]]);
      simplify_eq; eauto.
  - split; [by intros [[_ ?] _] | by intros [_ [s [? _]]]].
Qed.

Lemma scan_jobs_spec A rows k :
  match scan_jobs A k rows with
  | Some (i, row) =>
      ∃ n, i = k + n ∧ rows !! n = Some row ∧ offered A i row
           ∧ ∀ m r, m < n → rows !! m = Some r → ¬ offered A (k + m) r
  | None => ∀ m r, rows !! m = Some r → ¬ offered A (k + m) r
  end.
Proof.
  revert k; induction rows as [|row rows IH]; intros k; simpl.
  - intros m r Hm. by rewrite lookup_nil in Hm.
  - destruct (qualifies A k row) eqn:Hq.
    + exists 0. rewrite Nat.add_0_r. split; [done|]. split; [done|].
      split; [by apply qualifies_offered | lia].
    + assert (¬ offered A k row) as Hk.
      { rewrite <- qualifies_offered. by rewrite Hq. }
      specialize (IH (S k)). destruct (scan_jobs A (S k) rows) as [[i r]|].
      * destruct IH as (n & -> & Hn & Ho & Hmin). exists (S n).
        split; [lia|]. split; [done|]. split; [done|].
        intros [|m] r' Hm Hr'; simpl in Hr'.
        -- rewrite Nat.add_0_r. by simplify_eq.
        -- replace (k + S m) with (S k + m) by lia. apply Hmin; [lia | done].
      * intros [|m] r' Hr'; simpl in Hr'.
        -- rewrite Nat.add_0_r. by simplify_eq.
        -- replace (k + S m) with (S k + m) by lia. by apply IH.
Qed.

(** ** Reasoning about runs *)

Section wp.
Context {A B : Type}.
Implicit Types (w : world) (Q : outcome A → world → Prop).

Lemma wp_ret (a : A) Q w : Q (Ok a) w → wp (mret a) Q w.
Proof. done. Qed.

Lemma wp_exit (f : flow) Q w : Q (Exit f) w → wp (exit f) Q w.
Proof. done. Qed.

Lemma wp_bind (m : M B) (f : B → M A) Q w :
  wp m (λ r w', match r with
                | Ok b => wp (f b) Q w'
                | Exit x => Q (Exit x) w'
                end) w →
  wp (m ≫= f) Q w.
Proof.
  unfold wp, mbind, M_bind. by destruct (m w) as [[b|x] w'].
Qed.

Lemma wp_eq (m : M A) Q w r w' : m w = (r, w') → Q r w' → wp m Q w.
Proof. unfold wp. by intros ->. Qed.

Lemma wp_steady R (m : M A) Q w :
  steady R m → (∀ r w', R w w' → Q r w') → wp m Q w.
Proof. unfold wp, steady. eauto. Qed.

End wp.

Lemma wp_get_session Q w : Q (Ok (w_session w)) w → wp get_session Q w.
Proof. done. Qed.

Lemma wp_get_profile Q w : Q (Ok (w_profile w)) w → wp get_profile Q w.
Proof. done. Qed.

Lemma wp_get_trace Q w : Q (Ok (w_trace w)) w → wp get_trace Q w.
Proof. done. Qed.

Lemma wp_emit ev Q w :
  Q (Ok tt) (World (w_profile w) (w_session w) (w_trace w ++ [ev])) →
  wp (emit ev) Q w.
Proof. done. Qed.

Lemma wp_assign f Q w :
  Q (Ok tt) (World (w_profile w) (f (w_session w)) (w_trace w)) →
  wp (assign f) Q w.
Proof. done. Qed.

Lemma wp_firestore_write d Q w :
  Q (Ok tt) (World (apply_write d (w_profile w)) (w_session w)
               (w_trace w ++ [Firestore d])) →
  wp (firestore_write d) Q w.
Proof. done. Qed.

Lemma wp_function body Q w :
  wp body (λ r w', match r with
                   | Exit Return => Q (Ok tt) w'
                   | _ => Q r w'
                   end) w →
  wp (function body) Q w.
Proof.
  unfold wp, function. by destruct (body w) as [[[]|[]] w'].
Qed.

Ltac wp_simpl :=
  cbn beta iota zeta delta [w_profile w_session w_trace clicked negb
    step gmail_service cv_content attachments current_job_id
    generated_email_content manual_email_content db current_job_details
    manual_job_details set_step set_gmail_service set_cv_content
    set_attachments set_current_job_id set_generated_email_content
    set_manual_email_content set_db set_current_job_details
    set_manual_job_details app_page act uploaded_files lang].

(** One step of symbolic execution. *)
Ltac wp_prim :=
  lazymatch goal with
  | |- wp (mret _) _ _ => apply wp_ret
  | |- wp (_ ≫= _) _ _ => apply wp_bind
  | |- wp (exit _) _ _ => apply wp_exit
  | |- wp get_session _ _ => apply wp_get_session
  | |- wp get_profile _ _ => apply wp_get_profile
  | |- wp get_trace _ _ => apply wp_get_trace
  | |- wp (emit _) _ _ => apply wp_emit
  | |- wp (assign _) _ _ => apply wp_assign
  | |- wp (firestore_write _) _ _ => apply wp_firestore_write
  | |- wp (function _) _ _ => apply wp_function
  | |- wp (when _ _) _ _ => unfold when
  | |- wp (attribute _) _ _ => unfold attribute
  | |- wp (dict_item _ _) _ _ => unfold dict_item
  | |- wp (get_user_data _) _ _ => unfold get_user_data
  | |- wp (update_user_data _ _) _ _ => unfold update_user_data
  | |- wp (save_sent_email _ _) _ _ => unfold save_sent_email
  | |- wp (increment _ _) _ _ => unfold increment
  | |- wp (call_openai_api _ _ _) _ _ => unfold call_openai_api
  | |- wp (generate_personalized_email _ _ _ _ _ _) _ _ =>
      unfold generate_personalized_email
  | |- wp (translate_cv_text _ _) _ _ => unfold translate_cv_text
  | |- wp (extract_text_from_pdf _ _) _ _ => unfold extract_text_from_pdf
  | |- wp (send_email_logic _ _ _ _ _ _) _ _ => unfold send_email_logic
  | |- wp (get_firestore_db _) _ _ => unfold get_firestore_db
  | |- wp (gmail_authenticate _) _ _ => unfold gmail_authenticate
  end; wp_simpl.

Ltac wp_case :=
  lazymatch goal with
  | |- wp (if ?b then _ else _) _ _ => destruct b eqn:?
  | |- wp (match ?x with _ => _ end) _ _ => destruct x eqn:?
  end; wp_simpl.

Ltac wp_run := repeat first [wp_prim | wp_case].

Section steady.
Context (R : world → world → Prop) `{!Frame R}.

Lemma steady_ret {A} (a : A) : steady R (mret a).
Proof. intros w. apply frame_refl. Qed.

Lemma steady_exit {A} (f : flow) : steady R (exit f : M A).
Proof. intros w. apply frame_refl. Qed.

Lemma steady_bind {A B} (m : M B) (f : B → M A) :
  steady R m → (∀ b, steady R (f b)) → steady R (m ≫= f).
Proof.
  intros Hm Hf w. unfold mbind, M_bind. specialize (Hm w).
  destruct (m w) as [[b|x] w']; simpl in *; [|done].
  eapply frame_trans; [done | apply Hf].
Qed.

Lemma steady_get_session : steady R get_session.
Proof. intros w. apply frame_refl. Qed.

Lemma steady_get_profile : steady R get_profile.
Proof. intros w. apply frame_refl. Qed.

Lemma steady_get_trace : steady R get_trace.
Proof. intros w. apply frame_refl. Qed.

Lemma steady_emit ev : frame_event ev → steady R (emit ev).
Proof. intros H w. by apply frame_emit. Qed.

Lemma steady_assign f : frame_assignment f → steady R (assign f).
Proof. intros H w. by apply frame_assign. Qed.

Lemma steady_firestore_write d : frame_write_ok d → steady R (firestore_write d).
Proof.
  intros H w. apply (frame_write w d) in H.
  by cbv [firestore_write mbind M_bind emit get_profile put_profile].
Qed.

Lemma steady_function body : steady R body → steady R (function body).
Proof.
  intros H w. specialize (H w). unfold function.
  by destruct (body w) as [[[]|[]] w'].
Qed.

End steady.

Ltac frame_side :=
  solve [ exact I | done | simpl; tauto | intros []; reflexivity
        | simpl; intros []; reflexivity | auto ].

Ltac steady_step :=
  lazymatch goal with
  | |- steady ?R (mret _) => apply (steady_ret R)
  | |- steady ?R (_ ≫= _) => apply (steady_bind R); [|intros ?]
  | |- steady ?R (exit _) => apply (steady_exit R)
  | |- steady ?R get_session => apply (steady_get_session R)
  | |- steady ?R get_profile => apply (steady_get_profile R)
  | |- steady ?R get_trace => apply (steady_get_trace R)
  | |- steady ?R (emit _) => apply (steady_emit R); frame_side
  | |- steady ?R (assign _) => apply (steady_assign R); frame_side
  | |- steady ?R (firestore_write _) => apply (steady_firestore_write R); frame_side
  | |- steady ?R (function _) => apply (steady_function R)
  | |- steady _ (if ?b then _ else _) => destruct b
  | |- steady _ (match ?x with _ => _ end) => destruct x
  | |- steady _ (when _ _) => unfold when
  | |- steady _ (attribute _) => unfold attribute
  | |- steady _ (dict_item _ _) => unfold dict_item
  | |- steady _ (get_user_data _) => unfold get_user_data
  | |- steady _ (update_user_data _ _) => unfold update_user_data
  | |- steady _ (save_sent_email _ _) => unfold save_sent_email
  | |- steady _ (increment _ _) => unfold increment
  | |- steady _ (call_openai_api _ _ _) => unfold call_openai_api
  | |- steady _ (generate_personalized_email _ _ _ _ _ _) =>
      unfold generate_personalized_email
  | |- steady _ (translate_cv_text _ _) => unfold translate_cv_text
  | |- steady _ (extract_text_from_pdf _ _) => unfold extract_text_from_pdf
  | |- steady _ (send_email_logic _ _ _ _ _ _) => unfold send_email_logic
  | |- steady _ (get_firestore_db _) => unfold get_firestore_db
  | |- steady _ (gmail_authenticate _) => unfold gmail_authenticate
  end; cbn beta iota zeta delta [clicked negb app_page act uploaded_files lang].

Ltac steady_run := repeat steady_step.

(** The loops of the pages. *)

Lemma steady_attachment_rows R `{!Frame R} (a : action) (idxs : list nat) :
  (∀ k t, frame_event (Ui k t)) →
  (∀ i, clicked a (Click_remove i) = true → ∀ f, frame_assignment f) →
  steady R (attachment_rows a idxs).
Proof.
  intros Hev Has. induction idxs as [|i idxs IH]; simpl; [apply (steady_ret R)|].
  apply (steady_bind R); [apply (steady_get_session R) | intros s].
  destruct (attachments s !! i); [|apply (steady_exit R)].
  apply (steady_bind R); [by apply (steady_emit R) | intros _].
  apply (steady_bind R); [|by intros _].
  unfold when. destruct (clicked a (Click_remove i)) eqn:Hc; [|apply (steady_ret R)].
  apply (steady_bind R); [|intros _; apply (steady_exit R)].
  apply (steady_assign R). by eapply Has.
Qed.

Lemma steady_render_dashboard R `{!Frame R} (e : env) :
  (∀ k t, frame_event (Ui k t)) → steady R (render_dashboard e).
Proof.
  intros Hev. unfold render_dashboard. apply (steady_function R).
  apply (steady_bind R); [by apply (steady_emit R) | intros _].
  apply (steady_bind R); [apply (steady_get_profile R) | intros p].
  generalize (reverse (imap (λ n data, (n, data)) (sent_emails p))). intros emails.
  destruct emails as [|m emails].
  - apply (steady_bind R); [by apply (steady_emit R) | intros _; apply (steady_exit R)].
  - generalize (m :: emails). clear m emails p. intros l.
    induction l as [|d l IH]; cbn [foldr]; [apply (steady_ret R)|].
    cbv zeta.
    do 4 (apply (steady_bind R); [by apply (steady_emit R) | intros _]).
    apply (steady_bind R); [by apply (steady_emit R) | by intros _].
Qed.

(** ** Relations that every run respects *)

Section permissive.
Context (R : world → world → Prop) `{!Frame R}.
Context (Hev : ∀ ev, is_write ev = false → frame_event ev).
Context (Has : ∀ f, frame_assignment f).
Context (Hwr : ∀ d, frame_write_ok d).

Lemma permissive_render_application_form e a is_manual :
  steady R (render_application_form e a is_manual).
Proof.
  unfold render_application_form. steady_run.
  all: try (apply (steady_attachment_rows R); [intros; by apply Hev | auto]).
Qed.

Lemma permissive_render_manual_job_page e a :
  steady R (render_manual_job_page e a).
Proof.
  unfold render_manual_job_page. steady_run.
  all: apply permissive_render_application_form.
Qed.

Lemma permissive_render_job_finder e a db :
  steady R (render_job_finder e a db).
Proof.
  unfold render_job_finder. steady_run.
  all: apply permissive_render_application_form.
Qed.

Lemma permissive_main e i : steady R (main e i).
Proof.
  unfold main. steady_run.
  all: first [ apply permissive_render_job_finder
             | apply permissive_render_manual_job_page
             | apply (steady_render_dashboard R); intros; by apply Hev ].
Qed.

Lemma permissive_interact e i w : R w (interact e i w).2.
Proof.
  unfold interact. pose proof (permissive_main e i w) as H1.
  destruct (main e i w) as [[[]|[]] w1]; simpl in *; try done.
  eapply frame_trans; [done | apply permissive_main].
Qed.

Lemma permissive_session_run e inputs w : R w (session_run e inputs w).
Proof.
  unfold session_run. revert w. induction inputs as [|i inputs IH]; intros w; simpl.
  - apply frame_refl.
  - eapply frame_trans; [apply permissive_interact | apply IH].
Qed.

End permissive.

(** ** The applied set *)

Lemma marked_app tr1 tr2 : marked (tr1 ++ tr2) = marked tr1 ++ marked tr2.
Proof.
  induction tr1 as [|ev tr1 IH]; [done|].
  destruct ev as [| | | |[]]; simpl; try done.
  by rewrite IH, app_assoc.
Qed.

Lemma array_union_app (a b l : list str) :
  array_union (a ++ b) l = array_union b (array_union a l).
Proof. unfold array_union. by rewrite foldl_app. Qed.


Lemma array_union_keeps (ids l : list str) x : x ∈ l → x ∈ array_union ids l.
Proof.
  revert l; induction ids as [|y ids IH]; intros l Hx; [done|].
  change (array_union (y :: ids) l)
    with (array_union ids (if bool_decide (y ∈ l) then l else l ++ [y])).
  apply IH. case_bool_decide; [done|]. set_solver.
Qed.

Lemma applied_jobs_apply_write d p :
  applied_jobs (apply_write d p) = array_union (marked [Firestore d]) (applied_jobs p).
Proof.
  destruct d; simpl; try done.
  - by rewrite app_nil_r.
  - by repeat case_bool_decide.
Qed.

Lemma grows_refl w : grows w w.
Proof. exists []. by rewrite app_nil_r. Qed.

Lemma grows_trans w1 w2 w3 : grows w1 w2 → grows w2 w3 → grows w1 w3.
Proof.
  intros (t1 & Ht1 & Ha1) (t2 & Ht2 & Ha2). exists (t1 ++ t2).
  rewrite Ht2, Ht1, app_assoc. split; [done|].
  by rewrite Ha2, Ha1, marked_app, array_union_app.
Qed.

Lemma grows_emit w ev :
  is_write ev = false →
  grows w (World (w_profile w) (w_session w) (w_trace w ++ [ev])).
Proof. intros Hev. exists [ev]. split; [done|]. by destruct ev. Qed.

Lemma grows_assign w (f : session_state → session_state) :
  True → grows w (World (w_profile w) (f (w_session w)) (w_trace w)).
Proof. intros _. exists []. simpl. by rewrite app_nil_r. Qed.

Lemma grows_write w d :
  True →
  grows w (World (apply_write d (w_profile w)) (w_session w)
             (w_trace w ++ [Firestore d])).
Proof.
  intros _. exists [Firestore d]. split; [done|].
  apply applied_jobs_apply_write.
Qed.

#[export] Instance grows_frame : Frame grows := {|
  frame_event := λ ev, is_write ev = false;
  frame_assignment := λ _, True;
  frame_write_ok := λ _, True;
  frame_refl := grows_refl;
  frame_trans := grows_trans;
  frame_emit := grows_emit;
  frame_assign := grows_assign;
  frame_write := grows_write
|}.

Lemma unmarked_trans w1 w2 w3 : unmarked w1 w2 → unmarked w2 w3 → unmarked w1 w3.
Proof.
  intros (Ha1 & t1 & Ht1 & Hm1) (Ha2 & t2 & Ht2 & Hm2).
  split; [by rewrite Ha2|]. exists (t1 ++ t2).
  rewrite Ht2, Ht1, app_assoc. split; [done|].
  by rewrite marked_app, Hm1, Hm2.
Qed.

Lemma unmarked_write w d :
  other_write d →
  unmarked w (World (apply_write d (w_profile w)) (w_session w)
                (w_trace w ++ [Firestore d])).
Proof.
  intros Hd. split.
  - simpl. destruct d; simpl; try done. by repeat case_bool_decide.
  - exists [Firestore d]. split; [done|]. by destruct d.
Qed.

Lemma unmarked_refl w : unmarked w w.
Proof. split; [done|]. exists []. by rewrite app_nil_r. Qed.

Lemma unmarked_emit w ev :
  is_write ev = false →
  unmarked w (World (w_profile w) (w_session w) (w_trace w ++ [ev])).
Proof. intros Hev. split; [done|]. exists [ev]. split; [done|]. by destruct ev. Qed.

Lemma unmarked_assign w (f : session_state → session_state) :
  True → unmarked w (World (w_profile w) (f (w_session w)) (w_trace w)).
Proof. intros _. split; [done|]. exists []. simpl. by rewrite app_nil_r. Qed.

#[export] Instance unmarked_frame : Frame unmarked := {|
  frame_event := λ ev, is_write ev = false;
  frame_assignment := λ _, True;
  frame_write_ok := other_write;
  frame_refl := unmarked_refl;
  frame_trans := unmarked_trans;
  frame_emit := unmarked_emit;
  frame_assign := unmarked_assign;
  frame_write := unmarked_write
|}.







(** ** Manual entry *)

Section indep.

Lemma indep_ret {A} (a : A) : indep (mret a).
Proof. done. Qed.

Lemma indep_exit {A} (f : flow) : indep (exit f : M A).
Proof. done. Qed.

Lemma indep_bind {A B} (m : M B) (f : B → M A) :
  indep m → (∀ b, indep (f b)) → indep (m ≫= f).
Proof.
  intros Hm Hf aj sc sk cj w. unfold mbind, M_bind. rewrite Hm.
  destruct (m w) as [[b|x] w']; simpl; [apply Hf | done].
Qed.

(** Reading the session is harmless when what follows does not look at
    the tracked job id. *)
Lemma indep_get_session {A} (f : session_state → M A) :
  (∀ cj s, f (set_current_job_id cj s) = f s) →
  (∀ s, indep (f s)) →
  indep (get_session ≫= f).
Proof.
  intros Hf Hi aj sc sk cj w. unfold mbind, M_bind, get_session. simpl.
  rewrite Hf. apply Hi.
Qed.

Lemma indep_get_trace : indep get_trace.
Proof. done. Qed.

Lemma indep_emit ev : indep (emit ev).
Proof. done. Qed.

Lemma indep_assign f :
  (∀ cj s, f (set_current_job_id cj s) = set_current_job_id cj (f s)) →
  indep (assign f).
Proof.
  intros Hf aj sc sk cj w. unfold assign, mbind, M_bind, get_session, put_session.
  simpl. unfold overwrite. simpl. by rewrite Hf.
Qed.

Lemma indep_firestore_write d :
  match d with Add_sent_email _ | Set_translated_cv _ => True | _ => False end →
  indep (firestore_write d).
Proof.
  intros Hd aj sc sk cj w. by destruct d.
Qed.

Lemma indep_function body : indep body → indep (function body).
Proof.
  intros H aj sc sk cj w. unfold function. rewrite H.
  by destruct (body w) as [[[]|[]] w'].
Qed.

End indep.

Ltac indep_step :=
  lazymatch goal with
  | |- indep (mret _) => apply indep_ret
  | |- indep (get_session ≫= _) =>
      apply indep_get_session; [intros ? []; reflexivity | intros ?]
  | |- indep (_ ≫= _) => apply indep_bind; [|intros ?]
  | |- indep (exit _) => apply indep_exit
  | |- indep get_trace => apply indep_get_trace
  | |- indep (emit _) => apply indep_emit
  | |- indep (assign _) => apply indep_assign; intros ? []; reflexivity
  | |- indep (firestore_write _) => apply indep_firestore_write; exact I
  | |- indep (function _) => apply indep_function
  | |- indep (if ?b then _ else _) => destruct b
  | |- indep (match ?x with _ => _ end) => destruct x
  | |- indep (when _ _) => unfold when
  | |- indep (attribute _) => unfold attribute
  | |- indep (save_sent_email _ _) => unfold save_sent_email
  | |- indep (call_openai_api _ _ _) => unfold call_openai_api
  | |- indep (generate_personalized_email _ _ _ _ _ _) =>
      unfold generate_personalized_email
  | |- indep (send_email_logic _ _ _ _ _ _) => unfold send_email_logic
  end; cbn beta iota zeta delta [clicked negb].

Lemma indep_attachment_rows (a : action) (idxs : list nat) :
  indep (attachment_rows a idxs).
Proof.
  induction idxs as [|i idxs IH]; simpl; [apply indep_ret|].
  repeat indep_step. done.
Qed.

Lemma indep_render_application_form (e : env) (a : action) :
  indep (render_application_form e a true).
Proof.
  unfold render_application_form. repeat indep_step.
  all: apply indep_attachment_rows.
Qed.

Lemma indep_render_manual_job_page (e : env) (a : action) :
  indep (render_manual_job_page e a).
Proof.
  unfold render_manual_job_page. repeat indep_step.
  all: apply indep_render_application_form.
Qed.

Lemma filter_chat_app tr1 tr2 :
  List.filter is_chat (tr1 ++ tr2)
  = List.filter is_chat tr1 ++ List.filter is_chat tr2.
Proof. apply List.filter_app. Qed.

Lemma count_chat_app tr1 tr2 :
  count_chat (tr1 ++ tr2) = count_chat tr1 + count_chat tr2.
Proof. unfold count_chat. by rewrite filter_chat_app, length_app. Qed.

Lemma truthy_str (s : str) : s ≠ [] → truthy (PStr s) = true.
Proof. intros H. simpl. by rewrite bool_decide_eq_false_2. Qed.

(** A manual submission sends its own request to the model and stores
    what comes of the answer to that request. *)
Lemma manual_submission_requests (e : env) (w : world) (c d : str) :
  truthy_dict (manual_email_content (w_session w)) = false →
  c ≠ [] → d ≠ [] →
  truthy (getenv (OPENAI_API_KEY e)) = true →
  wp (render_manual_job_page e (Submit_manual c d))
    (λ r w',
       let system_message :=
         py "You are a professional medical job applicant assistant, writing in German." in
       let prompt :=
         prompt_text (cv_content (w_session w)) (unstructured_block (PStr d)) in
       r = Exit Rerun
       ∧ List.filter is_chat (w_trace w')
         = List.filter is_chat (w_trace w) ++ [ChatCompletion system_message prompt]
       ∧ manual_email_content (w_session w')
         = Some (email_of_response
                   match chat_completions_create e (count_chat (w_trace w))
                           system_message prompt with
                   | ApiContent x => PStr (strip x)
                   | ApiRaises _ => PNone
                   end)) w.
Proof.
  intros Hm Hc Hd Hk. unfold render_manual_job_page.
  wp_run.
  all: rewrite ?Hm, ?Hk, ?(truthy_str _ Hc), ?(truthy_str _ Hd) in *; try done.
  all: rewrite ?count_chat_app, ?filter_chat_app in *;
    cbn [count_chat List.filter is_chat length] in *;
    rewrite ?Nat.add_0_r, ?app_nil_r in *.
  all: change (job_details_prompt PNone PNone PNone (PStr d))
         with (unstructured_block (PStr d)) in *.
  all: by rewrite Heqa.
Qed.

(** C9: the manual page, whatever the operator does on it (generating a
    draft, regenerating, sending), runs the same and leaves the same world
    when the applied ids, both counters and the tracked job id are
    replaced by anything else, so it neither reads nor writes them; and
    every manual submission sends a request of its own to the model, the
    draft it stores being made from the answer to that request. *)
Theorem manual_entry_isolated (e : env) (a : action) (w : world) :
  (∀ aj sc sk cj,
     render_manual_job_page e a (overwrite aj sc sk cj w)
     = ((render_manual_job_page e a w).1,
        overwrite aj sc sk cj (render_manual_job_page e a w).2))
  ∧ (let w' := (render_manual_job_page e a w).2 in
     applied_jobs (w_profile w') = applied_jobs (w_profile w)
     ∧ sent_count (w_profile w') = sent_count (w_profile w)
     ∧ skipped_count (w_profile w') = skipped_count (w_profile w)
     ∧ current_job_id (w_session w') = current_job_id (w_session w))
  ∧ (∀ c d,
       a = Submit_manual c d →
       truthy_dict (manual_email_content (w_session w)) = false →
       c ≠ [] → d ≠ [] →
       truthy (getenv (OPENAI_API_KEY e)) = true →
       let r := render_manual_job_page e a w in
       let system_message :=
         py "You are a professional medical job applicant assistant, writing in German." in
       let prompt :=
         prompt_text (cv_content (w_session w)) (unstructured_block (PStr d)) in
       r.1 = Exit Rerun
       ∧ List.filter is_chat (w_trace r.2)
         = List.filter is_chat (w_trace w) ++ [ChatCompletion system_message prompt]
       ∧ manual_email_content (w_session r.2)
         = Some (email_of_response
                   match chat_completions_create e (count_chat (w_trace w))
                           system_message prompt with
                   | ApiContent x => PStr (strip x)
                   | ApiRaises _ => PNone
                   end)).
Proof.
  split; [intros; apply indep_render_manual_job_page|]. split.
  - pose proof (indep_render_manual_job_page e a
      (applied_jobs (w_profile w)) (sent_count (w_profile w))
      (skipped_count (w_profile w)) (current_job_id (w_session w)) w) as H.
    assert (overwrite (applied_jobs (w_profile w)) (sent_count (w_profile w))
              (skipped_count (w_profile w)) (current_job_id (w_session w)) w = w)
      as Hw by (by destruct w as [[] [] ?]).
    rewrite Hw in H. destruct (render_manual_job_page e a w) as [r w'].
    simpl in *. injection H as H. by rewrite H.
  - intros c d -> Hm Hc Hd Hk.
    exact (manual_submission_requests e w c d Hm Hc Hd Hk).
Qed.

(** ** Runs that only render *)

Lemma quiet_refl w : quiet w w.
Proof. split; [done|]. split; [done|]. exists []. by rewrite app_nil_r. Qed.

Lemma quiet_trans w1 w2 w3 : quiet w1 w2 → quiet w2 w3 → quiet w1 w3.
Proof.
  intros (Hp1 & Hs1 & t1 & Ht1 & Hu1) (Hp2 & Hs2 & t2 & Ht2 & Hu2).
  split; [congruence|]. split; [congruence|]. exists (t1 ++ t2).
  rewrite Ht2, Ht1, app_assoc. split; [done|].
  rewrite forallb_app. by rewrite Hu1, Hu2.
Qed.

Lemma quiet_emit w ev :
  is_ui ev = true →
  quiet w (World (w_profile w) (w_session w) (w_trace w ++ [ev])).
Proof.
  intros H. split; [done|]. split; [done|]. exists [ev]. split; [done|].
  simpl. by rewrite H.
Qed.

Lemma quiet_assign w (f : session_state → session_state) :
  False → quiet w (World (w_profile w) (f (w_session w)) (w_trace w)).
Proof. done. Qed.

Lemma quiet_write w d :
  False →
  quiet w (World (apply_write d (w_profile w)) (w_session w)
             (w_trace w ++ [Firestore d])).
Proof. done. Qed.

#[export] Instance quiet_frame : Frame quiet := {|
  frame_event := λ ev, is_ui ev = true;
  frame_assignment := λ _, False;
  frame_write_ok := λ _, False;
  frame_refl := quiet_refl;
  frame_trans := quiet_trans;
  frame_emit := quiet_emit;
  frame_assign := quiet_assign;
  frame_write := quiet_write
|}.

(** Unless Regenerate, Remove or Send triggered the run, the form only
    renders. *)
Lemma quiet_render_application_form (e : env) (a : action) (is_manual : bool) :
  idle a = true → steady quiet (render_application_form e a is_manual).
Proof.
  intros Ha. unfold render_application_form.
  destruct a; try done; steady_run.
  all: apply (steady_attachment_rows quiet); done.
Qed.

(** ** The Job Finder page *)

Lemma next_job_spec (applied : gset str) (jobs_df : list dict) :
  match next_job applied jobs_df with
  | Some (i, row) =>
      jobs_df !! i = Some row ∧ offered applied i row
      ∧ (∀ j r, j < i → jobs_df !! j = Some r → ¬ offered applied j r)
  | None => ∀ j r, jobs_df !! j = Some r → ¬ offered applied j r
  end.
Proof.
  unfold next_job. pose proof (scan_jobs_spec applied jobs_df 0) as H.
  destruct (scan_jobs applied 0 jobs_df) as [[i row]|]; [|done].
  destruct H as (n & -> & Hn & Ho & Hmin). done.
Qed.

(** Whatever job the session tracked before, after a run of the page it
    tracks the job that the scan from row zero finds. *)
Lemma finder_tracks_next_job (e : env) (a : action) (w : world)
    (jobs_df : list dict) (i : nat) (row : dict) :
  read_csv e = Some jobs_df →
  next_job (list_to_set (applied_jobs (w_profile w))) jobs_df = Some (i, row) →
  a = No_action ∨ a = Click_prepare →
  wp (render_job_finder e a true)
     (λ _ w', current_job_id (w_session w') = Some i) w.
Proof.
  intros Hcsv Hnext Ha. unfold render_job_finder. rewrite Hcsv.
  assert (∀ b, negb (bool_decide (current_job_id (w_session w) = Some i)) = b →
               b = false → current_job_id (w_session w) = Some i) as Hcur.
  { intros b <- Hb. by apply negb_false_iff, bool_decide_eq_true in Hb. }
  destruct Ha as [-> | ->].
  all: repeat first [rewrite Hnext | wp_prim | wp_case].
  all: lazymatch goal with
       | |- wp (render_application_form _ _ _) _ _ =>
           eapply (wp_steady quiet); [by apply quiet_render_application_form|];
           intros r w' (_ & Hs & _); rewrite Hs; simpl;
           destruct r as [|[]]
       | |- _ => idtac
       end.
  all: first [reflexivity | apply (Hcur false); reflexivity].
Qed.

Lemma finder_exhausted (e : env) (a : action) (w : world) (jobs_df : list dict) :
  read_csv e = Some jobs_df →
  next_job (list_to_set (applied_jobs (w_profile w))) jobs_df = None →
  render_job_finder e a true w
  = (Ok tt,
     World (w_profile w) (w_session w)
       (w_trace w
        ++ [Ui st_header ([63743; 252; 238; 231]%N ++ py " Job Finder");
            Ui st_info ([63743; 252; 233; 226]%N
                        ++ py " All jobs from the CSV have been processed!")])).
Proof.
  intros Hcsv Hnext. unfold render_job_finder. rewrite Hcsv.
  cbv [function mbind M_bind emit get_user_data negb get_profile].
  simpl. rewrite Hnext. simpl. by rewrite <- app_assoc.
Qed.

(** C1: the selector returns the smallest row index whose string is not
    among the applied ids and whose contact field is a string with an [@],
    and nothing when there is no such row; the page finds its job by this
    scan from row zero whatever job the session tracked before. *)
Theorem next_job_smallest (applied : gset str) (jobs_df : list dict) :
  match next_job applied jobs_df with
  | Some (i, row) =>
      jobs_df !! i = Some row ∧ offered applied i row
      ∧ (∀ j r, j < i → jobs_df !! j = Some r → ¬ offered applied j r)
      ∧ (∀ (e : env) (w : world),
           read_csv e = Some jobs_df →
           list_to_set (applied_jobs (w_profile w)) = applied →
           current_job_id (w_session (render_job_finder e No_action true w).2)
           = Some i)
  | None =>
      (∀ j r, jobs_df !! j = Some r → ¬ offered applied j r)
      ∧ (∀ (e : env) (a : action) (w : world),
           read_csv e = Some jobs_df →
           list_to_set (applied_jobs (w_profile w)) = applied →
           render_job_finder e a true w
           = (Ok tt,
              World (w_profile w) (w_session w)
                (w_trace w
                 ++ [Ui st_header ([63743; 252; 238; 231]%N ++ py " Job Finder");
                     Ui st_info ([63743; 252; 233; 226]%N
                                 ++ py " All jobs from the CSV have been processed!")])))
  end.
Proof.
  pose proof (next_job_spec applied jobs_df) as H.
  destruct (next_job applied jobs_df) as [[i row]|] eqn:Hnext.
  - destruct H as (H1 & H2 & H3).
    split; [exact H1|]. split; [exact H2|]. split; [exact H3|].
    intros e w Hcsv Happ. subst applied.
    exact (finder_tracks_next_job e No_action w jobs_df i row Hcsv Hnext
             (or_introl eq_refl)).
  - split; [exact H|]. intros e a w Hcsv Happ. subst applied.
    exact (finder_exhausted e a w jobs_df Hcsv Hnext).
Qed.

Lemma next_job_smallest_witness :
  ∃ row,
    next_job {[ py "0" ]} Sample.three_jobs = Some (1, row)
    ∧ current_job_id
        (w_session
           (render_job_finder (Sample.env_of [] Sample.three_jobs) No_action true
              (World (Profile PNone [py "0"] 0 0 []) Sample.ready [])).2)
      = Some 1.
Proof.
  pose proof (next_job_smallest {[ py "0" ]} Sample.three_jobs) as H.
  assert (fst <$> next_job {[ py "0" ]} Sample.three_jobs = Some 1) as Hn.
  { vm_compute. reflexivity. }
  destruct (next_job {[ py "0" ]} Sample.three_jobs) as [[i row]|]; [|discriminate Hn].
  injection Hn as ->. exists row. split; [reflexivity|].
  destruct H as (_ & _ & _ & H). apply H; [reflexivity|].
  vm_compute. reflexivity.
Defined.

(** A field with a single address, no comma in it, is trimmed on both
    sides. *)
Lemma contact_email_single (s : str) :
  44%N ∉ strip s → contact_email_of (PStr s) = strip s.
Proof. intros H. unfold contact_email_of. by apply split_head_no_sep. Qed.

(** With several addresses the recipient is what stands before the first
    comma of the stripped field, untrimmed on its right. *)
Lemma contact_email_first (a b : str) :
  44%N ∉ a → strip (a ++ 44%N :: b) = a ++ 44%N :: b →
  contact_email_of (PStr (a ++ 44%N :: b)) = a.
Proof.
  intros Ha Hs. unfold contact_email_of. simpl fmt. rewrite Hs.
  by apply split_head_app.
Qed.

(** C4, on the code: the whole field is stripped before it is split, so
    whitespace between the first address and the comma stays in the
    recipient. *)
Theorem contact_email_keeps_inner_space :
  contact_email_of (PStr (py "a@x.ch , b@y.ch")) = py "a@x.ch "
  ∧ job_details_of 0 (Sample.job [] [] [] (py "a@x.ch , b@y.ch")) !! py "contact_email"
    = Some (PStr (py "a@x.ch "))
  ∧ py "a@x.ch " ≠ py "a@x.ch".
Proof.
  split; [vm_compute; reflexivity|]. split; [vm_compute; reflexivity|].
  intros H. vm_compute in H. discriminate H.
Qed.

(** ** The Review/Send form *)

Lemma send_without_attachments_quiet (e : env) (is_manual : bool) (w : world)
    (to subject body : str) (new : list file) :
  attachments (w_session w) ++ new = [] →
  wp (render_application_form e (Submit_send to subject body new) is_manual)
     (λ _ w', quiet w w') w.
Proof.
  intros H. apply app_eq_nil in H as [Ha ->].
  unfold render_application_form.
  repeat first [rewrite Ha | wp_prim | wp_case].
  all: try match goal with Hx : [] ++ [] = _ :: _ |- _ => discriminate Hx end.
  all: split; [reflexivity|]; split; [reflexivity|].
  all: rewrite <- ?app_assoc; eexists; split; [reflexivity|]; reflexivity.
Qed.

Lemma send_without_attachments_warns (e : env) (is_manual : bool) (w : world)
    (to subject body : str) (new : list file) (details content : dict) :
  attachments (w_session w) ++ new = [] →
  (if is_manual then manual_job_details (w_session w)
   else current_job_details (w_session w)) = Some details →
  (is_manual = false → is_Some (details !! py "job_id")) →
  (if is_manual then manual_email_content (w_session w)
   else generated_email_content (w_session w)) = Some content →
  wp (render_application_form e (Submit_send to subject body new) is_manual)
     (λ r w',
        r = Ok tt
        ∧ w' = World (w_profile w) (w_session w)
                 (w_trace w
                  ++ form_rejected))
     w.
Proof.
  intros H Hd Hid Hc. apply app_eq_nil in H as [Ha ->].
  unfold render_application_form.
  repeat first [rewrite Hd | rewrite Hc | rewrite Ha | wp_prim | wp_case].
  all: try match goal with Hx : [] ++ [] = _ :: _ |- _ => discriminate Hx end.
  all: try (destruct is_manual; [discriminate | destruct (Hid eq_refl); congruence]).
  all: split; [reflexivity|]; by rewrite <- ?app_assoc.
Qed.

Lemma only_ui_filters (tr : list event) :
  forallb is_ui tr = true →
  List.filter is_send tr = [] ∧ List.filter is_write tr = []
  ∧ List.filter is_chat tr = [].
Proof.
  induction tr as [|ev tr IH]; [done|]. simpl.
  intros [Hev Htr]%andb_true_iff. destruct ev; try discriminate Hev.
  simpl. by apply IH.
Qed.

(** C7: a submission of the Review/Send form whose session attachments
    and newly picked files are both empty changes neither the profile nor
    the session and adds only UI output to the trace: no send is
    attempted, no sent-email record is written, the counters and the
    applied ids stay as they are; where the form is on display, the run
    returns after the warning. *)
Theorem send_without_attachments_rejected (e : env) (is_manual : bool) (w : world)
    (to subject body : str) (new : list file) :
  attachments (w_session w) ++ new = [] →
  let r := render_application_form e (Submit_send to subject body new) is_manual w in
  w_profile r.2 = w_profile w
  ∧ w_session r.2 = w_session w
  ∧ (∃ tr', w_trace r.2 = w_trace w ++ tr'
            ∧ List.filter is_send tr' = [] ∧ List.filter is_write tr' = [])
  ∧ (∀ details content,
       (if is_manual then manual_job_details (w_session w)
        else current_job_details (w_session w)) = Some details →
       (is_manual = false → is_Some (details !! py "job_id")) →
       (if is_manual then manual_email_content (w_session w)
        else generated_email_content (w_session w)) = Some content →
       r = (Ok tt,
            World (w_profile w) (w_session w)
              (w_trace w
               ++ form_rejected))).
Proof.
  intros H r.
  destruct (send_without_attachments_quiet e is_manual w to subject body new H)
    as (Hp & Hs & tr' & Htr & Hui).
  split; [exact Hp|]. split; [exact Hs|]. split.
  - exists tr'. split; [exact Htr|]. by destruct (only_ui_filters tr' Hui) as (? & ? & _).
  - intros details content Hd Hid Hc.
    destruct (send_without_attachments_warns e is_manual w to subject body new
                details content H Hd Hid Hc) as [H1 H2].
    subst r. destruct (render_application_form _ _ _ _) as [r1 w1].
    simpl in H1, H2. by rewrite H1, H2.
Qed.

Lemma send_without_attachments_rejected_witness :
  attachments (w_session Sample.manual_draft_no_files) ++ [] = []
  ∧ render_application_form (Sample.env_of [] [])
      (Submit_send (py "hr@spital.ch") (py "Bewerbung") (py "Guten Tag") [])
      true Sample.manual_draft_no_files
    = (Ok tt,
       World (w_profile Sample.manual_draft_no_files)
         (w_session Sample.manual_draft_no_files)
         (w_trace Sample.manual_draft_no_files
          ++ form_rejected)).
Proof.
  split; [reflexivity|].
  eapply (send_without_attachments_rejected (Sample.env_of [] [])
            true Sample.manual_draft_no_files); [reflexivity | | | ].
  - reflexivity.
  - discriminate.
  - reflexivity.
Defined.

(** ** The main script *)

(** C3, as the code has it: when the session has no Firestore handle and
    the connection cannot be made, no page is rendered.  With the OpenAI
    key set, the run shows the title and the error of the connection
    attempt and stops there, nothing else changing; without it the script
    has raised before the title, where it creates the OpenAI client. *)
Theorem persistence_unavailable_halts (e : env) (i : input) (w : world) :
  db (w_session w) = false →
  connection_fails e →
  match OPENAI_API_KEY e with
  | Some _ =>
      ∃ msg,
        main e i w
        = (Exit Stop,
           World (w_profile w) (w_session w)
             (w_trace w ++ [app_title; Ui st_error msg]))
  | None => main e i w = (Exit (Raise (py "OpenAIError")), w)
  end.
Proof.
  intros Hdb Hfail. destruct w as [p s tr]. destruct s. simpl in Hdb. subst.
  unfold main. destruct (OPENAI_API_KEY e) as [key|]; [|reflexivity].
  cbv [mbind M_bind mret M_ret emit get_session when negb w_session w_profile
       w_trace db].
  unfold get_firestore_db.
  destruct Hfail as [Hf | [x Hx]].
  - rewrite Hf. simpl. eexists. by rewrite <- app_assoc.
  - destruct (truthy (getenv (FIREBASE_SERVICE_ACCOUNT_JSON e))); simpl.
    + rewrite Hx. simpl. eexists. by rewrite <- app_assoc.
    + eexists. by rewrite <- app_assoc.
Qed.

Lemma persistence_unavailable_halts_witness :
  db (w_session Sample.start) = false
  ∧ connection_fails Sample.env_without_firebase
  ∧ ∃ msg,
      main Sample.env_without_firebase (Input Job_Finder [] English No_action)
        Sample.start
      = (Exit Stop,
         World (w_profile Sample.start) (w_session Sample.start)
           (w_trace Sample.start ++ [app_title; Ui st_error msg])).
Proof.
  assert (connection_fails Sample.env_without_firebase) as H by (left; reflexivity).
  split; [reflexivity|]. split; [exact H|].
  exact (persistence_unavailable_halts Sample.env_without_firebase
           (Input Job_Finder [] English No_action) Sample.start eq_refl H).
Defined.

(** C3 as stated fails: without the service account the run stops after
    the error and the page of the current step, which a connected run
    renders, is not rendered. *)
Lemma persistence_unavailable_counterexample :
  main Sample.env_without_firebase (Input Job_Finder [] English No_action)
    Sample.start
  = (Exit Stop,
     World empty_profile default_states
       [app_title; Ui st_error (py "Firebase service account JSON not found.")])
  ∧ main (Sample.env_of [] []) (Input Job_Finder [] English No_action)
      Sample.start
    = (Ok tt,
       World empty_profile (set_db true default_states)
         [app_title; Ui st_header (py "Step 1: Authorize Your Gmail Account")]).
Proof. split; vm_compute; reflexivity. Qed.

(** C5, as the code has it: on the upload step (which a script that
    could create its OpenAI client reaches) every uploaded file, the CV
    included, becomes the session's attachment list, in upload order with
    the CV first; the text read as the CV is that of the first file. *)
Theorem upload_sets_all_attachments (e : env) (i : input) (w : world)
    (cv_file : file) (others : list file) :
  is_Some (OPENAI_API_KEY e) →
  db (w_session w) = true →
  step (w_session w) = upload_cv →
  uploaded_files i = cv_file :: others →
  act i ≠ Click_use_saved_cv →
  attachments (w_session (main e i w).2) = cv_file :: others
  ∧ (∀ pages,
       act i = Click_confirm → lang i = German →
       pdf_pages e cv_file = inr pages →
       concat (List.filter (λ t, negb (bool_decide (t = []))) pages) ≠ [] →
       cv_content (w_session (main e i w).2)
       = PStr (concat (List.filter (λ t, negb (bool_decide (t = []))) pages))).
Proof.
  intros [key Hkey] Hdb Hstep Hup Hact.
  assert (clicked (act i) Click_use_saved_cv = false) as Hc
    by (by destruct (act i)).
  split.
  - change (wp (main e i)
              (λ _ w', attachments (w_session w') = cv_file :: others) w).
    unfold main. rewrite Hkey.
    repeat first [rewrite Hdb | rewrite Hstep | rewrite Hup | rewrite Hc
                 | rewrite andb_false_r | wp_prim | wp_case].
    all: reflexivity.
  - intros pages Ha Hl Hpdf Hne.
    change (wp (main e i)
              (λ _ w', cv_content (w_session w')
                       = PStr (concat (List.filter
                                         (λ t, negb (bool_decide (t = []))) pages))) w).
    unfold main. rewrite Hkey.
    repeat first [rewrite Hdb | rewrite Hstep | rewrite Hup | rewrite Hc
                 | rewrite Ha | rewrite Hl | rewrite Hpdf
                 | rewrite (truthy_str _ Hne)
                 | rewrite andb_false_r | wp_prim | wp_case].
    all: first [reflexivity | discriminate].
Qed.

Lemma upload_sets_all_attachments_witness :
  attachments
    (w_session
       (main (Sample.env_of [] [])
          (Input Job_Finder [Sample.cv_pdf; Sample.diploma_pdf] German No_action)
          Sample.uploading).2)
  = [Sample.cv_pdf; Sample.diploma_pdf].
Proof.
  apply (upload_sets_all_attachments (Sample.env_of [] [])
           (Input Job_Finder [Sample.cv_pdf; Sample.diploma_pdf] German No_action)
           Sample.uploading Sample.cv_pdf [Sample.diploma_pdf]);
    [eexists; reflexivity | reflexivity | reflexivity | reflexivity | discriminate].
Defined.

(** C5 as stated fails: after uploading a CV and a diploma the attachment
    list starts with the CV; it is not the list without its first file. *)
Lemma upload_attachments_counterexample :
  let w' := (main (Sample.env_of [] [])
               (Input Job_Finder [Sample.cv_pdf; Sample.diploma_pdf] German No_action)
               Sample.uploading).2 in
  attachments (w_session w') = [Sample.cv_pdf; Sample.diploma_pdf]
  ∧ attachments (w_session w') ≠ [Sample.diploma_pdf]
  ∧ In Sample.cv_pdf (attachments (w_session w')).
Proof.
  split; [vm_compute; reflexivity|]. split.
  - intros H. vm_compute in H. discriminate H.
  - vm_compute. left. reflexivity.
Qed.

(** ** Prepare Application *)

Lemma details_job_title (j : nat) (row : dict) :
  job_details_of j row !! py "job_title"
  = Some (dict_get row (py "job_title") (PStr (py "N/A"))).
Proof. reflexivity. Qed.

Lemma details_hospital_name (j : nat) (row : dict) :
  job_details_of j row !! py "hospital_name"
  = Some (dict_get row (py "hospital_name") (PStr [])).
Proof. reflexivity. Qed.

Lemma details_canton (j : nat) (row : dict) :
  job_details_of j row !! py "canton" = Some (dict_get row (py "canton") (PStr [])).
Proof. reflexivity. Qed.

Lemma details_job_description (j : nat) (row : dict) :
  job_details_of j row !! py "job_description"
  = Some (dict_get row (py "Job Description (short)") (PStr [])).
Proof. reflexivity. Qed.

Lemma details_application_url (j : nat) (row : dict) :
  job_details_of j row !! py "application_url"
  = Some (dict_get row (py "Application URL") (PStr [])).
Proof. reflexivity. Qed.

Lemma details_job_id (j : nat) (row : dict) :
  job_details_of j row !! py "job_id" = Some (PInt (Z.of_nat j)).
Proof. reflexivity. Qed.

Lemma details_contact_email (j : nat) (row : dict) :
  job_details_of j row !! py "contact_email"
  = Some (PStr (contact_email_of (dict_get row CONTACT (PStr [])))).
Proof. reflexivity. Qed.

Lemma prepare_application_requests (e : env) (w : world) (jobs_df : list dict)
    (j : nat) (row : dict) :
  read_csv e = Some jobs_df →
  next_job (list_to_set (applied_jobs (w_profile w))) jobs_df = Some (j, row) →
  (current_job_id (w_session w) = Some j →
   current_job_details (w_session w) = Some (job_details_of j row)) →
  truthy (getenv (OPENAI_API_KEY e)) = true →
  (truthy (dict_get row (py "Application URL") (PStr [])) = true →
   is_str (dict_get row (py "Application URL") (PStr [])) = true) →
  wp (render_job_finder e Click_prepare true)
    (λ _ w',
       ∃ tr',
         w_trace w' = w_trace w ++ tr'
         ∧ List.filter is_chat tr'
           = [ChatCompletion
                (py "You are a professional medical job applicant assistant, writing in German.")
                (prompt_text (cv_content (w_session w))
                   (job_details_prompt
                      (dict_get row (py "job_title") (PStr (py "N/A")))
                      (dict_get row (py "hospital_name") (PStr []))
                      (dict_get row (py "canton") (PStr []))
                      (dict_get row (py "Job Description (short)") (PStr []))))])
    w.
Proof.
  intros Hcsv Hnext Hcons Hkey Hurl. unfold render_job_finder. rewrite Hcsv.
  pose proof (details_job_title j row) as Hjt.
  pose proof (details_hospital_name j row) as Hhn.
  pose proof (details_canton j row) as Hca.
  pose proof (details_job_description j row) as Hjd.
  pose proof (details_job_id j row) as Hid.
  assert (dict_get (job_details_of j row) (py "application_url") PNone
          = dict_get row (py "Application URL") (PStr [])) as Hu by reflexivity.
  remember (job_details_of j row) as details eqn:Hdet.
  revert Hcons Hjt Hhn Hca Hjd Hid Hu Hurl.
  generalize (dict_get row (py "Application URL") (PStr [])) as url.
  generalize (dict_get row (py "job_title") (PStr (py "N/A"))) as jt.
  generalize (dict_get row (py "hospital_name") (PStr [])) as hn.
  generalize (dict_get row (py "canton") (PStr [])) as ca.
  generalize (dict_get row (py "Job Description (short)") (PStr [])) as jd.
  intros jd ca hn jt url Hcons Hjt Hhn Hca Hjd Hid Hu Hurl.
  assert (∀ t, forallb is_ui t = true → List.filter is_chat t = []) as Hui.
  { intros t Ht. by destruct (only_ui_filters t Ht) as (_ & _ & ?). }
  destruct (bool_decide (current_job_id (w_session w) = Some j)) eqn:Hb;
    [apply bool_decide_eq_true in Hb as Hb'; specialize (Hcons Hb') | clear Hcons].
  all: repeat first [ progress (first [rewrite Hnext | rewrite <- Hdet
                                      | rewrite Hb | rewrite Hcons
                                      | rewrite Hkey | rewrite Hu | rewrite Hjt
                                      | rewrite Hhn | rewrite Hca | rewrite Hjd
                                      | rewrite Hid]; wp_simpl)
                    | wp_prim | wp_case ].
  all: lazymatch goal with
       | |- wp (render_application_form _ _ _) _ _ =>
           eapply (wp_steady quiet); [by apply quiet_render_application_form|];
           let t := fresh "t" in let Ht := fresh "Ht" in let Hq := fresh "Hq" in
           intros r w' (_ & _ & t & Ht & Hq); cbn [w_trace] in Ht;
           rewrite Ht; apply Hui in Hq; destruct r as [|[]];
           rewrite <- !app_assoc; (eexists; split; [reflexivity|]);
           cbn [List.filter is_chat app]; rewrite ?filter_chat_app;
           cbn [List.filter is_chat app]; rewrite Hq; reflexivity
       | H : py_in _ ?u = None |- _ =>
           exfalso; clear - H Hurl;
           destruct u; first [discriminate H | discriminate (Hurl eq_refl)]
       | |- _ =>
           rewrite <- !app_assoc; (eexists; split; [reflexivity|]);
           cbn [List.filter is_chat app]; reflexivity
       end.
Qed.

(** C6, as the code has it: Prepare Application on the job that the page
    shows sends one request to the model, whose prompt embeds the
    structured block (Position, Hospital, Canton, Job Description, as
    formatted from the row) when the job title and the hospital name are
    both truthy, and the unstructured block otherwise. *)
Theorem prepare_application_prompt (e : env) (w : world) (jobs_df : list dict)
    (j : nat) (row : dict) :
  read_csv e = Some jobs_df →
  next_job (list_to_set (applied_jobs (w_profile w))) jobs_df = Some (j, row) →
  (current_job_id (w_session w) = Some j →
   current_job_details (w_session w) = Some (job_details_of j row)) →
  truthy (getenv (OPENAI_API_KEY e)) = true →
  (truthy (dict_get row (py "Application URL") (PStr [])) = true →
   is_str (dict_get row (py "Application URL") (PStr [])) = true) →
  let job_title := dict_get row (py "job_title") (PStr (py "N/A")) in
  let hospital_name := dict_get row (py "hospital_name") (PStr []) in
  let canton := dict_get row (py "canton") (PStr []) in
  let job_description := dict_get row (py "Job Description (short)") (PStr []) in
  ∃ tr',
    w_trace (render_job_finder e Click_prepare true w).2 = w_trace w ++ tr'
    ∧ List.filter is_chat tr'
      = [ChatCompletion
           (py "You are a professional medical job applicant assistant, writing in German.")
           (prompt_text (cv_content (w_session w))
              (if truthy job_title && truthy hospital_name
               then structured_block job_title hospital_name canton job_description
               else unstructured_block job_description))].
Proof.
  intros Hcsv Hnext Hcons Hkey Hurl.
  exact (prepare_application_requests e w jobs_df j row Hcsv Hnext Hcons Hkey Hurl).
Qed.

Lemma prepare_application_prompt_witness :
  ∃ tr',
    w_trace (render_job_finder (Sample.env_of (py "Betreff: Bewerbung|||Guten Tag")
                                  Sample.three_jobs)
               Click_prepare true Sample.fresh).2
    = w_trace Sample.fresh ++ tr'
    ∧ List.filter is_chat tr'
      = [ChatCompletion
           (py "You are a professional medical job applicant assistant, writing in German.")
           (prompt_text (PStr (py "Lebenslauf"))
              (structured_block (PStr (py "Assistenzarzt")) (PStr (py "USZ"))
                 (PStr (py "ZH")) (PStr (py "Innere Medizin"))))].
Proof.
  apply (prepare_application_prompt
           (Sample.env_of (py "Betreff: Bewerbung|||Guten Tag") Sample.three_jobs)
           Sample.fresh Sample.three_jobs 0 Sample.first_job).
  - reflexivity.
  - reflexivity.
  - discriminate.
  - reflexivity.
  - reflexivity.
Defined.

(** C6 as stated fails: for a catalog without a [hospital_name] column the
    default [''] is falsy and Prepare Application sends the unstructured
    block. *)
Lemma prepare_application_counterexample :
  let e := Sample.env_of (py "Betreff: Bewerbung|||Guten Tag")
             [Sample.job_without_hospital] in
  fst <$> next_job ∅ [Sample.job_without_hospital] = Some 0
  ∧ List.filter is_chat
      (w_trace (render_job_finder e Click_prepare true Sample.fresh).2)
    = [ChatCompletion
         (py "You are a professional medical job applicant assistant, writing in German.")
         (prompt_text (PStr (py "Lebenslauf"))
            (unstructured_block (PStr (py "Chirurgie"))))]
  ∧ unstructured_block (PStr (py "Chirurgie"))
    ≠ structured_block (PStr (py "Assistenzarzt")) (PStr []) (PStr [])
        (PStr (py "Chirurgie")).
Proof.
  split; [vm_compute; reflexivity|]. split; [vm_compute; reflexivity|].
  intros H. vm_compute in H. discriminate H.
Qed.

(** ** Worked sessions *)

(** Skipping job 0 and then sending the application for job 1 leaves
    exactly their ids in the array, one skip and one send counted. *)
Example skip_then_send_profile :
  let p := w_profile (session_run (Sample.env_of (py "Betreff: Bewerbung|||Guten Tag")
                                     Sample.three_jobs)
                        Sample.skip_then_send Sample.fresh) in
  applied_jobs p = [py "0"; py "1"]
  ∧ skipped_count p = 1%Z ∧ sent_count p = 1%Z
  ∧ recipient <$> sent_emails p = [py "b@ksb.ch"].
Proof. repeat split; vm_compute; reflexivity. Qed.

Lemma manual_entry_isolated_witness :
  let e := Sample.env_of (py "Betreff: Bewerbung|||Guten Tag") [] in
  let a := Submit_manual (py "hr@spital.ch") (py "Stelle") in
  let r := render_manual_job_page e a Sample.fresh in
  let system_message :=
    py "You are a professional medical job applicant assistant, writing in German." in
  let prompt :=
    prompt_text (cv_content (w_session Sample.fresh))
      (unstructured_block (PStr (py "Stelle"))) in
  r.1 = Exit Rerun
  ∧ List.filter is_chat (w_trace r.2)
    = List.filter is_chat (w_trace Sample.fresh)
      ++ [ChatCompletion system_message prompt]
  ∧ manual_email_content (w_session r.2)
    = Some (email_of_response
              match chat_completions_create e (count_chat (w_trace Sample.fresh))
                      system_message prompt with
              | ApiContent x => PStr (strip x)
              | ApiRaises _ => PNone
              end).
Proof.
  intros e a r system_message prompt.
  apply (proj2 (proj2 (manual_entry_isolated e a Sample.fresh))
           (py "hr@spital.ch") (py "Stelle")).
  - reflexivity.
  - reflexivity.
  - discriminate.
  - discriminate.
  - reflexivity.
Defined.

(** Two manual submissions with the same text, the first one sent in
    between: two requests go to the model, the second draft is made from
    the second answer, and neither the applied ids nor the counters
    move. *)
Example manual_twice_requests :
  let w := session_run (Sample.env_numbered []) Sample.manual_twice Sample.fresh in
  count_chat (w_trace w) = 2
  ∧ (manual_email_content (w_session w) ≫= (.!! py "subject"))
    = Some (PStr (py "Zweite"))
  ∧ recipient <$> sent_emails (w_profile w) = [py "hr@spital.ch"]
  ∧ se_subject <$> sent_emails (w_profile w) = [py "Bewerbung"]
  ∧ applied_jobs (w_profile w) = []
  ∧ sent_count (w_profile w) = 0%Z ∧ skipped_count (w_profile w) = 0%Z.
Proof. repeat split; vm_compute; reflexivity. Qed.

(** ** What Skip and a catalog send write *)

Lemma wp_mono {A} (m : M A) (Q Q' : outcome A → world → Prop) (w : world) :
  wp m Q' w → (∀ r w', Q' r w' → Q r w') → wp m Q w.
Proof. unfold wp. auto. Qed.





Lemma count_send_ui (tr tr' : list event) :
  forallb is_ui tr' = true → count_send (tr ++ tr') = count_send tr.
Proof.
  intros H. unfold count_send. rewrite List.filter_app, length_app.
  destruct (only_ui_filters tr' H) as (-> & _). simpl. lia.
Qed.






(** * Further properties *)

(** ** More on strings *)

Section strip.
Implicit Types s : str.

Lemma lstrip_head s c : head (lstrip s) = Some c → isspace c = false.
Proof.
  pose proof (lstrip_no_space s) as H. destruct (lstrip s); [done|].
  by intros [= <-].
Qed.

Lemma lstrip_fixed s : (∀ c, head s = Some c → isspace c = false) → lstrip s = s.
Proof. intros H. apply lstrip_id. destruct s; [done|]. by apply H. Qed.

(** [rstrip] cuts a run of whitespace off the end and nothing else. *)
Lemma rstrip_prefix s :
  ∃ ws, s = rstrip s ++ ws ∧ Forall (λ c, isspace c = true) ws.
Proof.
  destruct (lstrip_suffix (reverse s)) as (ws & H1 & H2).
  exists (reverse ws). split.
  - unfold rstrip. rewrite <- reverse_app, <- H1. by rewrite reverse_involutive.
  - by apply Forall_reverse.
Qed.

Lemma rstrip_last s c : last (rstrip s) = Some c → isspace c = false.
Proof.
  unfold rstrip. rewrite last_reverse. apply lstrip_head.
Qed.

Lemma rstrip_head s c :
  (∀ c, head s = Some c → isspace c = false) →
  head (rstrip s) = Some c → isspace c = false.
Proof.
  intros Hs Hc. destruct (rstrip_prefix s) as (ws & H1 & H2).
  apply Hs. rewrite H1. destruct (rstrip s); [done|]. exact Hc.
Qed.

Lemma rstrip_fixed s : (∀ c, last s = Some c → isspace c = false) → rstrip s = s.
Proof.
  intros H. unfold rstrip. rewrite lstrip_fixed; [apply reverse_involutive|].
  intros c Hc. apply H. by rewrite <- head_reverse.
Qed.

Lemma strip_trimmed s : trimmed (strip s).
Proof.
  split; intros c Hc.
  - eapply rstrip_head; [|exact Hc]. apply lstrip_head.
  - by eapply rstrip_last.
Qed.

Lemma strip_fixed s : trimmed s → strip s = s.
Proof.
  intros [H1 H2]. unfold strip. rewrite lstrip_fixed by done. by apply rstrip_fixed.
Qed.

Lemma strip_idempotent s : strip (strip s) = strip s.
Proof. apply strip_fixed, strip_trimmed. Qed.

End strip.

Lemma contains_here (sub b : str) : contains sub (sub ++ b) = true.
Proof.
  destruct (sub ++ b) eqn:E; simpl; apply orb_true_iff; left;
    apply startswith_app; exists b; by rewrite E.
Qed.

Lemma contains_app_r (sub a t : str) :
  contains sub t = true → contains sub (a ++ t) = true.
Proof.
  intros H. induction a as [|c a IH]; [done|].
  simpl. apply orb_true_iff. by right.
Qed.

Lemma contains_app_l (sub t b : str) :
  contains sub t = true → contains sub (t ++ b) = true.
Proof.
  induction t as [|c t IH]; simpl.
  - rewrite orb_false_r. intros H. destruct sub; [|done]. by destruct b.
  - intros [H|H]%orb_true_iff; apply orb_true_iff.
    + left. apply startswith_app in H as [u Hu]. apply startswith_app.
      exists (u ++ b). change (c :: t ++ b) with ((c :: t) ++ b).
      by rewrite Hu, app_assoc.
    + right. by apply IH.
Qed.

Ltac find_part :=
  repeat first [ apply contains_here
               | apply contains_app_r ].

(** ** More on drafting *)

(** X1: the subject and the body that [generate_personalized_email]
    returns never start or end with whitespace, whichever way the response
    was parsed. *)
Theorem generated_email_is_trimmed (e : env) (cv jt hn ca jd : pyval) (w : world) :
  ∃ d w' subject body,
    generate_personalized_email e cv jt hn ca jd w = (Ok d, w')
    ∧ d !! py "subject" = Some (PStr subject)
    ∧ d !! py "body" = Some (PStr body)
    ∧ trimmed subject ∧ trimmed body.
Proof.
  assert (trimmed fallback_subject) as Hfs.
  { split; intros c Hc; vm_compute in Hc; injection Hc as <-; reflexivity. }
  assert (trimmed fallback_body) as Hfb.
  { split; intros c Hc; vm_compute in Hc; injection Hc as <-; reflexivity. }
  destruct (generate_personalized_email_eq e cv jt hn ca jd w)
    as (response & w' & _ & Hg & _ & _ & Hr).
  exists (email_of_response response), w'.
  destruct Hr as [-> | [content ->]].
  - exists fallback_subject, fallback_body. split; [exact Hg|].
    split; [apply email_dict_subject|]. split; [apply email_dict_body|]. done.
  - destruct (contains SEP (strip content)) eqn:Hsep.
    + destruct (email_of_response_sep _ Hsep) as (p1 & p2 & _ & He).
      eexists _, _. split; [exact Hg|]. rewrite He.
      split; [apply email_dict_subject|]. split; [apply email_dict_body|].
      split; apply strip_trimmed.
    + eexists _, _. split; [exact Hg|]. rewrite (email_of_response_no_sep _ Hsep).
      split; [apply email_dict_subject|]. split; [apply email_dict_body|].
      split; [exact Hfs|]. case_bool_decide; [exact Hfb | apply strip_trimmed].
Qed.

(** X2: [call_openai_api] never raises and touches neither the profile
    nor the session.  Without an API key it sends no request; with one it
    sends exactly one.  A [None] result always comes with exactly one
    surfaced error, a string result with none, and the string is
    trimmed. *)
Theorem call_openai_api_surfaces_failures (e : env) (prompt system_message : str)
    (w : world) :
  ∃ response tr',
    call_openai_api e prompt system_message w
    = (Ok response, World (w_profile w) (w_session w) (w_trace w ++ tr'))
    ∧ List.filter is_chat tr'
      = (if truthy (getenv (OPENAI_API_KEY e))
         then [ChatCompletion system_message prompt] else [])
    ∧ match response with
      | PNone => length (List.filter is_error tr') = 1
      | PStr s => trimmed s ∧ List.filter is_error tr' = []
      | _ => False
      end.
Proof.
  unfold call_openai_api. destruct (truthy (getenv (OPENAI_API_KEY e)));
    cbv [negb mbind M_bind get_trace emit mret M_ret w_profile w_session w_trace].
  - destruct (chat_completions_create _ _ _ _) as [x|content].
    + eexists PNone, _. split; [by rewrite <- app_assoc|]. done.
    + eexists (PStr _), _. split; [reflexivity|]. split; [done|].
      split; [apply strip_trimmed | done].
  - eexists PNone, _. split; [reflexivity|]. done.
Qed.

(** X3: the prompt of [generate_personalized_email] carries the CV text
    and the job description verbatim in both branches, and the job title,
    hospital and canton too when the structured branch is taken. *)
Theorem prompt_embeds_inputs (cv jt hn ca jd : pyval) :
  let prompt := prompt_text cv (job_details_prompt jt hn ca jd) in
  contains (fmt cv) prompt = true
  ∧ contains (fmt jd) prompt = true
  ∧ (if truthy jt && truthy hn
     then contains (fmt jt) prompt = true
          ∧ contains (fmt hn) prompt = true
          ∧ contains (fmt ca) prompt = true
     else True).
Proof.
  intros prompt. subst prompt. split; [unfold prompt_text; find_part|].
  assert (∀ sub, contains sub (job_details_prompt jt hn ca jd) = true →
                 contains sub (prompt_text cv (job_details_prompt jt hn ca jd)) = true)
    as Hblock.
  { intros sub H. unfold prompt_text.
    repeat first [ apply contains_app_l; exact H | apply contains_app_r ]. }
  unfold job_details_prompt in *.
  destruct (truthy jt && truthy hn).
  - repeat split; apply Hblock; unfold structured_block; find_part.
  - split; [|done]. apply Hblock. unfold unstructured_block. find_part.
Qed.

(** ** More on the selector *)

Lemma digits_inj (u v : Decimal.uint) : digits u = digits v → u = v.
Proof.
  revert v; induction u; intros v H; destruct v; try discriminate H;
    try reflexivity; injection H as H; f_equal; by apply IHu.
Qed.

Lemma str_of_Z_inj (a b : Z) : str_of_Z a = str_of_Z b → a = b.
Proof.
  unfold str_of_Z. intros H. apply DecimalZ.to_int_inj.
  destruct (Z.to_int a) as [u|u], (Z.to_int b) as [v|v].
  - f_equal. by apply digits_inj.
  - by destruct u.
  - by destruct v.
  - injection H as H. f_equal. by apply digits_inj.
Qed.

(** [str(i)] tells the rows apart. *)
Lemma job_key_inj (i j : nat) : job_key i = job_key j → i = j.
Proof.
  unfold job_key. simpl. intros H. apply str_of_Z_inj in H. lia.
Qed.

Lemma offered_after_skip (A : gset str) (j k : nat) (row : dict) :
  offered ({[ job_key j ]} ∪ A) k row ↔ offered A k row ∧ k ≠ j.
Proof.
  unfold offered. split.
  - intros [Hk Hrow]. split; [split; [set_solver | done]|].
    intros ->. set_solver.
  - intros [[Hk Hrow] Hne]. split; [|done].
    intros [Hin%elem_of_singleton | Hin]%elem_of_union; [|done].
    by apply job_key_inj in Hin.
Qed.

(** X4: skipping (or sending) the job that the selector returned moves
    the selector to the next row after it that qualified before, and to
    "exhausted" when there is none: no other row is hidden and none
    before it comes back. *)
Theorem next_job_after_skip (A : gset str) (jobs_df : list dict) (j : nat) (row : dict) :
  next_job A jobs_df = Some (j, row) →
  match next_job ({[ job_key j ]} ∪ A) jobs_df with
  | Some (k, r) =>
      j < k ∧ jobs_df !! k = Some r ∧ offered A k r
      ∧ ∀ m r', j < m < k → jobs_df !! m = Some r' → ¬ offered A m r'
  | None => ∀ m r', j < m → jobs_df !! m = Some r' → ¬ offered A m r'
  end.
Proof.
  intros Hj. pose proof (next_job_spec A jobs_df) as HA. rewrite Hj in HA.
  destruct HA as (Hrow & Hoff & Hmin).
  pose proof (next_job_spec ({[ job_key j ]} ∪ A) jobs_df) as HB.
  destruct (next_job ({[ job_key j ]} ∪ A) jobs_df) as [[k r]|].
  - destruct HB as (Hk & Hok & Hkmin).
    apply offered_after_skip in Hok as [Hok Hne].
    assert (j < k) as Hlt.
    { destruct (decide (k < j)) as [Hkj|Hkj]; [|lia].
      by destruct (Hmin k r Hkj Hk). }
    split; [exact Hlt|]. split; [exact Hk|]. split; [exact Hok|].
    intros m r' [Hm1 Hm2] Hm Hoff'. apply (Hkmin m r' Hm2 Hm).
    apply offered_after_skip. split; [done | lia].
  - intros m r' Hm Hr' Hoff'. apply (HB m r' Hr').
    apply offered_after_skip. split; [done | lia].
Qed.

Lemma next_job_after_skip_witness :
  match next_job ({[ job_key 0 ]} ∪ ∅) Sample.three_jobs with
  | Some (k, r) =>
      0 < k ∧ Sample.three_jobs !! k = Some r ∧ offered ∅ k r
      ∧ ∀ m r', 0 < m < k → Sample.three_jobs !! m = Some r' → ¬ offered ∅ m r'
  | None => ∀ m r', 0 < m → Sample.three_jobs !! m = Some r' → ¬ offered ∅ m r'
  end.
Proof.
  apply (next_job_after_skip ∅ Sample.three_jobs 0 Sample.first_job).
  reflexivity.
Defined.

(** X5: a job whose id is among the applied ids is never offered again:
    after any further sequence of interactions, and for any catalog, the
    selector does not return its row index. *)
Theorem applied_job_never_offered_again (e : env) (inputs : list input) (w : world)
    (jobs_df : list dict) (j : nat) (row : dict) :
  job_key j ∈ applied_jobs (w_profile w) →
  next_job (list_to_set (applied_jobs (w_profile (session_run e inputs w)))) jobs_df
  ≠ Some (j, row).
Proof.
  intros Hj Hnext.
  destruct (@permissive_session_run grows grows_frame (λ _ H, H) (λ _, I) (λ _, I)
              e inputs w) as (tr' & _ & Ha).
  pose proof (next_job_spec
                (list_to_set (applied_jobs (w_profile (session_run e inputs w))))
                jobs_df) as H.
  rewrite Hnext in H. destruct H as (_ & [Hnot _] & _). apply Hnot.
  apply elem_of_list_to_set. rewrite Ha. by apply array_union_keeps.
Qed.

Lemma applied_job_never_offered_again_witness :
  next_job
    (list_to_set
       (applied_jobs
          (w_profile
             (session_run (Sample.env_of [] Sample.three_jobs)
                [Sample.on_page Job_Finder Click_skip]
                (World (Profile PNone [job_key 0] 0 0 []) Sample.ready [])))))
    Sample.three_jobs
  ≠ Some (0, Sample.first_job).
Proof.
  apply applied_job_never_offered_again. apply list_elem_of_here.
Defined.

(** X6: the recipient that the Job Finder derives from the contact field
    holds no comma and does not start with whitespace. *)
Theorem contact_email_clean (field : pyval) :
  (44%N ∉ contact_email_of field)
  ∧ (∀ c, head (contact_email_of field) = Some c → isspace c = false).
Proof.
  unfold contact_email_of. generalize (strip_trimmed (fmt field)).
  generalize (strip (fmt field)). intros s [Hs _]. split.
  - clear Hs. induction s as [|c s IH]; simpl; [by apply not_elem_of_nil|].
    destruct (N.eqb_spec c 44); [by apply not_elem_of_nil|].
    apply not_elem_of_cons. split; [congruence | exact IH].
  - intros c Hc. apply Hs. destruct s as [|d s]; [done|]. simpl in Hc.
    destruct (N.eqb_spec d 44); [done|]. exact Hc.
Qed.

(** ** More on the helpers *)

(** X7: [send_email_logic] never raises and touches neither the profile
    nor the session.  The API is asked at most once, and exactly when the
    message could be built and there is a mailbox client: a message that
    cannot be built, or a missing client, ends the call before any
    request.  It returns [True] exactly when that request goes through,
    with a confirmation that names the recipient; in every other case it
    returns [False] with exactly one error shown, which is the error of
    building the message when that is what failed. *)
Theorem send_email_logic_outcome (e : env) (service : bool)
    (to_email subject body : str) (files : list file) (w : world) :
  ∃ sent tr',
    send_email_logic e service to_email subject body files w
    = (Ok sent, World (w_profile w) (w_session w) (w_trace w ++ tr'))
    ∧ List.filter is_send tr'
      = (if bool_decide (message_build e to_email subject body files = None)
            && service
         then [GmailSend to_email subject body files] else [])
    ∧ (sent = true ↔
       message_build e to_email subject body files = None
       ∧ service = true
       ∧ messages_send e (count_send (w_trace w)) to_email subject body files = None)
    ∧ (if sent
       then tr' = [GmailSend to_email subject body files;
                   Ui st_success ([8218; 250; 214]%N
                                  ++ py " Application successfully sent to "
                                  ++ to_email ++ py "!")]
       else ∃ x, List.filter is_error tr'
                 = [Ui st_error (py "An error occurred while sending the email: " ++ x)]
                 ∧ (message_build e to_email subject body files = None
                    ∨ message_build e to_email subject body files = Some x)).
Proof.
  destruct w as [p s tr]. unfold send_email_logic.
  destruct (message_build e to_email subject body files) as [x|] eqn:Hb.
  - cbv [mbind M_bind emit mret M_ret w_profile w_session w_trace].
    exists false. eexists. split; [reflexivity|]. split; [reflexivity|].
    split; [split; [discriminate | by intros [? _]]|].
    exists x. split; [reflexivity | by right].
  - rewrite bool_decide_eq_true_2 by reflexivity. destruct service.
    + cbv [mbind M_bind get_trace emit mret M_ret w_profile w_session w_trace].
      destruct (messages_send e (count_send tr) to_email subject body files)
        as [x|] eqn:Hs.
      * exists false. eexists. split; [by rewrite <- app_assoc|].
        split; [reflexivity|].
        split; [split; [discriminate | by intros (_ & _ & ?)]|].
        exists x. split; [reflexivity | by left].
      * exists true. eexists. split; [by rewrite <- app_assoc|].
        split; [reflexivity|]. split; [|reflexivity]. done.
    + cbv [mbind M_bind emit mret M_ret w_profile w_session w_trace].
      exists false. eexists. split; [reflexivity|]. split; [reflexivity|].
      split; [split; [discriminate | by intros (_ & ? & _)]|].
      eexists. split; [reflexivity | by left].
Qed.

Lemma concat_skip_empty (pages : list str) :
  concat (List.filter (λ t, negb (bool_decide (t = []))) pages) = concat pages.
Proof.
  induction pages as [|t pages IH]; [done|]. simpl.
  case_bool_decide as Ht; simpl; [by rewrite Ht | by rewrite IH].
Qed.

(** X8: [extract_text_from_pdf] returns the page texts joined in page
    order with nothing in between; leaving out the pages without text
    changes nothing of it, and no message is shown.  When reading raises,
    it returns [None] and surfaces the error. *)
Theorem extract_text_from_pdf_joins_pages (e : env) (f : file) (w : world) :
  match pdf_pages e f with
  | inr pages => extract_text_from_pdf e f w = (Ok (PStr (concat pages)), w)
  | inl x =>
      extract_text_from_pdf e f w
      = (Ok PNone,
         World (w_profile w) (w_session w)
           (w_trace w ++ [Ui st_error (py "Error reading PDF file: " ++ x)]))
  end.
Proof.
  unfold extract_text_from_pdf. destruct (pdf_pages e f) as [x|pages].
  - reflexivity.
  - by rewrite concat_skip_empty.
Qed.

(** ** More on the profile *)

Lemma array_union_NoDup (ids l : list str) : NoDup l → NoDup (array_union ids l).
Proof.
  revert l; induction ids as [|x ids IH]; intros l Hl; [done|].
  change (array_union (x :: ids) l)
    with (array_union ids (if bool_decide (x ∈ l) then l else l ++ [x])).
  apply IH. case_bool_decide as Hx; [done|].
  apply NoDup_app. split; [done|]. split; [|apply NoDup_singleton].
  intros y Hy ->%list_elem_of_singleton. done.
Qed.

Lemma keeps_distinct_refl w : keeps_distinct w w.
Proof. by intros H. Qed.

Lemma keeps_distinct_trans w1 w2 w3 :
  keeps_distinct w1 w2 → keeps_distinct w2 w3 → keeps_distinct w1 w3.
Proof. unfold keeps_distinct. auto. Qed.

Lemma keeps_distinct_emit w ev :
  True → keeps_distinct w (World (w_profile w) (w_session w) (w_trace w ++ [ev])).
Proof. by intros _ H. Qed.

Lemma keeps_distinct_assign w (f : session_state → session_state) :
  True → keeps_distinct w (World (w_profile w) (f (w_session w)) (w_trace w)).
Proof. by intros _ H. Qed.

Lemma keeps_distinct_write w d :
  True →
  keeps_distinct w (World (apply_write d (w_profile w)) (w_session w)
                      (w_trace w ++ [Firestore d])).
Proof.
  intros _ H. unfold keeps_distinct in *. simpl.
  rewrite applied_jobs_apply_write. by apply array_union_NoDup.
Qed.

#[export] Instance keeps_distinct_frame : Frame keeps_distinct := {|
  frame_event := λ _, True;
  frame_assignment := λ _, True;
  frame_write_ok := λ _, True;
  frame_refl := keeps_distinct_refl;
  frame_trans := keeps_distinct_trans;
  frame_emit := keeps_distinct_emit;
  frame_assign := keeps_distinct_assign;
  frame_write := keeps_distinct_write
|}.

(** X9: the applied ids stay pairwise distinct: no sequence of
    interactions stores an id twice, whatever is skipped or sent again. *)
Theorem applied_jobs_stay_distinct (e : env) (inputs : list input) (w : world) :
  NoDup (applied_jobs (w_profile w)) →
  NoDup (applied_jobs (w_profile (session_run e inputs w))).
Proof.
  exact (@permissive_session_run keeps_distinct keeps_distinct_frame
           (λ _ _, I) (λ _, I) (λ _, I) e inputs w).
Qed.

Lemma applied_jobs_stay_distinct_witness :
  NoDup (applied_jobs
           (w_profile
              (session_run (Sample.env_of (py "Betreff: Bewerbung|||Guten Tag")
                              Sample.three_jobs)
                 Sample.skip_then_send Sample.fresh))).
Proof.
  apply applied_jobs_stay_distinct. apply NoDup_nil_2.
Defined.

Lemma accumulates_refl w : accumulates w w.
Proof. repeat split; reflexivity. Qed.

Lemma accumulates_trans w1 w2 w3 :
  accumulates w1 w2 → accumulates w2 w3 → accumulates w1 w3.
Proof.
  intros (H1 & H2 & H3) (H4 & H5 & H6). split; [lia|]. split; [lia|].
  by etrans.
Qed.

Lemma accumulates_emit w ev :
  True → accumulates w (World (w_profile w) (w_session w) (w_trace w ++ [ev])).
Proof. intros _. repeat split; reflexivity. Qed.

Lemma accumulates_assign w (f : session_state → session_state) :
  True → accumulates w (World (w_profile w) (f (w_session w)) (w_trace w)).
Proof. intros _. repeat split; reflexivity. Qed.

Lemma accumulates_write w d :
  True →
  accumulates w (World (apply_write d (w_profile w)) (w_session w)
                   (w_trace w ++ [Firestore d])).
Proof.
  intros _. unfold accumulates. destruct (w_profile w) as [tcv aj sc sk se].
  destruct d; simpl; repeat case_bool_decide; simpl;
    (split; [lia|]; split; [lia|]); try reflexivity.
  by apply prefix_app_r.
Qed.

#[export] Instance accumulates_frame : Frame accumulates := {|
  frame_event := λ _, True;
  frame_assignment := λ _, True;
  frame_write_ok := λ _, True;
  frame_refl := accumulates_refl;
  frame_trans := accumulates_trans;
  frame_emit := accumulates_emit;
  frame_assign := accumulates_assign;
  frame_write := accumulates_write
|}.

(** X10: over any sequence of interactions neither counter decreases and
    the sent-email records are only appended to: the records present
    before are still the first ones afterwards, unchanged and in order. *)
Theorem profile_accumulates (e : env) (inputs : list input) (w : world) :
  (sent_count (w_profile w) ≤ sent_count (w_profile (session_run e inputs w)))%Z
  ∧ (skipped_count (w_profile w)
     ≤ skipped_count (w_profile (session_run e inputs w)))%Z
  ∧ sent_emails (w_profile w)
    `prefix_of` sent_emails (w_profile (session_run e inputs w)).
Proof.
  exact (@permissive_session_run accumulates accumulates_frame
           (λ _ _, I) (λ _, I) (λ _, I) e inputs w).
Qed.

(** ** The Review/Send form, action by action *)

Lemma attachment_rows_shown (a : action) (idxs : list nat) (w : world) :
  (∀ i, clicked a (Click_remove i) = false) →
  Forall (λ i, i < length (attachments (w_session w))) idxs →
  attachment_rows a idxs w
  = (Ok tt,
     World (w_profile w) (w_session w)
       (w_trace w
        ++ (attachment_row <$> omap (λ i, attachments (w_session w) !! i) idxs))).
Proof.
  intros Ha. revert w. induction idxs as [|i idxs IH]; intros w Hidx.
  - destruct w. simpl. by rewrite app_nil_r.
  - apply Forall_cons in Hidx as [Hi Hidx].
    apply lookup_lt_is_Some_2 in Hi as [f Hf].
    specialize (IH (World (w_profile w) (w_session w)
                      (w_trace w ++ [attachment_row f])) Hidx).
    cbn [w_profile w_session w_trace] in IH.
    cbn [attachment_rows omap list_omap]. unfold mbind, M_bind, get_session.
    rewrite Hf. unfold emit, when. rewrite Ha. cbn [mret M_ret].
    unfold attachment_row in IH at 1. rewrite IH.
    rewrite <- app_assoc. reflexivity.
Qed.

Lemma omap_lookup_reverse_seq {A} (l : list A) :
  omap (λ i, l !! i) (reverse (seq 0 (length l))) = reverse l.
Proof.
  induction l as [|x l IH] using rev_ind; [done|].
  rewrite length_app, Nat.add_comm. cbn [length Nat.add].
  rewrite seq_S, !reverse_app. cbn [reverse rev_append app Nat.add omap list_omap].
  rewrite list_lookup_middle by done. f_equal.
  rewrite <- IH. apply list_omap_ext, Forall_Forall2_diag.
  apply Forall_forall. intros i Hi%elem_of_reverse%elem_of_seq.
  by rewrite lookup_app_l by lia.
Qed.

Lemma rows_ui (l : list file) : forallb is_ui (attachment_row <$> l) = true.
Proof. by induction l. Qed.

Lemma filter_rows (P : event → bool) (l : list file) :
  (∀ f, P (attachment_row f) = false) →
  List.filter P (attachment_row <$> l) = [].
Proof. intros H. induction l as [|f l IH]; [done|]. simpl. by rewrite H. Qed.

Lemma reverse_seq_in_range (n : nat) : Forall (λ i, i < n) (reverse (seq 0 n)).
Proof. apply Forall_forall. intros i Hi%elem_of_reverse%elem_of_seq. lia. Qed.

(** The attachment list of the form when no Remove button is the
    trigger, [Hnr]. *)
Ltac rows_idle Hnr :=
  idtac;
  lazymatch goal with
  | |- wp (attachment_rows ?a (reverse (seq 0 (length ?l)))) _ ?w0 =>
      eapply wp_eq;
      [ apply (attachment_rows_shown a (reverse (seq 0 (length l))) w0 Hnr);
        cbn [w_session];
        repeat match goal with H : attachments _ = _ |- _ => rewrite H end;
        apply reverse_seq_in_range
      | cbn [w_profile w_session w_trace];
        repeat match goal with H : attachments _ = _ |- _ => rewrite H end;
        rewrite (omap_lookup_reverse_seq l) ]
  end.

(** Runs a page symbolically; [rw] rewrites with the facts at hand and
    [rows] deals with the attachment list. *)
Ltac page_exec rw rows :=
  repeat first [ wp_prim | progress (rw; wp_simpl) | rows | wp_case ].

(** X11: a send that fails commits nothing.  When the form is submitted
    with at least one attachment and the send fails, because the message
    cannot be built, because there is no mailbox client, or because the
    request raises, the run ends normally with the form still shown: the
    profile and the session, draft and tracked job included, are as they
    were, nothing is written to Firestore and the error is surfaced, which
    is that of building the message when that is what failed.  The API
    was asked only where the message was built and a client was there. *)
Theorem failed_send_commits_nothing (e : env) (is_manual : bool) (w : world)
    (to subject body : str) (new : list file) (details content : dict)
    (f : file) (fs : list file) (x : str) :
  (if is_manual then manual_job_details (w_session w)
   else current_job_details (w_session w)) = Some details →
  (is_manual = false → is_Some (details !! py "job_id")) →
  (if is_manual then manual_email_content (w_session w)
   else generated_email_content (w_session w)) = Some content →
  attachments (w_session w) ++ new = f :: fs →
  message_build e to subject body (f :: fs) = Some x
  ∨ (message_build e to subject body (f :: fs) = None
     ∧ gmail_service (w_session w) = false
     ∧ x = py "'NoneType' object has no attribute 'users'")
  ∨ (message_build e to subject body (f :: fs) = None
     ∧ gmail_service (w_session w) = true
     ∧ messages_send e (count_send (w_trace w)) to subject body (f :: fs) = Some x) →
  let r := render_application_form e (Submit_send to subject body new) is_manual w in
  r.1 = Ok tt
  ∧ w_profile r.2 = w_profile w
  ∧ w_session r.2 = w_session w
  ∧ ∃ tr', w_trace r.2 = w_trace w ++ tr'
      ∧ List.filter is_write tr' = []
      ∧ List.filter is_send tr'
        = (if bool_decide (message_build e to subject body (f :: fs) = None)
              && gmail_service (w_session w)
           then [GmailSend to subject body (f :: fs)] else [])
      ∧ List.filter is_error tr'
        = [Ui st_error (py "An error occurred while sending the email: " ++ x)].
Proof.
  intros Hd Hid Hc Hatt Hfail r. subst r.
  change (wp (render_application_form e (Submit_send to subject body new) is_manual)
            (λ r w',
               r = Ok tt ∧ w_profile w' = w_profile w ∧ w_session w' = w_session w
               ∧ ∃ tr', w_trace w' = w_trace w ++ tr'
                   ∧ List.filter is_write tr' = []
                   ∧ List.filter is_send tr'
                     = (if bool_decide
                             (message_build e to subject body (f :: fs) = None)
                           && gmail_service (w_session w)
                        then [GmailSend to subject body (f :: fs)] else [])
                   ∧ List.filter is_error tr'
                     = [Ui st_error (py "An error occurred while sending the email: "
                                     ++ x)]) w).
  assert (∀ i, clicked (Submit_send to subject body new) (Click_remove i) = false)
    as Hnr by reflexivity.
  unfold render_application_form.
  destruct is_manual; [|destruct (Hid eq_refl) as [jid Hjid]].
  all: destruct (attachments (w_session w)) as [|f0 fs0] eqn:Hfiles.
  all: destruct Hfail as [Hbuild | [(Hbuild & Hsvc & ->) | (Hbuild & Hsvc & Hsend)]].
  all: page_exec ltac:(first [ rewrite Hd | rewrite Hjid | rewrite Hc | rewrite Hfiles
                             | rewrite Hatt | rewrite Hbuild | rewrite Hsvc
                             | rewrite !count_send_ui
                                 by first [apply rows_ui | reflexivity]
                             | rewrite Hsend ]) ltac:(rows_idle Hnr).
  all: split; [reflexivity|]; split; [reflexivity|]; split; [reflexivity|].
  all: rewrite <- !app_assoc; eexists; split; [reflexivity|].
  all: rewrite ?List.filter_app, ?filter_rows by reflexivity.
  all: repeat split; reflexivity.
Qed.

Lemma failed_send_commits_nothing_witness :
  let w := Worked.catalog_draft in
  let subject := py "Bewerbung" ++ NL ++ py "Bcc: alle@spital.ch" in
  let r := render_application_form Worked.env_header_rejected
             (Submit_send (py "a@usz.ch") subject (py "Guten Tag") [])
             false w in
  r.1 = Ok tt
  ∧ w_profile r.2 = w_profile w
  ∧ w_session r.2 = w_session w
  ∧ ∃ tr', w_trace r.2 = w_trace w ++ tr'
      ∧ List.filter is_write tr' = []
      ∧ List.filter is_send tr' = []
      ∧ List.filter is_error tr'
        = [Ui st_error
             (py "An error occurred while sending the email: "
              ++ py "Header values may not contain linefeed or carriage return characters")].
Proof.
  apply (failed_send_commits_nothing Worked.env_header_rejected false
           Worked.catalog_draft
           (py "a@usz.ch") (py "Bewerbung" ++ NL ++ py "Bcc: alle@spital.ch")
           (py "Guten Tag") []
           (job_details_of 0 Sample.first_job)
           (email_dict (PStr (py "Bewerbung")) (PStr (py "Guten Tag")))
           Sample.cv_pdf [Sample.diploma_pdf]
           (py "Header values may not contain linefeed or carriage return characters")).
  - reflexivity.
  - intros _. exists (PInt 0). reflexivity.
  - reflexivity.
  - reflexivity.
  - left. reflexivity.
Defined.

(** X12: a catalog send that goes through (the message is built, there
    is a client and the request succeeds), in full.  The record of the
    email is saved first, with the job title and hospital name of the
    details; the job's id is then united into the applied ids and the sent
    counter raised by one; the session forgets the tracked job and the run
    asks for a rerun.  One message is sent, to the recipient in the form,
    with the session's attachments followed by the newly picked files; the
    newly picked files are not kept in the session. *)
Theorem catalog_send_effect (e : env) (w : world) (to subject body : str)
    (new : list file) (details content : dict) (j : nat) (f : file) (fs : list file) :
  current_job_details (w_session w) = Some details →
  details !! py "job_id" = Some (PInt (Z.of_nat j)) →
  generated_email_content (w_session w) = Some content →
  attachments (w_session w) ++ new = f :: fs →
  gmail_service (w_session w) = true →
  db (w_session w) = true →
  message_build e to subject body (f :: fs) = None →
  messages_send e (count_send (w_trace w)) to subject body (f :: fs) = None →
  let r := render_application_form e (Submit_send to subject body new) false w in
  let record :=
    SentEmail to subject body
      (dict_get details (py "job_title") (PStr (py "Manual Entry")))
      (dict_get details (py "hospital_name") (PStr (py "Manual Entry"))) in
  r.1 = Exit Rerun
  ∧ w_profile r.2
    = Profile (translated_cv (w_profile w))
        (array_union [job_key j] (applied_jobs (w_profile w)))
        (sent_count (w_profile w) + 1) (skipped_count (w_profile w))
        (sent_emails (w_profile w) ++ [record])
  ∧ w_session r.2 = set_current_job_id None (w_session w)
  ∧ ∃ tr', w_trace r.2 = w_trace w ++ tr'
      ∧ List.filter is_send tr' = [GmailSend to subject body (f :: fs)]
      ∧ List.filter is_write tr'
        = [Firestore (Add_sent_email record);
           Firestore (ArrayUnion_applied_jobs [job_key j]);
           Firestore (Increment_stat (py "stats.sent_count"))]
      ∧ List.filter is_error tr' = [].
Proof.
  intros Hd Hjid Hc Hatt Hsvc Hdb Hbuild Hsend r record. subst r record.
  change (wp (render_application_form e (Submit_send to subject body new) false)
            (λ r w',
               r = Exit Rerun
               ∧ w_profile w'
                 = Profile (translated_cv (w_profile w))
                     (array_union [job_key j] (applied_jobs (w_profile w)))
                     (sent_count (w_profile w) + 1) (skipped_count (w_profile w))
                     (sent_emails (w_profile w)
                      ++ [SentEmail to subject body
                            (dict_get details (py "job_title") (PStr (py "Manual Entry")))
                            (dict_get details (py "hospital_name")
                               (PStr (py "Manual Entry")))])
               ∧ w_session w' = set_current_job_id None (w_session w)
               ∧ ∃ tr', w_trace w' = w_trace w ++ tr'
                   ∧ List.filter is_send tr' = [GmailSend to subject body (f :: fs)]
                   ∧ List.filter is_write tr'
                     = [Firestore (Add_sent_email
                          (SentEmail to subject body
                             (dict_get details (py "job_title") (PStr (py "Manual Entry")))
                             (dict_get details (py "hospital_name")
                                (PStr (py "Manual Entry")))));
                        Firestore (ArrayUnion_applied_jobs [job_key j]);
                        Firestore (Increment_stat (py "stats.sent_count"))]
                   ∧ List.filter is_error tr' = []) w).
  assert (∀ i, clicked (Submit_send to subject body new) (Click_remove i) = false)
    as Hnr by reflexivity.
  unfold render_application_form.
  destruct (attachments (w_session w)) as [|f0 fs0] eqn:Hfiles.
  all: page_exec ltac:(first [ rewrite Hd | rewrite Hjid | rewrite Hc | rewrite Hfiles
                             | rewrite Hatt | rewrite Hsvc | rewrite Hdb
                             | rewrite Hbuild
                             | rewrite !count_send_ui
                                 by first [apply rows_ui | reflexivity]
                             | rewrite Hsend ]) ltac:(rows_idle Hnr).
  all: split; [reflexivity|].
  all: destruct (w_profile w) as [tcv aj sc sk se]; cbn [apply_write applied_jobs
         skipped_count sent_count sent_emails translated_cv].
  all: rewrite bool_decide_eq_true_2 by reflexivity.
  all: split; [reflexivity|]; split; [reflexivity|].
  all: rewrite <- !app_assoc; eexists; split; [reflexivity|].
  all: rewrite ?List.filter_app, ?filter_rows by reflexivity.
  all: repeat split; reflexivity.
Qed.

Lemma catalog_send_effect_witness :
  let w := Worked.catalog_draft in
  let r := render_application_form
             (Sample.env_of (py "Betreff: Bewerbung|||Guten Tag") Sample.three_jobs)
             (Submit_send (py "a@usz.ch") (py "Bewerbung") (py "Guten Tag") [])
             false w in
  let record :=
    SentEmail (py "a@usz.ch") (py "Bewerbung") (py "Guten Tag")
      (dict_get (job_details_of 0 Sample.first_job) (py "job_title")
         (PStr (py "Manual Entry")))
      (dict_get (job_details_of 0 Sample.first_job) (py "hospital_name")
         (PStr (py "Manual Entry"))) in
  r.1 = Exit Rerun
  ∧ w_profile r.2
    = Profile (translated_cv (w_profile w))
        (array_union [job_key 0] (applied_jobs (w_profile w)))
        (sent_count (w_profile w) + 1) (skipped_count (w_profile w))
        (sent_emails (w_profile w) ++ [record])
  ∧ w_session r.2 = set_current_job_id None (w_session w)
  ∧ ∃ tr', w_trace r.2 = w_trace w ++ tr'
      ∧ List.filter is_send tr'
        = [GmailSend (py "a@usz.ch") (py "Bewerbung") (py "Guten Tag")
             [Sample.cv_pdf; Sample.diploma_pdf]]
      ∧ List.filter is_write tr'
        = [Firestore (Add_sent_email record);
           Firestore (ArrayUnion_applied_jobs [job_key 0]);
           Firestore (Increment_stat (py "stats.sent_count"))]
      ∧ List.filter is_error tr' = [].
Proof.
  apply (catalog_send_effect
           (Sample.env_of (py "Betreff: Bewerbung|||Guten Tag") Sample.three_jobs)
           Worked.catalog_draft
           (py "a@usz.ch") (py "Bewerbung") (py "Guten Tag") []
           (job_details_of 0 Sample.first_job)
           (email_dict (PStr (py "Bewerbung")) (PStr (py "Guten Tag")))
           0 Sample.cv_pdf [Sample.diploma_pdf]);
    reflexivity.
Defined.

(** X13: a manual send that goes through (the message is built, there is
    a client and the request succeeds), in full.  The record is saved
    with the labels of the details, ['Manual Entry'] standing in for a
    missing one, and the manual draft is cleared; the applied ids and both
    counters stay as they are, so a manual send is not counted among the
    emails sent.  One message is sent and one write is made. *)
Theorem manual_send_effect (e : env) (w : world) (to subject body : str)
    (new : list file) (details content : dict) (f : file) (fs : list file) :
  manual_job_details (w_session w) = Some details →
  manual_email_content (w_session w) = Some content →
  attachments (w_session w) ++ new = f :: fs →
  gmail_service (w_session w) = true →
  db (w_session w) = true →
  message_build e to subject body (f :: fs) = None →
  messages_send e (count_send (w_trace w)) to subject body (f :: fs) = None →
  let r := render_application_form e (Submit_send to subject body new) true w in
  let record :=
    SentEmail to subject body
      (dict_get details (py "job_title") (PStr (py "Manual Entry")))
      (dict_get details (py "hospital_name") (PStr (py "Manual Entry"))) in
  r.1 = Exit Rerun
  ∧ w_profile r.2
    = Profile (translated_cv (w_profile w)) (applied_jobs (w_profile w))
        (sent_count (w_profile w)) (skipped_count (w_profile w))
        (sent_emails (w_profile w) ++ [record])
  ∧ w_session r.2 = set_manual_email_content None (w_session w)
  ∧ ∃ tr', w_trace r.2 = w_trace w ++ tr'
      ∧ List.filter is_send tr' = [GmailSend to subject body (f :: fs)]
      ∧ List.filter is_write tr' = [Firestore (Add_sent_email record)]
      ∧ List.filter is_error tr' = [].
Proof.
  intros Hd Hc Hatt Hsvc Hdb Hbuild Hsend r record. subst r record.
  change (wp (render_application_form e (Submit_send to subject body new) true)
            (λ r w',
               r = Exit Rerun
               ∧ w_profile w'
                 = Profile (translated_cv (w_profile w)) (applied_jobs (w_profile w))
                     (sent_count (w_profile w)) (skipped_count (w_profile w))
                     (sent_emails (w_profile w)
                      ++ [SentEmail to subject body
                            (dict_get details (py "job_title") (PStr (py "Manual Entry")))
                            (dict_get details (py "hospital_name")
                               (PStr (py "Manual Entry")))])
               ∧ w_session w' = set_manual_email_content None (w_session w)
               ∧ ∃ tr', w_trace w' = w_trace w ++ tr'
                   ∧ List.filter is_send tr' = [GmailSend to subject body (f :: fs)]
                   ∧ List.filter is_write tr'
                     = [Firestore (Add_sent_email
                          (SentEmail to subject body
                             (dict_get details (py "job_title") (PStr (py "Manual Entry")))
                             (dict_get details (py "hospital_name")
                                (PStr (py "Manual Entry")))))]
                   ∧ List.filter is_error tr' = []) w).
  assert (∀ i, clicked (Submit_send to subject body new) (Click_remove i) = false)
    as Hnr by reflexivity.
  unfold render_application_form.
  destruct (attachments (w_session w)) as [|f0 fs0] eqn:Hfiles.
  all: page_exec ltac:(first [ rewrite Hd | rewrite Hc | rewrite Hfiles
                             | rewrite Hatt | rewrite Hsvc | rewrite Hdb
                             | rewrite Hbuild
                             | rewrite !count_send_ui
                                 by first [apply rows_ui | reflexivity]
                             | rewrite Hsend ]) ltac:(rows_idle Hnr).
  all: split; [reflexivity|].
  all: destruct (w_profile w) as [tcv aj sc sk se]; cbn [apply_write applied_jobs
         skipped_count sent_count sent_emails translated_cv].
  all: split; [reflexivity|]; split; [reflexivity|].
  all: rewrite <- !app_assoc; eexists; split; [reflexivity|].
  all: rewrite ?List.filter_app, ?filter_rows by reflexivity.
  all: repeat split; reflexivity.
Qed.

Lemma manual_send_effect_witness :
  let w := Worked.manual_draft in
  let r := render_application_form
             (Sample.env_of (py "Betreff: Bewerbung|||Guten Tag") [])
             (Submit_send (py "hr@spital.ch") (py "Bewerbung") (py "Guten Tag") [])
             true w in
  let record :=
    SentEmail (py "hr@spital.ch") (py "Bewerbung") (py "Guten Tag")
      (dict_get (manual_details (py "hr@spital.ch") (py "Stelle")) (py "job_title")
         (PStr (py "Manual Entry")))
      (dict_get (manual_details (py "hr@spital.ch") (py "Stelle")) (py "hospital_name")
         (PStr (py "Manual Entry"))) in
  r.1 = Exit Rerun
  ∧ w_profile r.2
    = Profile (translated_cv (w_profile w)) (applied_jobs (w_profile w))
        (sent_count (w_profile w)) (skipped_count (w_profile w))
        (sent_emails (w_profile w) ++ [record])
  ∧ w_session r.2 = set_manual_email_content None (w_session w)
  ∧ ∃ tr', w_trace r.2 = w_trace w ++ tr'
      ∧ List.filter is_send tr'
        = [GmailSend (py "hr@spital.ch") (py "Bewerbung") (py "Guten Tag")
             [Sample.cv_pdf; Sample.diploma_pdf]]
      ∧ List.filter is_write tr' = [Firestore (Add_sent_email record)]
      ∧ List.filter is_error tr' = [].
Proof.
  apply (manual_send_effect
           (Sample.env_of (py "Betreff: Bewerbung|||Guten Tag") [])
           Worked.manual_draft
           (py "hr@spital.ch") (py "Bewerbung") (py "Guten Tag") []
           (manual_details (py "hr@spital.ch") (py "Stelle"))
           (email_dict (PStr (py "Bewerbung")) (PStr (py "Guten Tag")))
           Sample.cv_pdf [Sample.diploma_pdf]);
    reflexivity.
Defined.

Lemma attachment_rows_remove (i : nat) (idxs : list nat) (w : world) :
  i ∈ idxs →
  Forall (λ k, k < length (attachments (w_session w))) idxs →
  ∃ tr',
    forallb is_ui tr' = true
    ∧ attachment_rows (Click_remove i) idxs w
      = (Exit Rerun,
         World (w_profile w)
           (set_attachments (delete i (attachments (w_session w))) (w_session w))
           (w_trace w ++ tr')).
Proof.
  revert w. induction idxs as [|k idxs IH]; intros w Hi Hidx.
  - by apply elem_of_nil in Hi.
  - apply Forall_cons in Hidx as [Hk Hidx].
    apply lookup_lt_is_Some_2 in Hk as [f Hf].
    cbn [attachment_rows]. unfold mbind, M_bind, get_session. rewrite Hf.
    unfold emit, when. cbn [clicked].
    destruct (decide (i = k)) as [->|Hne].
    + rewrite bool_decide_eq_true_2 by done.
      exists [attachment_row f]. split; [reflexivity|]. reflexivity.
    + rewrite bool_decide_eq_false_2 by done. cbn [mret M_ret].
      apply elem_of_cons in Hi as [Hi|Hi]; [done|].
      destruct (IH (World (w_profile w) (w_session w)
                      (w_trace w ++ [attachment_row f])) Hi Hidx)
        as (tr' & Hui & Hrun).
      cbn [w_profile w_session w_trace] in Hrun.
      exists (attachment_row f :: tr'). split; [exact Hui|].
      unfold attachment_row in Hrun at 1. rewrite Hrun.
      rewrite <- app_assoc. reflexivity.
Qed.

(** X14: the Remove button of an attachment takes exactly that file out of
    the session's list, the others keeping their order, and asks for a
    rerun; the profile and the rest of the session, drafts included, are as
    they were, and nothing but UI output is produced. *)
Theorem remove_attachment_effect (e : env) (is_manual : bool) (w : world) (i : nat)
    (details content : dict) :
  (if is_manual then manual_job_details (w_session w)
   else current_job_details (w_session w)) = Some details →
  (is_manual = false → is_Some (details !! py "job_id")) →
  (if is_manual then manual_email_content (w_session w)
   else generated_email_content (w_session w)) = Some content →
  i < length (attachments (w_session w)) →
  let r := render_application_form e (Click_remove i) is_manual w in
  r.1 = Exit Rerun
  ∧ w_profile r.2 = w_profile w
  ∧ w_session r.2
    = set_attachments (delete i (attachments (w_session w))) (w_session w)
  ∧ ∃ tr', w_trace r.2 = w_trace w ++ tr' ∧ forallb is_ui tr' = true.
Proof.
  intros Hd Hid Hc Hi r. subst r.
  change (wp (render_application_form e (Click_remove i) is_manual)
            (λ r w',
               r = Exit Rerun ∧ w_profile w' = w_profile w
               ∧ w_session w'
                 = set_attachments (delete i (attachments (w_session w))) (w_session w)
               ∧ ∃ tr', w_trace w' = w_trace w ++ tr' ∧ forallb is_ui tr' = true) w).
  unfold render_application_form.
  assert (attachments (w_session w) ≠ []) as Hne
    by (intros H; rewrite H in Hi; simpl in Hi; lia).
  destruct is_manual; [|destruct (Hid eq_refl) as [jid Hjid]].
  all: page_exec
         ltac:(first [ rewrite Hd | rewrite Hjid | rewrite Hc ])
         ltac:(idtac;
               lazymatch goal with
               | |- wp (attachment_rows _ ?idxs) _ ?w0 =>
                   let tr' := fresh "tr" in
                   let Hui := fresh "Hui" in
                   let Hrows := fresh "Hrows" in
                   destruct (attachment_rows_remove i idxs w0) as (tr' & Hui & Hrows);
                   [ apply elem_of_reverse, elem_of_seq; cbn [w_session]; lia
                   | cbn [w_session];
                     repeat match goal with
                            | H : attachments _ = _ |- _ => rewrite H
                            end;
                     apply reverse_seq_in_range
                   | cbn [w_profile w_session w_trace] in Hrows;
                     eapply wp_eq; [exact Hrows|]; wp_simpl ]
               end).
  all: try congruence.
  all: repeat match goal with H : attachments _ = _ |- _ => rewrite H end.
  all: split; [reflexivity|]; split; [reflexivity|]; split; [reflexivity|].
  all: rewrite <- !app_assoc; eexists; split; [reflexivity|].
  all: cbn [forallb is_ui app andb]; assumption.
Qed.

Lemma remove_attachment_effect_witness :
  let w := Worked.manual_draft in
  let r := render_application_form (Sample.env_of [] []) (Click_remove 0) true w in
  r.1 = Exit Rerun
  ∧ w_profile r.2 = w_profile w
  ∧ w_session r.2
    = set_attachments (delete 0 (attachments (w_session w))) (w_session w)
  ∧ ∃ tr', w_trace r.2 = w_trace w ++ tr' ∧ forallb is_ui tr' = true.
Proof.
  apply (remove_attachment_effect (Sample.env_of [] []) true Worked.manual_draft 0
           (manual_details (py "hr@spital.ch") (py "Stelle"))
           (email_dict (PStr (py "Bewerbung")) (PStr (py "Guten Tag")))).
  - reflexivity.
  - discriminate.
  - reflexivity.
  - simpl. lia.
Defined.

(** X15: Regenerate asks the model once more and overwrites the draft of
    the page it is on with what comes of the answer, then asks for a
    rerun; the profile and the rest of the session are as they were.  The
    prompt is made from the stored details, read with [None] for a missing
    field, so a manual entry, which stores no hospital name, gets the
    unstructured block. *)
Theorem regenerate_effect (e : env) (is_manual : bool) (w : world)
    (details : dict) :
  (if is_manual then manual_job_details (w_session w)
   else current_job_details (w_session w)) = Some details →
  (is_manual = false → is_Some (details !! py "job_id")) →
  truthy (getenv (OPENAI_API_KEY e)) = true →
  let r := render_application_form e Click_regenerate is_manual w in
  let system_message :=
    py "You are a professional medical job applicant assistant, writing in German." in
  let prompt :=
    prompt_text (cv_content (w_session w))
      (job_details_prompt
         (dict_get details (py "job_title") PNone)
         (dict_get details (py "hospital_name") PNone)
         (dict_get details (py "canton") PNone)
         (dict_get details (py "job_description") PNone)) in
  let draft :=
    email_of_response
      match chat_completions_create e (count_chat (w_trace w)) system_message prompt with
      | ApiContent x => PStr (strip x)
      | ApiRaises _ => PNone
      end in
  r.1 = Exit Rerun
  ∧ w_profile r.2 = w_profile w
  ∧ w_session r.2
    = (if is_manual then set_manual_email_content (Some draft) (w_session w)
       else set_generated_email_content (Some draft) (w_session w))
  ∧ (∃ tr', w_trace r.2 = w_trace w ++ tr'
       ∧ List.filter is_chat tr' = [ChatCompletion system_message prompt])
  ∧ (∀ c d, details = manual_details c d →
            job_details_prompt
              (dict_get details (py "job_title") PNone)
              (dict_get details (py "hospital_name") PNone)
              (dict_get details (py "canton") PNone)
              (dict_get details (py "job_description") PNone)
            = unstructured_block (PStr d)).
Proof.
  intros Hd Hid Hkey r system_message prompt draft.
  assert (count_chat_ui : ∀ tr tr', forallb is_ui tr' = true →
            count_chat (tr ++ tr') = count_chat tr).
  { intros tr tr' H. rewrite count_chat_app. unfold count_chat at 2.
    destruct (only_ui_filters tr' H) as (_ & _ & ->). simpl. lia. }
  repeat (split; [|idtac]); cycle 4.
  { intros c d ->. reflexivity. }
  all: subst r draft prompt system_message.
  all: lazymatch goal with
       | |- ?P =>
           let Q := eval pattern (render_application_form e Click_regenerate is_manual w)
                      in P in
           lazymatch Q with
           | ?F _ => change (wp (render_application_form e Click_regenerate is_manual)
                               (λ r w', F (r, w')) w)
           end
       end.
  all: unfold render_application_form.
  all: destruct is_manual; [|destruct (Hid eq_refl) as [jid Hjid]].
  all: page_exec
         ltac:(first [ rewrite Hd | rewrite Hjid | rewrite Hkey
                     | rewrite !count_chat_ui by reflexivity ])
         ltac:(fail).
  all: cbn [fst snd w_profile w_session w_trace].
  all: try reflexivity.
  all: try (rewrite <- !app_assoc; eexists; split; [reflexivity|]; reflexivity).
Qed.

Lemma regenerate_effect_witness :
  let e := Sample.env_of (py "Betreff: Bewerbung|||Guten Tag") [] in
  let w := Worked.manual_draft in
  let details := manual_details (py "hr@spital.ch") (py "Stelle") in
  let r := render_application_form e Click_regenerate true w in
  let system_message :=
    py "You are a professional medical job applicant assistant, writing in German." in
  let prompt :=
    prompt_text (cv_content (w_session w))
      (job_details_prompt
         (dict_get details (py "job_title") PNone)
         (dict_get details (py "hospital_name") PNone)
         (dict_get details (py "canton") PNone)
         (dict_get details (py "job_description") PNone)) in
  let draft :=
    email_of_response
      match chat_completions_create e (count_chat (w_trace w)) system_message prompt with
      | ApiContent x => PStr (strip x)
      | ApiRaises _ => PNone
      end in
  r.1 = Exit Rerun
  ∧ w_profile r.2 = w_profile w
  ∧ w_session r.2 = set_manual_email_content (Some draft) (w_session w)
  ∧ (∃ tr', w_trace r.2 = w_trace w ++ tr'
       ∧ List.filter is_chat tr' = [ChatCompletion system_message prompt])
  ∧ (∀ c d, details = manual_details c d →
            job_details_prompt
              (dict_get details (py "job_title") PNone)
              (dict_get details (py "hospital_name") PNone)
              (dict_get details (py "canton") PNone)
              (dict_get details (py "job_description") PNone)
            = unstructured_block (PStr d)).
Proof.
  apply (regenerate_effect (Sample.env_of (py "Betreff: Bewerbung|||Guten Tag") [])
           true Worked.manual_draft (manual_details (py "hr@spital.ch") (py "Stelle"))).
  - reflexivity.
  - discriminate.
  - reflexivity.
Defined.

(** ** The Job Finder page, action by action *)

(** X16: Skip, in full.  The id of the job on display is united into the
    applied ids and the skipped counter raised by one, in that order and
    with nothing else written; the session forgets the tracked job and the
    run asks for a rerun.  The model is not asked and nothing is sent. *)
Theorem skip_effect (e : env) (w : world) (jobs_df : list dict)
    (j : nat) (row : dict) :
  read_csv e = Some jobs_df →
  next_job (list_to_set (applied_jobs (w_profile w))) jobs_df = Some (j, row) →
  (current_job_id (w_session w) = Some j →
   current_job_details (w_session w) = Some (job_details_of j row)) →
  (truthy (dict_get row (py "Application URL") (PStr [])) = true →
   is_str (dict_get row (py "Application URL") (PStr [])) = true) →
  let r := render_job_finder e Click_skip true w in
  r.1 = Exit Rerun
  ∧ w_profile r.2
    = Profile (translated_cv (w_profile w))
        (array_union [job_key j] (applied_jobs (w_profile w)))
        (sent_count (w_profile w)) (skipped_count (w_profile w) + 1)
        (sent_emails (w_profile w))
  ∧ w_session r.2
    = set_current_job_id None
        (if bool_decide (current_job_id (w_session w) = Some j) then w_session w
         else set_current_job_details (Some (job_details_of j row))
                (set_generated_email_content None (w_session w)))
  ∧ ∃ tr', w_trace r.2 = w_trace w ++ tr'
      ∧ List.filter is_write tr'
        = [Firestore (ArrayUnion_applied_jobs [job_key j]);
           Firestore (Increment_stat (py "stats.skipped_count"))]
      ∧ List.filter is_send tr' = []
      ∧ List.filter is_chat tr' = []
      ∧ List.filter is_error tr' = [].
Proof.
  intros Hcsv Hnext Hcons Hurl r. subst r.
  change (wp (render_job_finder e Click_skip true)
            (λ r w',
               r = Exit Rerun
               ∧ w_profile w'
                 = Profile (translated_cv (w_profile w))
                     (array_union [job_key j] (applied_jobs (w_profile w)))
                     (sent_count (w_profile w)) (skipped_count (w_profile w) + 1)
                     (sent_emails (w_profile w))
               ∧ w_session w'
                 = set_current_job_id None
                     (if bool_decide (current_job_id (w_session w) = Some j)
                      then w_session w
                      else set_current_job_details (Some (job_details_of j row))
                             (set_generated_email_content None (w_session w)))
               ∧ ∃ tr', w_trace w' = w_trace w ++ tr'
                   ∧ List.filter is_write tr'
                     = [Firestore (ArrayUnion_applied_jobs [job_key j]);
                        Firestore (Increment_stat (py "stats.skipped_count"))]
                   ∧ List.filter is_send tr' = []
                   ∧ List.filter is_chat tr' = []
                   ∧ List.filter is_error tr' = []) w).
  unfold render_job_finder. rewrite Hcsv.
  pose proof (details_job_title j row) as Hjt.
  pose proof (details_hospital_name j row) as Hhn.
  pose proof (details_canton j row) as Hca.
  pose proof (details_job_id j row) as Hid.
  assert (dict_get (job_details_of j row) (py "application_url") PNone
          = dict_get row (py "Application URL") (PStr [])) as Hu by reflexivity.
  remember (job_details_of j row) as details eqn:Hdet.
  revert Hcons Hjt Hhn Hca Hid Hu Hurl.
  generalize (dict_get row (py "Application URL") (PStr [])) as url.
  generalize (dict_get row (py "job_title") (PStr (py "N/A"))) as jt.
  generalize (dict_get row (py "hospital_name") (PStr [])) as hn.
  generalize (dict_get row (py "canton") (PStr [])) as ca.
  intros ca hn jt url Hcons Hjt Hhn Hca Hid Hu Hurl.
  destruct (bool_decide (current_job_id (w_session w) = Some j)) eqn:Hb;
    [apply bool_decide_eq_true in Hb as Hb'; specialize (Hcons Hb') | clear Hcons].
  all: page_exec ltac:(first [ rewrite Hnext | rewrite <- Hdet | rewrite Hb
                             | rewrite Hcons | rewrite Hu | rewrite Hjt
                             | rewrite Hhn | rewrite Hca | rewrite Hid ])
                 ltac:(fail).
  all: lazymatch goal with
       | H : py_in _ ?u = None |- _ =>
           exfalso; clear - H Hurl;
           destruct u; first [discriminate H | discriminate (Hurl eq_refl)]
       | |- _ => idtac
       end.
  all: split; [reflexivity|].
  all: destruct (w_profile w) as [tcv aj sc sk se]; cbn [apply_write applied_jobs
         skipped_count sent_count sent_emails translated_cv].
  all: rewrite bool_decide_eq_false_2 by (intros H; vm_compute in H; discriminate H).
  all: rewrite bool_decide_eq_true_2 by reflexivity.
  all: split; [reflexivity|]; split; [reflexivity|].
  all: rewrite <- !app_assoc; eexists; split; [reflexivity|].
  all: repeat split; reflexivity.
Qed.

Lemma skip_effect_witness :
  let w := Sample.fresh in
  let r := render_job_finder
             (Sample.env_of (py "Betreff: Bewerbung|||Guten Tag") Sample.three_jobs)
             Click_skip true w in
  r.1 = Exit Rerun
  ∧ w_profile r.2
    = Profile (translated_cv (w_profile w))
        (array_union [job_key 0] (applied_jobs (w_profile w)))
        (sent_count (w_profile w)) (skipped_count (w_profile w) + 1)
        (sent_emails (w_profile w))
  ∧ w_session r.2
    = set_current_job_id None
        (if bool_decide (current_job_id (w_session w) = Some 0) then w_session w
         else set_current_job_details (Some (job_details_of 0 Sample.first_job))
                (set_generated_email_content None (w_session w)))
  ∧ ∃ tr', w_trace r.2 = w_trace w ++ tr'
      ∧ List.filter is_write tr'
        = [Firestore (ArrayUnion_applied_jobs [job_key 0]);
           Firestore (Increment_stat (py "stats.skipped_count"))]
      ∧ List.filter is_send tr' = []
      ∧ List.filter is_chat tr' = []
      ∧ List.filter is_error tr' = [].
Proof.
  apply (skip_effect
           (Sample.env_of (py "Betreff: Bewerbung|||Guten Tag") Sample.three_jobs)
           Sample.fresh Sample.three_jobs 0 Sample.first_job).
  - reflexivity.
  - reflexivity.
  - discriminate.
  - reflexivity.
Defined.

(** X17: a job whose link cell is truthy but not text (an empty cell of
    the catalog reads as NaN) blocks the page.  Whatever triggered the run,
    Skip included, the page raises a [TypeError] at the link before any
    button is looked at: the profile is as it was, and only UI output was
    produced, so the same job is selected again by the next run. *)
Theorem finder_link_not_text_raises (e : env) (a : action) (w : world)
    (jobs_df : list dict) (j : nat) (row : dict) :
  read_csv e = Some jobs_df →
  next_job (list_to_set (applied_jobs (w_profile w))) jobs_df = Some (j, row) →
  (current_job_id (w_session w) = Some j →
   current_job_details (w_session w) = Some (job_details_of j row)) →
  truthy (dict_get row (py "Application URL") (PStr [])) = true →
  is_str (dict_get row (py "Application URL") (PStr [])) = false →
  let r := render_job_finder e a true w in
  r.1 = Exit (Raise (py "TypeError"))
  ∧ w_profile r.2 = w_profile w
  ∧ (∃ tr', w_trace r.2 = w_trace w ++ tr' ∧ forallb is_ui tr' = true)
  ∧ next_job (list_to_set (applied_jobs (w_profile r.2))) jobs_df = Some (j, row).
Proof.
  intros Hcsv Hnext Hcons Htruthy Hstr r. subst r.
  enough (wp (render_job_finder e a true)
            (λ r w',
               r = Exit (Raise (py "TypeError")) ∧ w_profile w' = w_profile w
               ∧ ∃ tr', w_trace w' = w_trace w ++ tr' ∧ forallb is_ui tr' = true) w)
    as (H1 & H2 & H3).
  { split; [exact H1|]. split; [exact H2|]. split; [exact H3|]. by rewrite H2. }
  unfold render_job_finder. rewrite Hcsv.
  pose proof (details_job_title j row) as Hjt.
  pose proof (details_hospital_name j row) as Hhn.
  pose proof (details_canton j row) as Hca.
  assert (dict_get (job_details_of j row) (py "application_url") PNone
          = dict_get row (py "Application URL") (PStr [])) as Hu by reflexivity.
  assert (py_in (py "http") (dict_get row (py "Application URL") (PStr [])) = None)
    as Hin by (by destruct (dict_get row (py "Application URL") (PStr []))).
  remember (job_details_of j row) as details eqn:Hdet.
  revert Hcons Hjt Hhn Hca Hu Htruthy Hin. clear Hstr.
  generalize (dict_get row (py "Application URL") (PStr [])) as url.
  generalize (dict_get row (py "job_title") (PStr (py "N/A"))) as jt.
  generalize (dict_get row (py "hospital_name") (PStr [])) as hn.
  generalize (dict_get row (py "canton") (PStr [])) as ca.
  intros ca hn jt url Hcons Hjt Hhn Hca Hu Htruthy Hin.
  destruct (bool_decide (current_job_id (w_session w) = Some j)) eqn:Hb;
    [apply bool_decide_eq_true in Hb as Hb'; specialize (Hcons Hb') | clear Hcons].
  all: page_exec ltac:(first [ rewrite Hnext | rewrite <- Hdet | rewrite Hb
                             | rewrite Hcons | rewrite Hu | rewrite Hjt
                             | rewrite Hhn | rewrite Hca | rewrite Htruthy
                             | rewrite Hin ])
                 ltac:(fail).
  all: split; [reflexivity|]; split; [reflexivity|].
  all: rewrite <- !app_assoc; eexists; split; reflexivity.
Qed.

Lemma finder_link_not_text_raises_witness :
  let w := Sample.fresh in
  let r := render_job_finder
             (Sample.env_of (py "Betreff: Bewerbung|||Guten Tag")
                [Worked.job_without_link])
             Click_skip true w in
  r.1 = Exit (Raise (py "TypeError"))
  ∧ w_profile r.2 = w_profile w
  ∧ (∃ tr', w_trace r.2 = w_trace w ++ tr' ∧ forallb is_ui tr' = true)
  ∧ next_job (list_to_set (applied_jobs (w_profile r.2))) [Worked.job_without_link]
    = Some (0, Worked.job_without_link).
Proof.
  apply (finder_link_not_text_raises
           (Sample.env_of (py "Betreff: Bewerbung|||Guten Tag")
              [Worked.job_without_link])
           Click_skip Sample.fresh [Worked.job_without_link] 0
           Worked.job_without_link).
  - reflexivity.
  - reflexivity.
  - discriminate.
  - reflexivity.
  - reflexivity.
Defined.

(** X18: without the catalog file the page shows the error that names the
    file and stops the run, whatever triggered it and with or without a
    Firestore handle; the profile and the session are as they were. *)
Theorem finder_without_catalog_stops (e : env) (a : action) (db : bool) (w : world) :
  read_csv e = None →
  render_job_finder e a db w
  = (Exit Stop,
     World (w_profile w) (w_session w)
       (w_trace w
        ++ [Ui st_header ([63743; 252; 238; 231]%N ++ py " Job Finder");
            Ui st_error (py "Error: '" ++ CSV_FILE ++ py "' not found.")])).
Proof.
  intros Hcsv. unfold render_job_finder. rewrite Hcsv.
  cbv [function mbind M_bind emit exit w_profile w_session w_trace].
  by rewrite <- app_assoc.
Qed.

Lemma finder_without_catalog_stops_witness :
  render_job_finder Worked.env_without_catalog Click_prepare true Sample.fresh
  = (Exit Stop,
     World (w_profile Sample.fresh) (w_session Sample.fresh)
       (w_trace Sample.fresh
        ++ [Ui st_header ([63743; 252; 238; 231]%N ++ py " Job Finder");
            Ui st_error (py "Error: '" ++ CSV_FILE ++ py "' not found.")])).
Proof.
  apply (finder_without_catalog_stops Worked.env_without_catalog Click_prepare true
           Sample.fresh).
  reflexivity.
Defined.

(** X19: what a run of the page that triggers nothing does to the session.
    When the tracked job is the one that the scan selects, the session is
    as it was, the draft included; otherwise the page tracks the selected
    job, stores its details and discards the draft.  The profile is as it
    was in both cases. *)
Theorem finder_keeps_or_resets_draft (e : env) (a : action) (w : world)
    (jobs_df : list dict) (j : nat) (row : dict) :
  read_csv e = Some jobs_df →
  next_job (list_to_set (applied_jobs (w_profile w))) jobs_df = Some (j, row) →
  idle a = true → clicked a Click_prepare = false → clicked a Click_skip = false →
  let r := render_job_finder e a true w in
  w_profile r.2 = w_profile w
  ∧ w_session r.2
    = (if bool_decide (current_job_id (w_session w) = Some j) then w_session w
       else set_current_job_details (Some (job_details_of j row))
              (set_generated_email_content None
                 (set_current_job_id (Some j) (w_session w)))).
Proof.
  intros Hcsv Hnext Hidle Hprep Hskip r. subst r.
  change (wp (render_job_finder e a true)
            (λ _ w',
               w_profile w' = w_profile w
               ∧ w_session w'
                 = (if bool_decide (current_job_id (w_session w) = Some j)
                    then w_session w
                    else set_current_job_details (Some (job_details_of j row))
                           (set_generated_email_content None
                              (set_current_job_id (Some j) (w_session w))))) w).
  unfold render_job_finder. rewrite Hcsv.
  destruct (bool_decide (current_job_id (w_session w) = Some j)) eqn:Hb.
  all: page_exec
         ltac:(first [ rewrite Hnext | rewrite Hb | rewrite Hprep | rewrite Hskip ])
         ltac:(idtac;
               lazymatch goal with
               | |- wp (render_application_form _ _ _) _ _ =>
                   eapply (wp_steady quiet);
                   [by apply quiet_render_application_form|];
                   let Hp := fresh "Hp" in
                   let Hs := fresh "Hs" in
                   intros ? ? (Hp & Hs & _); cbn [w_profile w_session] in Hp, Hs;
                   rewrite Hp, Hs
               end).
  all: try (split; reflexivity).
  all: lazymatch goal with |- match ?r with _ => _ end => destruct r as [|[]] end.
  all: split; reflexivity.
Qed.

Lemma finder_keeps_or_resets_draft_witness :
  let w := Worked.catalog_draft in
  let r := render_job_finder
             (Sample.env_of (py "Betreff: Bewerbung|||Guten Tag") Sample.three_jobs)
             No_action true w in
  w_profile r.2 = w_profile w
  ∧ w_session r.2
    = (if bool_decide (current_job_id (w_session w) = Some 0) then w_session w
       else set_current_job_details (Some (job_details_of 0 Sample.first_job))
              (set_generated_email_content None
                 (set_current_job_id (Some 0) (w_session w)))).
Proof.
  apply (finder_keeps_or_resets_draft
           (Sample.env_of (py "Betreff: Bewerbung|||Guten Tag") Sample.three_jobs)
           No_action Worked.catalog_draft Sample.three_jobs 0 Sample.first_job);
    reflexivity.
Defined.

(** ** The manual page *)

(** X20: a manual submission with the contact email or the description
    left empty is rejected with a warning: the model is not asked, no draft
    and no details are stored, and the run ends normally with the profile
    and the session as they were. *)
Theorem manual_submission_incomplete (e : env) (w : world) (c d : str) :
  truthy_dict (manual_email_content (w_session w)) = false →
  c = [] ∨ d = [] →
  render_manual_job_page e (Submit_manual c d) w
  = (Ok tt,
     World (w_profile w) (w_session w)
       (w_trace w
        ++ [Ui st_header ([8218; 250; 231; 212; 8719; 232]%N ++ py " Add a Job Manually");
            Ui st_info (py "Paste the full job description or details here. The AI will extract the necessary information.");
            Ui st_warning (py "Please fill in both the contact email and the job description.")])).
Proof.
  intros Hm Hcd.
  assert (truthy (PStr c) && truthy (PStr d) = false) as Hf.
  { destruct Hcd as [-> | ->]; [reflexivity | apply andb_false_r]. }
  enough (wp (render_manual_job_page e (Submit_manual c d))
            (λ r w',
               (r, w')
               = (Ok tt,
                  World (w_profile w) (w_session w)
                    (w_trace w
                     ++ [Ui st_header ([8218; 250; 231; 212; 8719; 232]%N
                                       ++ py " Add a Job Manually");
                         Ui st_info (py "Paste the full job description or details here. The AI will extract the necessary information.");
                         Ui st_warning (py "Please fill in both the contact email and the job description.")])))
            w) as H.
  { unfold wp in H. by destruct (render_manual_job_page e (Submit_manual c d) w). }
  unfold render_manual_job_page.
  page_exec ltac:(first [rewrite Hm | rewrite Hf]) ltac:(fail).
  by rewrite <- !app_assoc.
Qed.

Lemma manual_submission_incomplete_witness :
  render_manual_job_page (Sample.env_of [] []) (Submit_manual (py "hr@spital.ch") [])
    Sample.fresh
  = (Ok tt,
     World (w_profile Sample.fresh) (w_session Sample.fresh)
       (w_trace Sample.fresh
        ++ [Ui st_header ([8218; 250; 231; 212; 8719; 232]%N ++ py " Add a Job Manually");
            Ui st_info (py "Paste the full job description or details here. The AI will extract the necessary information.");
            Ui st_warning (py "Please fill in both the contact email and the job description.")])).
Proof.
  apply (manual_submission_incomplete (Sample.env_of [] []) Sample.fresh
           (py "hr@spital.ch") []).
  - reflexivity.
  - right. reflexivity.
Defined.

(** ** Reruns *)

Section settling.

Lemma settles_ret {A} (a : A) : settles (mret a).
Proof. intros w. discriminate. Qed.

Lemma settles_exit {A} (f : flow) : f ≠ Rerun → settles (exit f : M A).
Proof. intros H w. simpl. congruence. Qed.

Lemma settles_bind {A B} (m : M B) (f : B → M A) :
  settles m → (∀ b, settles (f b)) → settles (m ≫= f).
Proof.
  intros Hm Hf w. unfold mbind, M_bind. specialize (Hm w).
  destruct (m w) as [[b|x] w']; simpl in *; [apply Hf | congruence].
Qed.

Lemma settles_get_session : settles get_session.
Proof. intros w. discriminate. Qed.

Lemma settles_get_profile : settles get_profile.
Proof. intros w. discriminate. Qed.

Lemma settles_get_trace : settles get_trace.
Proof. intros w. discriminate. Qed.

Lemma settles_emit ev : settles (emit ev).
Proof. intros w. discriminate. Qed.

Lemma settles_assign f : settles (assign f).
Proof. intros w. discriminate. Qed.

Lemma settles_firestore_write d : settles (firestore_write d).
Proof. intros w. discriminate. Qed.

Lemma settles_function body : settles body → settles (function body).
Proof.
  intros H w. specialize (H w). unfold function.
  by destruct (body w) as [[[]|[]] w'].
Qed.

End settling.

Ltac settles_step :=
  lazymatch goal with
  | |- settles (mret _) => apply settles_ret
  | |- settles (_ ≫= _) => apply settles_bind; [|intros ?]
  | |- settles (exit _) => apply settles_exit; discriminate
  | |- settles get_session => apply settles_get_session
  | |- settles get_profile => apply settles_get_profile
  | |- settles get_trace => apply settles_get_trace
  | |- settles (emit _) => apply settles_emit
  | |- settles (assign _) => apply settles_assign
  | |- settles (firestore_write _) => apply settles_firestore_write
  | |- settles (function _) => apply settles_function
  | |- settles (when (_ && false) _) => rewrite andb_false_r; unfold when
  | |- settles (if ?b then _ else _) => destruct b
  | |- settles (match ?x with _ => _ end) => destruct x
  | |- settles (when _ _) => unfold when
  | |- settles (attribute _) => unfold attribute
  | |- settles (dict_item _ _) => unfold dict_item
  | |- settles (get_user_data _) => unfold get_user_data
  | |- settles (update_user_data _ _) => unfold update_user_data
  | |- settles (save_sent_email _ _) => unfold save_sent_email
  | |- settles (increment _ _) => unfold increment
  | |- settles (call_openai_api _ _ _) => unfold call_openai_api
  | |- settles (generate_personalized_email _ _ _ _ _ _) =>
      unfold generate_personalized_email
  | |- settles (translate_cv_text _ _) => unfold translate_cv_text
  | |- settles (extract_text_from_pdf _ _) => unfold extract_text_from_pdf
  | |- settles (send_email_logic _ _ _ _ _ _) => unfold send_email_logic
  | |- settles (get_firestore_db _) => unfold get_firestore_db
  | |- settles (gmail_authenticate _) => unfold gmail_authenticate
  end; cbn beta iota zeta delta [clicked negb app_page act uploaded_files lang].

Ltac settles_run := repeat settles_step.

Lemma settles_attachment_rows (idxs : list nat) : settles (attachment_rows No_action idxs).
Proof.
  induction idxs as [|i idxs IH]; cbn [attachment_rows]; [apply settles_ret|].
  settles_run. exact IH.
Qed.

Lemma settles_render_dashboard (e : env) : settles (render_dashboard e).
Proof.
  unfold render_dashboard. apply settles_function.
  apply settles_bind; [apply settles_emit | intros _].
  apply settles_bind; [apply settles_get_profile | intros p].
  generalize (reverse (imap (λ n data, (n, data)) (sent_emails p))). intros emails.
  destruct emails as [|m emails]; [settles_run|].
  generalize (m :: emails). clear m emails p. intros l.
  induction l as [|d l IH]; cbn [foldr]; [apply settles_ret|].
  settles_run. exact IH.
Qed.

Lemma settles_render_application_form (e : env) (is_manual : bool) :
  settles (render_application_form e No_action is_manual).
Proof.
  unfold render_application_form.
  cbn beta iota zeta delta [clicked]. settles_run.
  all: apply settles_attachment_rows.
Qed.

Lemma settles_render_manual_job_page (e : env) :
  settles (render_manual_job_page e No_action).
Proof.
  unfold render_manual_job_page. settles_run.
  all: apply settles_render_application_form.
Qed.

Lemma settles_render_job_finder (e : env) (db : bool) :
  settles (render_job_finder e No_action db).
Proof.
  unfold render_job_finder.
  cbn beta iota zeta delta [clicked]. settles_run.
  all: apply settles_render_application_form.
Qed.

Lemma settles_main (e : env) (i : input) : settles (main e (rerun_input i)).
Proof.
  destruct i as [pg files lg a]. unfold main, rerun_input.
  cbn beta iota zeta delta [clicked app_page act uploaded_files lang].
  settles_run.
  all: first [ apply settles_render_job_finder
             | apply settles_render_manual_job_page
             | apply settles_render_dashboard ].
Qed.

(** X21: a rerun never asks for another rerun.  The run that a
    [st.rerun()] triggers has no widget as its trigger, and such a run of
    the script ends normally, stops or raises; so every interaction
    settles after at most one rerun. *)
Theorem interact_settles (e : env) (i : input) (w : world) :
  (main e (rerun_input i) w).1 ≠ Exit Rerun
  ∧ (interact e i w).1 ≠ Exit Rerun.
Proof.
  split; [apply settles_main|].
  unfold interact. destruct (main e i w) as [[[]|[]] w1] eqn:Hm; simpl;
    try discriminate.
  apply settles_main.
Qed.

(** ** What the pages leave alone *)

Lemma same_setup_refl w : same_setup w w.
Proof. reflexivity. Qed.

Lemma same_setup_trans w1 w2 w3 :
  same_setup w1 w2 → same_setup w2 w3 → same_setup w1 w3.
Proof. unfold same_setup. intros H1 H2. by rewrite H2. Qed.

Lemma same_setup_emit w ev :
  True → same_setup w (World (w_profile w) (w_session w) (w_trace w ++ [ev])).
Proof. reflexivity. Qed.

Lemma same_setup_assign w (f : session_state → session_state) :
  (∀ s, (step (f s), gmail_service (f s), db (f s), cv_content (f s))
        = (step s, gmail_service s, db s, cv_content s)) →
  same_setup w (World (w_profile w) (f (w_session w)) (w_trace w)).
Proof. intros H. apply H. Qed.

Lemma same_setup_write w d :
  True →
  same_setup w (World (apply_write d (w_profile w)) (w_session w)
                  (w_trace w ++ [Firestore d])).
Proof. reflexivity. Qed.

#[export] Instance same_setup_frame : Frame same_setup := {|
  frame_event := λ _, True;
  frame_assignment := λ f,
    ∀ s, (step (f s), gmail_service (f s), db (f s), cv_content (f s))
         = (step s, gmail_service s, db s, cv_content s);
  frame_write_ok := λ _, True;
  frame_refl := same_setup_refl;
  frame_trans := same_setup_trans;
  frame_emit := same_setup_emit;
  frame_assign := same_setup_assign;
  frame_write := same_setup_write
|}.

Lemma same_setup_attachment_rows (a : action) (idxs : list nat) :
  steady same_setup (attachment_rows a idxs).
Proof.
  induction idxs as [|i idxs IH]; cbn [attachment_rows];
    [apply (steady_ret same_setup)|].
  steady_run. exact IH.
Qed.

Lemma same_setup_render_application_form (e : env) (a : action) (is_manual : bool) :
  steady same_setup (render_application_form e a is_manual).
Proof.
  unfold render_application_form. steady_run.
  all: apply same_setup_attachment_rows.
Qed.

Lemma same_setup_render_manual_job_page (e : env) (a : action) :
  steady same_setup (render_manual_job_page e a).
Proof.
  unfold render_manual_job_page. steady_run.
  all: apply same_setup_render_application_form.
Qed.

Lemma same_setup_render_job_finder (e : env) (a : action) (db : bool) :
  steady same_setup (render_job_finder e a db).
Proof.
  unfold render_job_finder. steady_run.
  all: apply same_setup_render_application_form.
Qed.

(** X22: no page of the main application changes the step, the mailbox
    client, the Firestore handle or the CV text of the session, whatever
    is triggered on it and however its run ends. *)
Theorem pages_keep_setup (e : env) (a : action) (w : world) :
  same_setup w (render_job_finder e a (db (w_session w)) w).2
  ∧ same_setup w (render_manual_job_page e a w).2
  ∧ same_setup w (render_dashboard e w).2.
Proof.
  split; [apply same_setup_render_job_finder|].
  split; [apply same_setup_render_manual_job_page|].
  by apply (steady_render_dashboard same_setup).
Qed.

(** ** The steps of the main script *)

Ltac wp_simpl_in H :=
  cbn beta iota zeta delta [w_profile w_session w_trace clicked negb
    step gmail_service cv_content attachments current_job_id
    generated_email_content manual_email_content db current_job_details
    manual_job_details set_step set_gmail_service set_cv_content
    set_attachments set_current_job_id set_generated_email_content
    set_manual_email_content set_db set_current_job_details
    set_manual_job_details app_page act uploaded_files lang] in H.

Ltac page_keeps_setup :=
  idtac;
  lazymatch goal with
  | |- wp ?m _ _ =>
      lazymatch m with
      | render_job_finder _ _ _ => idtac
      | render_manual_job_page _ _ => idtac
      | render_dashboard _ => idtac
      end;
      eapply (wp_steady same_setup);
      [ first [ apply same_setup_render_job_finder
              | apply same_setup_render_manual_job_page
              | by apply (steady_render_dashboard same_setup) ]
      | let H := fresh "Hsetup" in
        intros ? ? H; unfold same_setup in H; cbn [w_session] in H;
        wp_simpl; wp_simpl_in H; injection H as ? ? ? ? ]
  end.

(** Forgets the equations that say nothing of the step, the mailbox
    client or the Firestore handle. *)
Ltac drop_noise :=
  repeat match goal with
         | H : ?x = _ |- _ =>
             lazymatch x with
             | context [step] => fail
             | context [db] => fail
             | context [gmail_service] => fail
             | _ => clear H
             end
         end.

Lemma main_keeps_access (e : env) (i : input) (w : world) :
  access_kept (w_session w) → access_kept (w_session (main e i w).2).
Proof.
  intros Hinv.
  change (wp (main e i) (λ _ w', access_kept (w_session w')) w).
  unfold main.
  page_exec ltac:(fail) ltac:(page_keeps_setup).
  all: drop_noise.
  all: destruct w as [p [st gm cv att cj ge me d cjd mjd] tr].
  all: unfold access_kept in *; wp_simpl.
  all: repeat match goal with H : _ = _ |- _ => progress wp_simpl_in H end.
  all: wp_simpl_in Hinv.
  all: repeat match goal with
              | H : negb ?b = _ |- _ => is_var b; destruct b; cbn [negb] in H
              end.
  all: intuition congruence.
Qed.

(** X23: past the authorisation step the session holds a mailbox client
    and a Firestore handle, and no interaction breaks that: the upload
    step and the pages are only ever run with both. *)
Theorem access_is_kept (e : env) (inputs : list input) (w : world) :
  access_kept (w_session w) →
  access_kept (w_session (session_run e inputs w)).
Proof.
  unfold session_run. revert w.
  induction inputs as [|i inputs IH]; intros w Hinv; [exact Hinv|].
  cbn [foldl]. apply IH. unfold interact.
  pose proof (main_keeps_access e i w Hinv) as H1.
  destruct (main e i w) as [[[]|[]] w1]; simpl in *; try exact H1.
  by apply main_keeps_access.
Qed.

Lemma access_is_kept_witness :
  access_kept
    (w_session
       (session_run (Sample.env_of (py "Betreff: Bewerbung|||Guten Tag")
                       Sample.three_jobs)
          [Input Job_Finder [] English Click_authorize;
           Input Job_Finder [Sample.cv_pdf] German Click_confirm;
           Input Job_Finder [] German Click_skip]
          Sample.start)).
Proof.
  apply access_is_kept. intros H. exfalso. apply H. reflexivity.
Defined.

(** X24: the main application does not open without a CV.  When neither
    the session nor the profile holds a CV text, the run shows the warning
    and stops before the sidebar and the page; only the button that leads
    back to the upload step does anything, and it asks for a rerun.  The
    session's CV text is set to what the profile has. *)
Theorem main_without_cv_stops (e : env) (i : input) (w : world) :
  is_Some (OPENAI_API_KEY e) →
  db (w_session w) = true →
  step (w_session w) = main_app →
  truthy (cv_content (w_session w)) = false →
  truthy (translated_cv (w_profile w)) = false →
  main e i w
  = (Exit (if clicked (act i) Click_go_to_upload then Rerun else Stop),
     World (w_profile w)
       ((if clicked (act i) Click_go_to_upload then set_step upload_cv else id)
          (set_cv_content (translated_cv (w_profile w)) (w_session w)))
       (w_trace w
        ++ [app_title;
            Ui st_warning (py "CV has not been processed. Please return to the upload step.")])).
Proof.
  intros [key Hkey] Hdb Hstep Hcv Htcv.
  enough (wp (main e i)
            (λ r w',
               (r, w')
               = (Exit (if clicked (act i) Click_go_to_upload then Rerun else Stop),
                  World (w_profile w)
                    ((if clicked (act i) Click_go_to_upload
                      then set_step upload_cv else id)
                       (set_cv_content (translated_cv (w_profile w)) (w_session w)))
                    (w_trace w
                     ++ [app_title;
                         Ui st_warning (py "CV has not been processed. Please return to the upload step.")])))
            w) as H.
  { unfold wp in H. by destruct (main e i w). }
  unfold main.
  page_exec ltac:(first [ rewrite Hkey | rewrite Hdb | rewrite Hstep | rewrite Hcv
                        | rewrite Htcv ])
            ltac:(fail).
  all: rewrite <- !app_assoc; reflexivity.
Qed.

Lemma main_without_cv_stops_witness :
  main (Sample.env_of [] Sample.three_jobs) (Sample.on_page Job_Finder Click_prepare)
    Worked.without_cv
  = (Exit Stop,
     World (w_profile Worked.without_cv)
       (id (set_cv_content (translated_cv (w_profile Worked.without_cv))
              (w_session Worked.without_cv)))
       (w_trace Worked.without_cv
        ++ [app_title;
            Ui st_warning (py "CV has not been processed. Please return to the upload step.")])).
Proof.
  apply (main_without_cv_stops (Sample.env_of [] Sample.three_jobs)
           (Sample.on_page Job_Finder Click_prepare) Worked.without_cv);
    first [reflexivity | eexists; reflexivity].
Defined.

(** X25: a session that reaches the main application without a CV text
    takes the translation stored in the profile, and the page that the run
    goes on to render leaves it in place. *)
Theorem main_loads_stored_cv (e : env) (i : input) (w : world) :
  is_Some (OPENAI_API_KEY e) →
  db (w_session w) = true →
  step (w_session w) = main_app →
  truthy (cv_content (w_session w)) = false →
  truthy (translated_cv (w_profile w)) = true →
  cv_content (w_session (main e i w).2) = translated_cv (w_profile w).
Proof.
  intros [key Hkey] Hdb Hstep Hcv Htcv.
  change (wp (main e i)
            (λ _ w', cv_content (w_session w') = translated_cv (w_profile w)) w).
  unfold main.
  page_exec ltac:(first [ rewrite Hkey | rewrite Hdb | rewrite Hstep | rewrite Hcv
                        | rewrite Htcv ])
            ltac:(page_keeps_setup).
  all: first [reflexivity | assumption].
Qed.

Lemma main_loads_stored_cv_witness :
  cv_content
    (w_session
       (main (Sample.env_of [] Sample.three_jobs)
          (Sample.on_page Job_Finder No_action) Worked.resumed).2)
  = translated_cv (w_profile Worked.resumed).
Proof.
  apply (main_loads_stored_cv (Sample.env_of [] Sample.three_jobs)
           (Sample.on_page Job_Finder No_action) Worked.resumed);
    first [reflexivity | eexists; reflexivity].
Defined.

(** X26: Confirm and Proceed on the upload step, for both languages.  The
    text of the first file is what is read as the CV.  For German it
    becomes the session's CV text as it is and nothing is written or
    asked.  For English one translation request is made and what comes of
    it, [None] when the call fails, becomes the session's CV text and
    overwrites the translation stored in the profile.  In both cases the
    uploaded files are the session's attachments, the step becomes the
    main application and the run asks for a rerun. *)
Theorem confirm_cv_effect (e : env) (i : input) (w : world)
    (cv_file : file) (others : list file) (pages : list str) :
  db (w_session w) = true →
  step (w_session w) = upload_cv →
  uploaded_files i = cv_file :: others →
  act i = Click_confirm →
  pdf_pages e cv_file = inr pages →
  concat pages ≠ [] →
  truthy (getenv (OPENAI_API_KEY e)) = true →
  let r := main e i w in
  let translated :=
    match chat_completions_create e (count_chat (w_trace w)) translator
            (translation_prompt (concat pages)) with
    | ApiContent x => PStr (strip x)
    | ApiRaises _ => PNone
    end in
  r.1 = Exit Rerun
  ∧ attachments (w_session r.2) = cv_file :: others
  ∧ step (w_session r.2) = main_app
  ∧ ∃ tr', w_trace r.2 = w_trace w ++ tr'
      ∧ match lang i with
        | German =>
            cv_content (w_session r.2) = PStr (concat pages)
            ∧ w_profile r.2 = w_profile w
            ∧ List.filter is_chat tr' = [] ∧ List.filter is_write tr' = []
        | English =>
            cv_content (w_session r.2) = translated
            ∧ w_profile r.2
              = Profile translated (applied_jobs (w_profile w))
                  (sent_count (w_profile w)) (skipped_count (w_profile w))
                  (sent_emails (w_profile w))
            ∧ List.filter is_chat tr'
              = [ChatCompletion translator (translation_prompt (concat pages))]
            ∧ List.filter is_write tr' = [Firestore (Set_translated_cv translated)]
        end.
Proof.
  intros Hdb Hstep Hup Hact Hpdf Hne Hkey r translated. subst r translated.
  destruct (OPENAI_API_KEY e) as [key|] eqn:Hk; [|discriminate Hkey].
  change (wp (main e i)
            (λ r w',
               r = Exit Rerun
               ∧ attachments (w_session w') = cv_file :: others
               ∧ step (w_session w') = main_app
               ∧ ∃ tr', w_trace w' = w_trace w ++ tr'
                   ∧ match lang i with
                     | German =>
                         cv_content (w_session w') = PStr (concat pages)
                         ∧ w_profile w' = w_profile w
                         ∧ List.filter is_chat tr' = []
                         ∧ List.filter is_write tr' = []
                     | English =>
                         cv_content (w_session w')
                         = match chat_completions_create e (count_chat (w_trace w))
                                   translator (translation_prompt (concat pages)) with
                           | ApiContent x => PStr (strip x)
                           | ApiRaises _ => PNone
                           end
                         ∧ w_profile w'
                           = Profile
                               match chat_completions_create e (count_chat (w_trace w))
                                       translator (translation_prompt (concat pages)) with
                               | ApiContent x => PStr (strip x)
                               | ApiRaises _ => PNone
                               end
                               (applied_jobs (w_profile w))
                               (sent_count (w_profile w)) (skipped_count (w_profile w))
                               (sent_emails (w_profile w))
                         ∧ List.filter is_chat tr'
                           = [ChatCompletion translator
                                (translation_prompt (concat pages))]
                         ∧ List.filter is_write tr'
                           = [Firestore (Set_translated_cv
                                match chat_completions_create e (count_chat (w_trace w))
                                        translator (translation_prompt (concat pages)) with
                                | ApiContent x => PStr (strip x)
                                | ApiRaises _ => PNone
                                end)]
                     end) w).
  assert (count_chat_ui : ∀ tr tr', forallb is_ui tr' = true →
            count_chat (tr ++ tr') = count_chat tr).
  { intros tr tr' H. rewrite count_chat_app. unfold count_chat at 2.
    destruct (only_ui_filters tr' H) as (_ & _ & ->). simpl. lia. }
  pose proof (truthy_str _ Hne) as Htext.
  unfold main. unfold translator, translation_prompt.
  destruct (lang i) eqn:Hlang.
  all: page_exec ltac:(first [ rewrite Hk | rewrite Hdb | rewrite Hstep | rewrite Hup
                             | rewrite Hact
                             | rewrite andb_false_r | rewrite andb_true_r
                             | rewrite Hpdf
                             | rewrite concat_skip_empty | rewrite Htext
                             | rewrite Hlang | rewrite Hkey
                             | rewrite !count_chat_ui by reflexivity ])
                 ltac:(fail).
  all: split; [reflexivity|]; split; [reflexivity|]; split; [reflexivity|].
  all: rewrite <- !app_assoc; eexists; split; [reflexivity|].
  all: repeat match goal with
              | H : chat_completions_create _ _ _ _ = _ |- _ =>
                  cbn [fmt] in H; rewrite H; clear H
              end.
  all: repeat split; reflexivity.
Qed.

Lemma confirm_cv_effect_witness :
  let e := Sample.env_of (py " Lebenslauf auf Deutsch ") [] in
  let i := Input Job_Finder [Sample.cv_pdf; Sample.diploma_pdf] English Click_confirm in
  let w := Sample.uploading in
  let r := main e i w in
  let translated :=
    match chat_completions_create e (count_chat (w_trace w)) translator
            (translation_prompt (concat [py "Lebenslauf"])) with
    | ApiContent x => PStr (strip x)
    | ApiRaises _ => PNone
    end in
  r.1 = Exit Rerun
  ∧ attachments (w_session r.2) = [Sample.cv_pdf; Sample.diploma_pdf]
  ∧ step (w_session r.2) = main_app
  ∧ ∃ tr', w_trace r.2 = w_trace w ++ tr'
      ∧ cv_content (w_session r.2) = translated
      ∧ w_profile r.2
        = Profile translated (applied_jobs (w_profile w))
            (sent_count (w_profile w)) (skipped_count (w_profile w))
            (sent_emails (w_profile w))
      ∧ List.filter is_chat tr'
        = [ChatCompletion translator (translation_prompt (concat [py "Lebenslauf"]))]
      ∧ List.filter is_write tr' = [Firestore (Set_translated_cv translated)].
Proof.
  apply (confirm_cv_effect (Sample.env_of (py " Lebenslauf auf Deutsch ") [])
           (Input Job_Finder [Sample.cv_pdf; Sample.diploma_pdf] English Click_confirm)
           Sample.uploading Sample.cv_pdf [Sample.diploma_pdf] [py "Lebenslauf"]).
  - reflexivity.
  - reflexivity.
  - reflexivity.
  - reflexivity.
  - reflexivity.
  - discriminate.
  - reflexivity.
Defined.

(** X27: Use previously saved CV.  When the profile holds a translation,
    the button makes it the session's CV text and moves on to the main
    application with a rerun, before the uploader is looked at: files
    uploaded in the same run are not taken, the attachments stay as they
    were, nothing is written and the model is not asked. *)
Theorem use_saved_cv_effect (e : env) (i : input) (w : world) :
  is_Some (OPENAI_API_KEY e) →
  db (w_session w) = true →
  step (w_session w) = upload_cv →
  truthy (translated_cv (w_profile w)) = true →
  act i = Click_use_saved_cv →
  main e i w
  = (Exit Rerun,
     World (w_profile w)
       (set_step main_app
          (set_cv_content (translated_cv (w_profile w)) (w_session w)))
       (w_trace w
        ++ [app_title;
            Ui st_header (py "Step 2: Upload Your Documents");
            Ui st_success (py "Loaded CV from database.")])).
Proof.
  intros [key Hkey] Hdb Hstep Htcv Hact.
  enough (wp (main e i)
            (λ r w',
               (r, w')
               = (Exit Rerun,
                  World (w_profile w)
                    (set_step main_app
                       (set_cv_content (translated_cv (w_profile w)) (w_session w)))
                    (w_trace w
                     ++ [app_title;
                         Ui st_header (py "Step 2: Upload Your Documents");
                         Ui st_success (py "Loaded CV from database.")])))
            w) as H.
  { unfold wp in H. by destruct (main e i w). }
  unfold main.
  page_exec ltac:(first [ rewrite Hkey | rewrite Hdb | rewrite Hstep | rewrite Htcv
                        | rewrite Hact | rewrite andb_true_r ])
            ltac:(fail).
  all: rewrite <- !app_assoc; reflexivity.
Qed.

Lemma use_saved_cv_effect_witness :
  main (Sample.env_of [] [])
    (Input Job_Finder [Sample.diploma_pdf] English Click_use_saved_cv)
    Worked.returning
  = (Exit Rerun,
     World (w_profile Worked.returning)
       (set_step main_app
          (set_cv_content (translated_cv (w_profile Worked.returning))
             (w_session Worked.returning)))
       (w_trace Worked.returning
        ++ [app_title;
            Ui st_header (py "Step 2: Upload Your Documents");
            Ui st_success (py "Loaded CV from database.")])).
Proof.
  apply (use_saved_cv_effect (Sample.env_of [] [])
           (Input Job_Finder [Sample.diploma_pdf] English Click_use_saved_cv)
           Worked.returning);
    first [reflexivity | eexists; reflexivity].
Defined.

(** ** The connection to Firestore *)

(** X28: [get_firestore_db] never raises and touches neither the profile
    nor the session.  It returns no handle exactly when the service
    account is missing or empty, or using it raises, and then surfaces
    exactly one error; a successful connection shows nothing. *)
Theorem get_firestore_db_outcome (e : env) (w : world) :
  ∃ connected tr',
    get_firestore_db e w
    = (Ok connected, World (w_profile w) (w_session w) (w_trace w ++ tr'))
    ∧ (connected = false ↔ connection_fails e)
    ∧ (if connected then tr' = []
       else ∃ msg, tr' = [Ui st_error msg]).
Proof.
  destruct w as [p s tr]. unfold get_firestore_db, connection_fails.
  destruct (truthy (getenv (FIREBASE_SERVICE_ACCOUNT_JSON e))) eqn:Hcreds;
    cbv [negb mbind M_bind emit mret M_ret w_profile w_session w_trace].
  - destruct (firestore_client e (fmt (getenv (FIREBASE_SERVICE_ACCOUNT_JSON e))))
      as [x|] eqn:Hclient.
    + exists false. eexists. split; [reflexivity|]. split; [|by eexists].
      split; [intros _; right; by eexists | done].
    + exists true, []. split; [by rewrite app_nil_r|]. split; [|done].
      split; [done | intros [? | [? ?]]; congruence].
  - exists false. eexists. split; [reflexivity|]. split; [|by eexists].
    split; [intros _; by left | done].
Qed.
